(** * Blacky: a shallow embedding of [blacky.py] and its properties

    The development follows the layout of the script:
    - [PyStr]: the operations of Python's [str] that the script uses;
    - [Json]: the values produced by [json.load], with Python truthiness;
    - [PurePath]: the part of [pathlib] the script relies on;
    - the world (file system, standard input, clock), the trace of
      observable effects and a state-and-exception monad;
    - [MiniRe]: an interpreter for a fragment of the syntax of [re];
    - the functions of the script, in source order, and [Sample], a
      concrete environment on which they are run;
    - the vocabulary of the properties, then the properties with their
      proofs, claim by claim.

    The collaborators of the script (the JSON parser, the
    regular-expression engine, the child processes) are parameters of
    the model, gathered in [Env]: every theorem about a function holds
    whatever they answer.

    Text is modelled by [string] whose characters are code points in the
    range 0..255; the tables of [str.strip], [str.lower] and
    [str.splitlines] are those of Python restricted to that range. *)

From Stdlib Require Import ZArith Floats Ascii.
From stdpp Require Import base gmap strings list sorting pretty.

Set Warnings "-register-all".
Local Open Scope string_scope.
Local Open Scope nat_scope.
Local Open Scope list_scope.

(** ** Python's [str] *)

Module PyStr.

Definition chr (n : nat) : string := String (Ascii.ascii_of_nat n) "".

(** Characters with no printable spelling inside a literal. *)
Definition nl : string := chr 10.
Definition dq : string := chr 34.

(** [str.isspace] for one character: the code points Python treats as
    white space below 256. *)
Definition isspace (c : ascii) : bool :=
  let n := Ascii.nat_of_ascii c in
  ((9 <=? n) && (n <=? 13)) || ((28 <=? n) && (n <=? 32))
  || (n =? 133) || (n =? 160).

Fixpoint lstrip (s : string) : string :=
  match s with
  | String c s' => if isspace c then lstrip s' else s
  | "" => ""
  end.

Definition rstrip (s : string) : string :=
  String.rev (lstrip (String.rev s)).

(** [s.strip()] *)
Definition strip (s : string) : string := rstrip (lstrip s).

(** [str.lower] on one character: A-Z, and the upper-case letters of
    the range 192..222 except the multiplication sign. *)
Definition lower_char (c : ascii) : ascii :=
  let n := Ascii.nat_of_ascii c in
  if ((65 <=? n) && (n <=? 90))
     || ((192 <=? n) && (n <=? 222) && negb (n =? 215))
  then Ascii.ascii_of_nat (n + 32) else c.

Fixpoint lower (s : string) : string :=
  match s with
  | String c s' => String (lower_char c) (lower s')
  | "" => ""
  end.

(** [sep.join(l)] *)
Fixpoint join (sep : string) (l : list string) : string :=
  match l with
  | [] => ""
  | [x] => x
  | x :: l' => x +:+ sep +:+ join sep l'
  end.

(** [s * n] *)
Fixpoint repeat (s : string) (n : nat) : string :=
  match n with
  | O => ""
  | S n' => s +:+ repeat s n'
  end.

(** [s[n:]] *)
Fixpoint slice_from (n : nat) (s : string) : string :=
  match n, s with
  | O, _ => s
  | S n', String _ s' => slice_from n' s'
  | S _, "" => ""
  end.

(** [c in s] for a single character [c] *)
Fixpoint contains (c : ascii) (s : string) : bool :=
  match s with
  | String d s' => if Ascii.eqb c d then true else contains c s'
  | "" => false
  end.

(** [s.endswith(suffix)] *)
Definition endswith (s suffix : string) : bool :=
  let n := String.length s in
  let k := String.length suffix in
  (k <=? n) && String.eqb (slice_from (n - k) s) suffix.

(** Line boundaries of [str.splitlines] below 256. *)
Definition is_linebreak (c : ascii) : bool :=
  let n := Ascii.nat_of_ascii c in
  ((10 <=? n) && (n <=? 13)) || ((28 <=? n) && (n <=? 30)) || (n =? 133).

(** [splitlines_go cur s]: [cur] is the line being read, reversed. A
    carriage return followed by a line feed is one boundary; there is
    no empty last line after a final boundary. *)
Fixpoint splitlines_go (cur : string) (s : string) : list string :=
  match s with
  | "" => if String.eqb cur "" then [] else [String.rev cur]
  | String c s' =>
      if is_linebreak c then
        match Ascii.nat_of_ascii c, s' with
        | 13, String d s'' =>
            if Nat.eqb (Ascii.nat_of_ascii d) 10
            then String.rev cur :: splitlines_go "" s''
            else String.rev cur :: splitlines_go "" s'
        | _, _ => String.rev cur :: splitlines_go "" s'
        end
      else splitlines_go (String c cur) s'
  end.

(** [s.splitlines()] *)
Definition splitlines (s : string) : list string := splitlines_go "" s.

End PyStr.

(** ** Exceptions and results *)

(** The exceptions that can leave a function of the script. [OSError]
    carries the name of the subclass raised by the operating system
    interface ([FileNotFoundError], [IsADirectoryError], ...). *)
Inductive exn :=
  | AttributeError
  | TypeError
  | EOFError
  | CalledProcessError (returncode : Z)
  | OSError (kind : string).

(** The result of evaluating a Python expression or call. *)
Inductive res (A : Type) :=
  | Ret (a : A)
  | Raise (e : exn).
Arguments Ret {A} a.
Arguments Raise {A} e.

(** ** JSON values, as [json.load] builds them *)

Module Json.

Inductive json :=
  | JNull
  | JBool (b : bool)
  | JInt (z : Z)
  | JFloat (f : float)
  | JStr (s : string)
  | JArr (l : list json)
  | JObj (m : gmap string json).

(** [bool(v)]: what [if v] and [not v] test. *)
Definition truthy (v : json) : bool :=
  match v with
  | JNull => false
  | JBool b => b
  | JInt z => negb (z =? 0)%Z
  | JFloat f => negb (PrimFloat.eqb f 0%float)
  | JStr s => negb (String.eqb s "")
  | JArr l => negb (bool_decide (l = []))
  | JObj m => negb (bool_decide (m = ∅))
  end.

(** [v.get(key)]: only a dict has the method; a missing key gives
    [None]. *)
Definition get (v : json) (key : string) : res json :=
  match v with
  | JObj m => Ret (default JNull (m !! key))
  | _ => Raise AttributeError
  end.

(** [a or b] *)
Definition or_else (a b : json) : json := if truthy a then a else b.

(** [' ' in v]: substring test on a str, membership on a list, key
    test on a dict; the other values are not iterable. *)
Definition has_space (v : json) : res bool :=
  match v with
  | JStr s => Ret (PyStr.contains " "%char s)
  | JArr l =>
      Ret (existsb (λ x, match x with
                         | JStr s => String.eqb s " "
                         | _ => false
                         end) l)
  | JObj m => Ret (bool_decide (is_Some (m !! " ")))
  | _ => Raise TypeError
  end.

End Json.
Export Json.

(** ** Pure paths of [pathlib] (POSIX flavour) *)

Module PurePath.

(** A path is its root ([""], ["/"] or ["//"]) and its components. *)
Record Path := mkPath { root : string; parts : list string }.

(** [split_go cur s]: split [s] at every slash; [cur] is the component
    being read, reversed. *)
Fixpoint split_go (cur : string) (s : string) : list string :=
  match s with
  | "" => [String.rev cur]
  | String c s' =>
      if Ascii.eqb c "/" then String.rev cur :: split_go "" s'
      else split_go (String c cur) s'
  end.

Definition parse_root (s : string) : string :=
  match s with
  | String "/" (String "/" (String "/" _)) => "/"
  | String "/" (String "/" _) => "//"
  | String "/" _ => "/"
  | _ => ""
  end.

Definition keep_part (c : string) : bool :=
  negb (String.eqb c "") && negb (String.eqb c ".").

(** [Path(s)]: empty and [.] components are dropped, [..] is kept. *)
Definition parse (s : string) : Path :=
  mkPath (parse_root s) (filter (λ c, keep_part c = true) (split_go "" s)).

(** [p.as_posix()], which is also [str(p)]. *)
Definition as_posix (p : Path) : string :=
  match root p, parts p with
  | "", [] => "."
  | r, ps => r +:+ PyStr.join "/" ps
  end.

(** [p / s] *)
Definition joinpath (p : Path) (s : string) : Path :=
  let q := parse s in
  if String.eqb (root q) "" then mkPath (root p) (parts p ++ parts q)
  else q.

(** [p.parents], nearest first. *)
Fixpoint parents_go (r : string) (ps : list string) (n : nat) : list Path :=
  match n with
  | O => []
  | S n' => mkPath r (take n' ps) :: parents_go r ps n'
  end.

Definition parents (p : Path) : list Path :=
  parents_go (root p) (parts p) (length (parts p)).

(** [p.name] *)
Definition name (p : Path) : string := List.last (parts p) "".

Definition is_absolute (p : Path) : bool := negb (String.eqb (root p) "").

End PurePath.
Export PurePath.

(** ** The world outside the process *)

(** A file has text and a modification time; a directory lists the
    names of its entries in the order in which the system enumerates
    them. The file system maps absolute paths in [pathlib]'s rendering
    to nodes; there are no symbolic links. *)
Inductive node :=
  | File (content : string) (mtime : Z)
  | Dir (entries : list string).

Record World := mkWorld {
  w_cwd : string;
  w_fs : gmap string node;
  w_stdin : list string;
  w_now : Z;
}.

Definition with_stdin (w : World) (stdin : list string) : World :=
  mkWorld (w_cwd w) (w_fs w) stdin (w_now w).

Definition with_fs (w : World) (fs : gmap string node) : World :=
  mkWorld (w_cwd w) fs (w_stdin w) (w_now w).

(** How a call of [subprocess.run] ended: the child exited with a
    status, or the call raised an exception of its own (the program
    was not found, say). *)
Inductive outcome :=
  | Exited (returncode : Z)
  | Raised (e : exn).

(** The observable effects of a run, in the order in which they
    happen: text written to the two output streams, child processes
    with the list of arguments handed to the system, and files
    written. *)
Inductive event :=
  | Stdout (text : string)
  | Stderr (text : string)
  | Spawn (cwd : option string) (cmd : list string) (o : outcome)
  | Wrote (path : string) (content : string).

Record St := mkSt { st_world : World; st_log : list event }.

(** A match object of [re]: [m.groups()] (group 1 first; [None] marks a
    group that took no part in the match) and [m.groupdict()]. *)
Record MatchObj := mkMatch {
  groups : list (option string);
  groupdict : gmap string (option string);
}.

(** The collaborators the script does not own: the JSON parser, the
    rendering of values by [str()], the regular-expression engine and
    the child processes. A compiled pattern is its [search] method;
    compilation fails with the message of [re.error]. A child process
    may change the world; [subprocess.run] either raises on its own or
    reports the exit status and the captured output. *)
Record Env := mkEnv {
  json_loads : string → string + json;
  py_repr : json → string;
  re_compile : string → string + (string → option MatchObj);
  spawn : option string → list string → World → (exn + Z * string) * World;
}.

(** ** State and exceptions *)

Definition M (A : Type) : Type := St → res A * St.

#[global] Instance M_ret : MRet M := λ A a st, (Ret a, st).
#[global] Instance M_bind : MBind M := λ A B f m st,
  match m st with
  | (Ret a, st') => f a st'
  | (Raise e, st') => (Raise e, st')
  end.

Definition raise {A} (e : exn) : M A := λ st, (Raise e, st).

Definition lift {A} (r : res A) : M A := λ st, (r, st).

(** [try: m except ...: h]: [handler e] is [None] when no clause
    matches [e]. *)
Definition try_except {A} (m : M A) (handler : exn → option (M A)) : M A :=
  λ st,
    match m st with
    | (Ret a, st') => (Ret a, st')
    | (Raise e, st') =>
        match handler e with
        | Some h => h st'
        | None => (Raise e, st')
        end
    end.

Definition get_world : M World := λ st, (Ret (st_world st), st).

Definition emit (e : event) : M unit :=
  λ st, (Ret tt, mkSt (st_world st) (st_log st ++ [e])).

(** [for x in l: body] *)
Fixpoint for_each {A} (l : list A) (body : A → M unit) : M unit :=
  match l with
  | [] => mret tt
  | x :: l' => body x;; for_each l' body
  end.

(** [print(s)] and [print(s, file=sys.stderr)] *)
Definition print (s : string) : M unit := emit (Stdout (s +:+ PyStr.nl)).
Definition eprint (s : string) : M unit := emit (Stderr (s +:+ PyStr.nl)).

(** [input(prompt)]: the prompt goes to standard output; the line comes
    back without its newline; end of input raises [EOFError]. *)
Definition input (prompt : string) : M string :=
  λ st,
    let st1 := mkSt (st_world st) (st_log st ++ [Stdout prompt]) in
    match w_stdin (st_world st) with
    | [] => (Raise EOFError, st1)
    | line :: rest => (Ret line, mkSt (with_stdin (st_world st) rest) (st_log st1))
    end.

(** ** A reference interpreter for a fragment of [re]

    The fragment has literals, [.], [\d], escaped punctuation, [^], [$],
    capturing, named and non-capturing groups, alternation and the
    greedy quantifiers [*], [+] and [?] over bodies that cannot match
    the empty string. [compile] answers [None] for a pattern outside the
    fragment, so that nothing is claimed about it. *)

Module MiniRe.

Inductive regex :=
  | Eps
  | Chr (c : ascii)
  | AnyChar
  | Digit
  | Bol
  | Eol
  | Seq (r1 r2 : regex)
  | Alt (r1 r2 : regex)
  | Star (r : regex)
  | Opt (r : regex)
  | Group (idx : nat) (r : regex).

Definition is_digit (c : ascii) : bool :=
  let n := Ascii.nat_of_ascii c in (48 <=? n) && (n <=? 57).

Definition is_newline (c : ascii) : bool := Nat.eqb (Ascii.nat_of_ascii c) 10.

(** Can [r] match without consuming a character? *)
Fixpoint nullable (r : regex) : bool :=
  match r with
  | Eps | Bol | Eol | Star _ | Opt _ => true
  | Chr _ | AnyChar | Digit => false
  | Seq r1 r2 => nullable r1 && nullable r2
  | Alt r1 r2 => nullable r1 || nullable r2
  | Group _ r' => nullable r'
  end.

(** Backtracking matcher in continuation-passing style. [pos] is the
    offset of [s] in the subject; [c] holds the captures so far; [k]
    is the rest of the pattern. Alternatives are tried left to right
    and quantifiers take as much as they can first. *)
Fixpoint go (r : regex) (pos : nat) (s : string) (c : list (option string))
    (k : nat → string → list (option string) → option (list (option string)))
    {struct r} : option (list (option string)) :=
  match r with
  | Eps => k pos s c
  | Chr a =>
      match s with
      | String b s' => if Ascii.eqb a b then k (S pos) s' c else None
      | "" => None
      end
  | AnyChar =>
      match s with
      | String b s' => if is_newline b then None else k (S pos) s' c
      | "" => None
      end
  | Digit =>
      match s with
      | String b s' => if is_digit b then k (S pos) s' c else None
      | "" => None
      end
  | Bol => if pos =? 0 then k pos s c else None
  | Eol =>
      if String.eqb s "" || String.eqb s PyStr.nl then k pos s c else None
  | Seq r1 r2 => go r1 pos s c (λ pos' s' c', go r2 pos' s' c' k)
  | Alt r1 r2 =>
      match go r1 pos s c k with
      | Some c' => Some c'
      | None => go r2 pos s c k
      end
  | Star r' =>
      (fix loop (n : nat) (pos : nat) (s : string) (c : list (option string)) :=
         match n with
         | O => k pos s c
         | S n' =>
             match go r' pos s c
                      (λ pos' s' c', if pos <? pos' then loop n' pos' s' c'
                                     else None) with
             | Some c' => Some c'
             | None => k pos s c
             end
         end) (S (String.length s)) pos s c
  | Opt r' =>
      match go r' pos s c k with
      | Some c' => Some c'
      | None => k pos s c
      end
  | Group i r' =>
      go r' pos s c
         (λ pos' s' c',
            k pos' s' (<[i - 1 := Some (String.substring 0 (pos' - pos) s)]> c'))
  end.

(** [pattern.search]: the leftmost start at which the pattern matches. *)
Fixpoint search_from (r : regex) (ngroups : nat) (pos : nat) (s : string)
    : option (list (option string)) :=
  match go r pos s (replicate ngroups None) (λ _ _ c, Some c) with
  | Some c => Some c
  | None =>
      match s with
      | String _ s' => search_from r ngroups (S pos) s'
      | "" => None
      end
  end.

(** A compiled pattern: the expression, the number of groups and
    [pattern.groupindex]. *)
Record compiled := mkCompiled {
  c_regex : regex;
  c_ngroups : nat;
  c_names : gmap string nat;
}.

Definition search (p : compiled) (s : string) : option MatchObj :=
  match search_from (c_regex p) (c_ngroups p) 0 s with
  | Some c =>
      Some (mkMatch c ((λ i, default None (c !! (i - 1))) <$> c_names p))
  | None => None
  end.

(** *** The parser *)

Inductive perr :=
  | Outside               (* not in the fragment *)
  | Invalid (msg : string). (* [re.error] with this message *)

Record pstate := mkP {
  p_rest : string;
  p_count : nat;
  p_names : gmap string nat;
}.

Definition is_name_char (c : ascii) : bool :=
  let n := Ascii.nat_of_ascii c in
  ((65 <=? n) && (n <=? 90)) || ((97 <=? n) && (n <=? 122)) || (n =? 95)
  || is_digit c.

(** ASCII punctuation: a backslash before it gives the character. *)
Definition is_punct (c : ascii) : bool :=
  let n := Ascii.nat_of_ascii c in
  ((33 <=? n) && (n <=? 47)) || ((58 <=? n) && (n <=? 64))
  || ((91 <=? n) && (n <=? 96)) || ((123 <=? n) && (n <=? 126)).

(** Read a group name up to its closing [>]. *)
Fixpoint read_name (acc : string) (s : string) : option (string * string) :=
  match s with
  | String c s' =>
      if Ascii.eqb c ">" then
        match String.rev acc with
        | "" => None
        | String c0 _ as nm => if is_digit c0 then None else Some (nm, s')
        end
      else if is_name_char c then read_name (String c acc) s'
      else None
  | "" => None
  end.

Definition is_quant (c : ascii) : bool :=
  Ascii.eqb c "*" || Ascii.eqb c "+" || Ascii.eqb c "?".

(** Apply the quantifier that follows an atom, if there is one. *)
Definition quantify (r : regex) (st : pstate) : perr + regex * pstate :=
  match p_rest st with
  | String q rest =>
      if is_quant q then
        match rest with
        | String q' _ =>
            if is_quant q' || Ascii.eqb q' "{" then inl Outside
            else
              if nullable r then inl Outside
              else
                let st' := mkP rest (p_count st) (p_names st) in
                if Ascii.eqb q "*" then inr (Star r, st')
                else if Ascii.eqb q "+" then inr (Seq r (Star r), st')
                else inr (Opt r, st')
        | "" =>
            if nullable r then inl Outside
            else
              let st' := mkP rest (p_count st) (p_names st) in
              if Ascii.eqb q "*" then inr (Star r, st')
              else if Ascii.eqb q "+" then inr (Seq r (Star r), st')
              else inr (Opt r, st')
        end
      else inr (r, st)
  | "" => inr (r, st)
  end.

Definition at_position (total : nat) (rest : string) : string :=
  " at position " +:+ pretty.pretty (total - String.length rest).

(** Recursive descent, with [fuel] bounding the depth; [total] is the
    length of the whole pattern, for the positions in messages. *)
Fixpoint p_alt (fuel : nat) (total : nat) (st : pstate)
    : perr + regex * pstate :=
  match fuel with
  | O => inl Outside
  | S f =>
      match p_seq f total st with
      | inl e => inl e
      | inr (r1, st1) =>
          match p_rest st1 with
          | String "|" rest =>
              match p_alt f total (mkP rest (p_count st1) (p_names st1)) with
              | inl e => inl e
              | inr (r2, st2) => inr (Alt r1 r2, st2)
              end
          | _ => inr (r1, st1)
          end
      end
  end
with p_seq (fuel : nat) (total : nat) (st : pstate)
    : perr + regex * pstate :=
  match fuel with
  | O => inl Outside
  | S f =>
      match p_rest st with
      | "" => inr (Eps, st)
      | String c rest =>
          if Ascii.eqb c "|" || Ascii.eqb c ")" then inr (Eps, st)
          else
            match p_atom f total st with
            | inl e => inl e
            | inr (r1, st1) =>
                match quantify r1 st1 with
                | inl e => inl e
                | inr (r1', st1') =>
                    match p_seq f total st1' with
                    | inl e => inl e
                    | inr (r2, st2) => inr (Seq r1' r2, st2)
                    end
                end
            end
      end
  end
with p_atom (fuel : nat) (total : nat) (st : pstate)
    : perr + regex * pstate :=
  match fuel with
  | O => inl Outside
  | S f =>
      match p_rest st with
      | "" => inl Outside
      | String c rest =>
          let plain r := inr (r, mkP rest (p_count st) (p_names st)) in
          if Ascii.eqb c "." then plain AnyChar
          else if Ascii.eqb c "^" then
            match rest with
            | String q _ => if is_quant q then inl Outside else plain Bol
            | "" => plain Bol
            end
          else if Ascii.eqb c "$" then
            match rest with
            | String q _ => if is_quant q then inl Outside else plain Eol
            | "" => plain Eol
            end
          else if is_quant c then
            inl (Invalid ("nothing to repeat" +:+ at_position total (p_rest st)))
          else if Ascii.eqb c "[" || Ascii.eqb c "]" || Ascii.eqb c "{"
                  || Ascii.eqb c "}" then inl Outside
          else if Ascii.eqb c "\" then
            match rest with
            | String d rest' =>
                let st' := mkP rest' (p_count st) (p_names st) in
                if Ascii.eqb d "d" then inr (Digit, st')
                else if is_punct d then inr (Chr d, st')
                else inl Outside
            | "" => inl Outside
            end
          else if Ascii.eqb c "(" then
            let unterminated :=
              Invalid ("missing ), unterminated subpattern"
                       +:+ at_position total (p_rest st)) in
            let close idx body :=
              match body with
              | inl e => inl e
              | inr (r, st1) =>
                  match p_rest st1 with
                  | String ")" rest1 =>
                      inr (match idx with
                           | Some i => Group i r
                           | None => r
                           end,
                           mkP rest1 (p_count st1) (p_names st1))
                  | _ => inl unterminated
                  end
              end in
            match rest with
            | String "?" (String ":" rest') =>
                close None (p_alt f total (mkP rest' (p_count st) (p_names st)))
            | String "?" (String "P" (String "<" rest')) =>
                match read_name "" rest' with
                | Some (nm, rest'') =>
                    match p_names st !! nm with
                    | Some _ => inl Outside
                    | None =>
                        let i := S (p_count st) in
                        close (Some i)
                              (p_alt f total (mkP rest'' i (<[nm := i]> (p_names st))))
                    end
                | None => inl Outside
                end
            | String "?" _ => inl Outside
            | _ =>
                let i := S (p_count st) in
                close (Some i) (p_alt f total (mkP rest i (p_names st)))
            end
          else plain (Chr c)
      end
  end.

(** [re.compile] on the fragment: [None] outside it, otherwise the
    [re.error] message or the compiled pattern. *)
Definition compile (pattern : string) : option (string + compiled) :=
  let total := String.length pattern in
  match p_alt (4 * total + 8) total (mkP pattern 0 ∅) with
  | inl Outside => None
  | inl (Invalid msg) => Some (inl msg)
  | inr (r, st) =>
      match p_rest st with
      | "" => Some (inr (mkCompiled r (p_count st) (p_names st)))
      | String ")" _ =>
          Some (inl ("unbalanced parenthesis" +:+ at_position total (p_rest st)))
      | _ => None
      end
  end.

End MiniRe.

(** ** The script

    The functions of [blacky.py] that take part in [create-pr], in the
    order of the source, and [get_git_remote_url], which nothing
    calls. The command-line parser, which is [argparse] at work, is
    left out. Values that come from the configuration are [json]
    values, since the loader does not check their type; a function
    that needs a str raises [TypeError] where Python does. *)

Import PyStr.

(** [str(v)] inside an f-string: a str is itself, any other value is
    rendered by the interpreter. *)
Definition py_str (E : Env) (v : json) : string :=
  match v with
  | JStr s => s
  | _ => py_repr E v
  end.

(** The items of a list that [str.join] and [subprocess.run] accept
    only if every one is a str. *)
Fixpoint str_items (l : list json) : res (list string) :=
  match l with
  | [] => Ret []
  | JStr s :: l' =>
      match str_items l' with
      | Ret ss => Ret (s :: ss)
      | Raise e => Raise e
      end
  | _ :: _ => Raise TypeError
  end.

(** Evaluate [f] on every item, left to right, stopping at the first
    exception. *)
Fixpoint res_map {A B} (f : A → res B) (l : list A) : res (list B) :=
  match l with
  | [] => Ret []
  | x :: l' =>
      match f x with
      | Ret y =>
          match res_map f l' with
          | Ret ys => Ret (y :: ys)
          | Raise e => Raise e
          end
      | Raise e => Raise e
      end
  end.

(** *** Constants / Defaults *)

Definition DEFAULT_CONFIG_FILE : string := "blacky.conf.json".

(** *** Pretty logging / messages *)

(** The parrot U+1F99C lies outside the 8-bit range of the text model;
    it is written as its four UTF-8 bytes. *)
Definition _prefix : string := chr 240 +:+ chr 159 +:+ chr 166 +:+ chr 156.

Definition info (msg : string) : M unit := print (_prefix +:+ " " +:+ msg).

Definition warn (msg : string) : M unit :=
  eprint (_prefix +:+ ":warn  " +:+ msg).

Definition error (msg : string) : M unit :=
  eprint (_prefix +:+ ":error " +:+ msg).

Definition print_section (title : string) : M unit :=
  let line := PyStr.repeat "-" (Nat.max 10 (String.length title + 4)) in
  print (nl +:+ line +:+ nl +:+ title +:+ nl +:+ line).

(** *** Paths on the file system *)

(** The key of [p] in the file system: a relative path is taken from
    the working directory. *)
Definition fs_key (w : World) (p : Path) : string :=
  as_posix (if is_absolute p then p else joinpath (parse (w_cwd w)) (as_posix p)).

(** [p.exists()] *)
Definition path_exists (w : World) (p : Path) : bool :=
  bool_decide (is_Some (w_fs w !! fs_key w p)).

(** [p.is_file()] *)
Definition is_file (w : World) (p : Path) : bool :=
  match w_fs w !! fs_key w p with
  | Some (File _ _) => true
  | _ => false
  end.

(** [p.stat().st_mtime], asked of regular files only. *)
Definition st_mtime (w : World) (p : Path) : Z :=
  match w_fs w !! fs_key w p with
  | Some (File _ t) => t
  | _ => 0%Z
  end.

(** [dir.glob("*.md")]: the entries of the directory whose name ends in
    [.md], in enumeration order; nothing when [dir] is no directory. *)
Definition glob_md (w : World) (dir : Path) : list Path :=
  match w_fs w !! fs_key w dir with
  | Some (Dir entries) =>
      map (joinpath dir) (filter (λ n, endswith n ".md" = true) entries)
  | _ => []
  end.

(** [sorted(l, key=key, reverse=True)]: descending, and stable: items
    with equal keys keep their order. *)
Fixpoint insert_desc {A} (key : A → Z) (x : A) (l : list A) : list A :=
  match l with
  | [] => [x]
  | y :: l' => if (key y <=? key x)%Z then x :: l else y :: insert_desc key x l'
  end.

Definition sorted_desc {A} (key : A → Z) (l : list A) : list A :=
  foldr (insert_desc key) [] l.

(** [open(p, "r").read()] *)
Definition read_text (p : Path) : M string :=
  w ← get_world;
  match w_fs w !! fs_key w p with
  | Some (File content _) => mret content
  | Some (Dir _) => raise (OSError "IsADirectoryError")
  | None => raise (OSError "FileNotFoundError")
  end.

(** [p.open("w")]: truncate the file, or create it in an existing
    directory; the handle is the key of the file. *)
Definition open_w (p : Path) : M string :=
  λ st,
    let w := st_world st in
    let k := fs_key w p in
    let put fs := mkSt (with_fs w fs) (st_log st) in
    match w_fs w !! k with
    | Some (Dir _) => (Raise (OSError "IsADirectoryError"), st)
    | Some (File _ _) => (Ret k, put (<[k := File "" (w_now w)]> (w_fs w)))
    | None =>
        let parent :=
          match parents (parse k) with
          | d :: _ => as_posix d
          | [] => k
          end in
        match w_fs w !! parent with
        | Some (Dir entries) =>
            (Ret k, put (<[k := File "" (w_now w)]>
                         (<[parent := Dir (entries ++ [name (parse k)])]> (w_fs w))))
        | Some (File _ _) => (Raise (OSError "NotADirectoryError"), st)
        | None => (Raise (OSError "FileNotFoundError"), st)
        end
    end.

(** [f.write(text)] on a handle opened for writing. *)
Definition f_write (f : string) (text : string) : M unit :=
  λ st,
    let w := st_world st in
    let fs :=
      match w_fs w !! f with
      | Some (File content _) => <[f := File (content +:+ text) (w_now w)]> (w_fs w)
      | _ => w_fs w
      end in
    (Ret tt, mkSt (with_fs w fs) (st_log st ++ [Wrote f text])).

(** *** Config handling (JSON) *)

Record AzureConfig := mkAzureConfig {
  organization_url : json;
  project : json;
  repository : json;
}.

Record BlackyConfig := mkBlackyConfig {
  pr_title_regex : json;
  package_manager : json;
  target_branch : json;
  project_pkg_prefix : json;
  azure : AzureConfig;
}.

Definition example_configuration : string :=
  nl +:+ "Example configuration:" +:+ nl
  +:+ "{" +:+ nl
  +:+ "  " +:+ dq +:+ "prTitleRegex" +:+ dq +:+ ": " +:+ dq
      +:+ "^feature/(?P<title>.+)$" +:+ dq +:+ "," +:+ nl
  +:+ "  " +:+ dq +:+ "packageManager" +:+ dq +:+ ": " +:+ dq +:+ "pnpm" +:+ dq
      +:+ "," +:+ nl
  +:+ "  " +:+ dq +:+ "targetBranch" +:+ dq +:+ ": " +:+ dq +:+ "main" +:+ dq
      +:+ "," +:+ nl
  +:+ "  " +:+ dq +:+ "azure" +:+ dq +:+ ": {" +:+ nl
  +:+ "    " +:+ dq +:+ "organizationUrl" +:+ dq +:+ ": " +:+ dq
      +:+ "https://dev.azure.com/<org>" +:+ dq +:+ "," +:+ nl
  +:+ "    " +:+ dq +:+ "project" +:+ dq +:+ ": " +:+ dq +:+ "<project>" +:+ dq
      +:+ "," +:+ nl
  +:+ "    " +:+ dq +:+ "repository" +:+ dq +:+ ": " +:+ dq +:+ "<repo-name>"
      +:+ dq +:+ nl
  +:+ "  }" +:+ nl
  +:+ "}" +:+ nl.

(** [missing_keys.append(key)] when [not v]. *)
Definition note_missing (v : json) (key : string) (missing_keys : list string)
    : list string :=
  if negb (truthy v) then missing_keys ++ [key] else missing_keys.

Section Script.

Variable E : Env.

Definition load_config_file (config_path : Path) : M (option BlackyConfig) :=
  w ← get_world;
  if negb (path_exists w config_path) then
    warn ("Configuration file not found at: " +:+ as_posix config_path +:+ nl
          +:+ "Blacky expects a blacky.conf.json in your project root.");;
    mret None
  else
    text ← read_text config_path;
    match json_loads E text with
    | inl e =>
        error ("Could not parse " +:+ as_posix config_path +:+ " as JSON: "
               +:+ e +:+ nl
               +:+ "Please fix the JSON syntax (trailing commas, quotes, etc.).");;
        mret None
    | inr raw =>
        pr_title_regex ← lift (get raw "prTitleRegex");
        package_manager ← lift (get raw "packageManager");
        target_branch ← lift (get raw "targetBranch");
        project_pkg_prefix ← lift (get raw "projectPackagePrefix");
        azure_raw ← (v ← lift (get raw "azure"); mret (or_else v (JObj ∅)));
        org_url ← lift (get azure_raw "organizationUrl");
        project ← lift (get azure_raw "project");
        repo ← lift (get azure_raw "repository");
        let missing_keys : list string := [] in
        let missing_keys := note_missing pr_title_regex "prTitleRegex" missing_keys in
        let missing_keys := note_missing target_branch "targetBranch" missing_keys in
        let missing_keys :=
          note_missing project_pkg_prefix "projectPackagePrefix" missing_keys in
        let missing_keys := note_missing package_manager "packageManager" missing_keys in
        let missing_keys := note_missing org_url "azure.organizationUrl" missing_keys in
        let missing_keys := note_missing project "azure.project" missing_keys in
        let missing_keys := note_missing repo "azure.repository" missing_keys in
        match missing_keys with
        | _ :: _ =>
            error "Your blacky.conf.json is missing some required fields:";;
            for_each missing_keys (λ key, eprint ("  - " +:+ key));;
            eprint example_configuration;;
            mret None
        | [] =>
            let azure := mkAzureConfig org_url project repo in
            mret (Some (mkBlackyConfig pr_title_regex package_manager
                                       target_branch project_pkg_prefix azure))
        end
    end.

(** *** Helper: run commands *)

(** [subprocess.run(cmd, cwd=cwd, text=True, check=check)]: the exit
    status and the output of the child. *)
Definition subprocess_run (cmd : list string) (cwd : option string)
    (check : bool) : M (Z * string) :=
  λ st,
    let '(o, w') := spawn E cwd cmd (st_world st) in
    match o with
    | inl e => (Raise e, mkSt w' (st_log st ++ [Spawn cwd cmd (Raised e)]))
    | inr (rc, out) =>
        let st' := mkSt w' (st_log st ++ [Spawn cwd cmd (Exited rc)]) in
        if check && negb (rc =? 0)%Z then (Raise (CalledProcessError rc), st')
        else (Ret (rc, out), st')
    end.

Definition run_command (cmd : list json) (cwd : option Path) (check : bool)
    : M (Z * string) :=
  items ← lift (str_items cmd);
  info ("Running command:" +:+ nl +:+ "  " +:+ join " " items);;
  subprocess_run items (as_posix <$> cwd) check.

(** *** Helper: git info *)

Definition get_current_branch : M (option string) :=
  try_except
    ('(_, stdout) ← subprocess_run ["git"; "rev-parse"; "--abbrev-ref"; "HEAD"]
                                    None true;
     let branch := strip stdout in
     if String.eqb branch "HEAD" then mret None else mret (Some branch))
    (λ e, match e with
          | CalledProcessError _ =>
              Some (error ("Could not determine current git branch. "
                           +:+ "Are you inside a git repository?");;
                    mret None)
          | _ => None
          end).

Definition get_git_remote_url : M (option string) :=
  try_except
    ('(_, stdout) ← subprocess_run ["git"; "remote"; "get-url"; "origin"]
                                    None true;
     mret (Some (strip stdout)))
    (λ e, match e with
          | CalledProcessError _ =>
              Some (warn ("Could not determine remote URL for 'origin'. "
                          +:+ "Proceeding without it.");;
                    mret None)
          | _ => None
          end).

(** *** Helper: PR title from branch *)

Definition build_pr_title_from_branch (branch regex_pattern : string)
    : M string :=
  match re_compile E regex_pattern with
  | inl e =>
      warn ("Configured prTitleRegex is invalid (" +:+ e +:+ "). "
            +:+ "Falling back to using the branch name as the PR title.");;
      mret branch
  | inr pattern =>
      match pattern branch with
      | None =>
          warn ("Configured prTitleRegex did not match the branch name. "
                +:+ "Falling back to using the branch name as PR title.");;
          mret branch
      | Some m =>
          match groupdict m !! "title" with
          | Some (Some (String c t)) => mret (strip (String c t))
          | _ =>
              match groups m with
              | Some g :: _ => mret (strip g)
              | None :: _ => raise AttributeError
              | [] => mret branch
              end
          end
      end
  end.

(** *** Helper: ask user for input (description, change type) *)

(** The [while True] loop of [ask_multiline_markdown]. Every turn
    takes a line from standard input, so [fuel] one above the number
    of lines left is never used up. *)
Fixpoint collect_lines (fuel : nat) (lines : list string) : M (list string) :=
  match fuel with
  | O => mret lines
  | S fuel' =>
      line ← try_except (line ← input "> "; mret (Some line))
               (λ e, match e with
                     | EOFError => Some (mret None)
                     | _ => None
                     end);
      match line with
      | None => mret lines
      | Some line =>
          if String.eqb (strip line) "." then mret lines
          else collect_lines fuel' (lines ++ [line])
      end
  end.

Definition ask_multiline_markdown (prompt : string) : M string :=
  print_section "PR Description";;
  info prompt;;
  print "Finish input with a single line '.' or EOF (Ctrl+D):";;
  w ← get_world;
  lines ← collect_lines (S (length (w_stdin w))) [];
  mret (strip (join nl lines)).

Definition valid : gset string := {[ "patch"; "minor"; "major" ]}.

(** The [while True] loop of [ask_change_type], with the same fuel. *)
Fixpoint ask_change_type_loop (fuel : nat) : M string :=
  match fuel with
  | O => raise EOFError
  | S fuel' =>
      line ← input "Change type for this changeset? [patch/minor/major]: ";
      let answer := lower (strip line) in
      if bool_decide (answer ∈ valid) then mret answer
      else
        print "Please enter 'patch', 'minor' or 'major'.";;
        ask_change_type_loop fuel'
  end.

Definition ask_change_type : M string :=
  print_section "Change Type";;
  w ← get_world;
  ask_change_type_loop (S (length (w_stdin w))).

(** *** Helper: find latest changeset file created *)

Definition find_latest_changeset_file (changesets_dir : Path) : M (option Path) :=
  w ← get_world;
  if negb (path_exists w changesets_dir) then mret None
  else
    let candidates :=
      sorted_desc (st_mtime w)
                  (filter (λ p, is_file w p = true) (glob_md w changesets_dir)) in
    match candidates with
    | [] => mret None
    | latest :: _ => mret (Some latest)
    end.

(** *** Helper: read changed packages (simple heuristic) *)

(** The inner loop: the first of the path and its parents that holds
    a [package.json]. *)
Definition first_with_manifest (w : World) (p : Path) : option Path :=
  List.find (λ parent, path_exists w (joinpath parent "package.json"))
            (p :: parents p).

(** The outer loop, filling the set [packages]. *)
Definition collect_packages (w : World) (changed_files : list string)
    : gset string :=
  foldl (λ (packages : gset string) file,
           match first_with_manifest w (parse file) with
           | Some parent => packages ∪ {[ as_posix parent ]}
           | None => packages
           end) ∅ changed_files.

(** [sorted] on a list of str. *)
Definition py_sorted (l : list string) : list string := merge_sort String.le l.

Definition get_changed_packages : M (list string) :=
  r ← try_except
        (r ← subprocess_run ["git"; "status"; "--porcelain"] None true;
         mret (Some r))
        (λ e, match e with
              | CalledProcessError _ =>
                  Some (warn ("Could not execute 'git status'. "
                              +:+ "Assuming no changed packages.");;
                        mret None)
              | _ => None
              end);
  match r with
  | None => mret []
  | Some (_, stdout) =>
      let changed_files :=
        map (slice_from 3)
            (filter (λ line, strip line ≠ "") (splitlines stdout)) in
      w ← get_world;
      let packages := collect_packages w changed_files in
      mret (py_sorted (filter (λ pkg, 1 < String.length pkg) (elements packages)))
  end.

(** *** Helper: create / edit changeset *)

Definition create_and_edit_changeset (package_manager : json)
    (description_md : string) (change_type : string) (cwd : Path)
    (project_pkg_prefix : json) : M (option Path) :=
  print_section "Changeset";;
  created ← try_except
              (run_command [package_manager; JStr "changeset"; JStr "--empty"]
                           (Some cwd) true;;
               mret true)
              (λ e, match e with
                    | CalledProcessError _ =>
                        Some (error (py_str E package_manager
                                     +:+ " changeset --empty failed. "
                                     +:+ "Is the changeset CLI installed "
                                     +:+ "and available in PATH?");;
                              mret false)
                    | _ => None
                    end);
  if negb created then mret None
  else
    let changesets_dir := joinpath cwd ".changeset" in
    latest ← find_latest_changeset_file changesets_dir;
    match latest with
    | None =>
        error ("I could not find a newly created changeset file in .changeset. "
               +:+ "Did the command actually create one?");;
        mret None
    | Some latest =>
        info ("Editing changeset file: " +:+ as_posix latest);;
        changed_packages ← get_changed_packages;
        match changed_packages with
        | [] =>
            warn ("I could not find any changed packages with a package.json. "
                  +:+ "The changeset will be created without explicit package entries.")
        | _ :: _ => mret tt
        end;;
        let front_matter_lines :=
          (["---"]
           ++ map (λ pkg_path,
                     let pkg_name := name (parse pkg_path) in
                     dq +:+ py_str E project_pkg_prefix +:+ "/" +:+ pkg_name +:+ dq
                     +:+ ": " +:+ change_type) changed_packages
           ++ ["---"]
           ++ [""])%list in
        f ← open_w latest;
        f_write f (join nl front_matter_lines);;
        (if negb (String.eqb description_md "") then
           f_write f (strip description_md);;
           f_write f nl
         else mret tt);;
        info "Changeset has been updated.";;
        mret (Some latest)
    end.

(** *** Helper: run local builds *)

Definition run_local_build (package_manager : json) (cwd : Path) : M bool :=
  print_section "Local Build";;
  installed ← try_except
                (run_command [package_manager; JStr "install"] (Some cwd) true;;
                 mret true)
                (λ e, match e with
                      | CalledProcessError _ =>
                          Some (error ("Installation step (install) failed. "
                                       +:+ "Blacky will abort before creating a PR.");;
                                mret false)
                      | _ => None
                      end);
  if negb installed then mret false
  else
    built ← try_except
              (run_command [package_manager; JStr "run"; JStr "build:all"]
                           (Some cwd) true;;
               mret true)
              (λ e, match e with
                    | CalledProcessError _ =>
                        Some (error ("Build step failed. "
                                     +:+ "I will not create a PR while the "
                                     +:+ "project does not build locally.");;
                              mret false)
                    | _ => None
                    end);
    if negb built then mret false
    else
      info "Local build completed successfully.";;
      mret true.

(** *** Helper: azure devops CLI PR creation *)

(** One token of the dry-run display: quoted when it holds a space. *)
Definition display_token (c : json) : res json :=
  match has_space c with
  | Ret true => Ret (JStr ("'" +:+ py_str E c +:+ "'"))
  | Ret false => Ret c
  | Raise e => Raise e
  end.

Definition create_azure_pr (org_url project repo : json)
    (source_branch : string) (target_branch : json) (title : string)
    (description_md : string) (extra_az_args : list string) (cwd : Path)
    (dry_run : bool) : M bool :=
  print_section "Azure DevOps PR";;
  let base_cmd :=
    [ JStr "az"; JStr "repos"; JStr "pr"; JStr "create";
      JStr "--organization"; org_url;
      JStr "--project"; project;
      JStr "--repository"; repo;
      JStr "--source-branch"; JStr source_branch;
      JStr "--target-branch"; target_branch;
      JStr "--title"; JStr title;
      JStr "--description"; JStr description_md ] in
  let cmd := (base_cmd ++ (JStr <$> extra_az_args))%list in
  if dry_run then
    info ("Dry-run is enabled: I will show you what I would do, "
          +:+ "but no PR will be created.");;
    print "Command would be:";;
    tokens ← lift (res_map display_token cmd);
    shown ← lift (str_items tokens);
    print ("  " +:+ join " " shown);;
    mret true
  else
    try_except
      (run_command cmd (Some cwd) true;;
       info "Pull request was created successfully via Azure CLI.";;
       mret true)
      (λ e, match e with
            | CalledProcessError _ =>
                Some (error "Creating the PR with Azure CLI failed.";;
                      mret false)
            | _ => None
            end).

(** *** create-pr subcommand *)

(** The parsed command line: [args.dry_run] and [args.az_args]. *)
Record Args := mkArgs { dry_run : bool; az_args : list string }.

Definition handle_create_pr (args : Args) : M Z :=
  w ← get_world;
  let cwd := parse (w_cwd w) in
  print_section "Configuration";;
  config ← load_config_file (joinpath cwd DEFAULT_CONFIG_FILE);
  match config with
  | None => mret 1%Z
  | Some config =>
      print_section "Git";;
      current_branch ← get_current_branch;
      match current_branch with
      | None | Some "" =>
          error "Without a current branch I cannot create a PR.";;
          mret 1%Z
      | Some current_branch =>
          (* [re.compile] rejects a pattern that is not a str before
             anything else happens *)
          title ← match pr_title_regex config with
                  | JStr regex_pattern =>
                      build_pr_title_from_branch current_branch regex_pattern
                  | _ => raise TypeError
                  end;
          info ("Suggested PR title: " +:+ title);;
          description ← ask_multiline_markdown
                          "Please provide a PR description in Markdown.";
          (if String.eqb description "" then
             warn "You did not provide a description. The PR will be a bit terse."
           else mret tt);;
          change_type ← ask_change_type;
          changeset_path ← create_and_edit_changeset
                             (package_manager config) description change_type
                             cwd (project_pkg_prefix config);
          match changeset_path with
          | None =>
              error ("I could not create a valid changeset. "
                     +:+ "No PR without a changeset, sorry.");;
              mret 1%Z
          | Some _ =>
              ok ← run_local_build (package_manager config) cwd;
              if negb ok then mret 1%Z
              else
                let extra_az_args :=
                  match az_args args with
                  | _ :: _ => az_args args
                  | [] => []
                  end in
                success ← create_azure_pr
                            (organization_url (azure config))
                            (project (azure config))
                            (repository (azure config))
                            current_branch
                            (target_branch config)
                            title
                            (if String.eqb description "" then
                               "Automatically created by blacky for branch "
                               +:+ current_branch
                             else description)
                            extra_az_args
                            cwd
                            (dry_run args);
                mret (if success : bool then 0%Z else 1%Z)
          end
      end
  end.

End Script.

(** ** A concrete environment for the examples *)

Module Sample.

(** The configuration document of the examples, and its parse. *)
Definition config_text : string :=
  "{" +:+ dq +:+ "prTitleRegex" +:+ dq +:+ ": " +:+ dq
  +:+ "^feature/(?P<title>.+)$" +:+ dq +:+ ", "
  +:+ dq +:+ "packageManager" +:+ dq +:+ ": " +:+ dq +:+ "pnpm" +:+ dq +:+ ", "
  +:+ dq +:+ "targetBranch" +:+ dq +:+ ": " +:+ dq +:+ "main" +:+ dq +:+ ", "
  +:+ dq +:+ "projectPackagePrefix" +:+ dq +:+ ": " +:+ dq +:+ "@acme" +:+ dq +:+ ", "
  +:+ dq +:+ "azure" +:+ dq +:+ ": {"
  +:+ dq +:+ "organizationUrl" +:+ dq +:+ ": " +:+ dq
  +:+ "https://dev.azure.com/acme" +:+ dq +:+ ", "
  +:+ dq +:+ "project" +:+ dq +:+ ": " +:+ dq +:+ "shop" +:+ dq +:+ ", "
  +:+ dq +:+ "repository" +:+ dq +:+ ": " +:+ dq +:+ "web" +:+ dq +:+ "}}".

Definition azure_object : gmap string json :=
  {[ "organizationUrl" := JStr "https://dev.azure.com/acme";
     "project" := JStr "shop";
     "repository" := JStr "web" ]}.

Definition config_object : gmap string json :=
  {[ "prTitleRegex" := JStr "^feature/(?P<title>.+)$";
     "packageManager" := JStr "pnpm";
     "targetBranch" := JStr "main";
     "projectPackagePrefix" := JStr "@acme";
     "azure" := JObj azure_object ]}.

(** A second document: [azure] is a string instead of an object. *)
Definition flat_azure_text : string :=
  "{" +:+ dq +:+ "prTitleRegex" +:+ dq +:+ ": " +:+ dq +:+ "(.+)" +:+ dq +:+ ", "
  +:+ dq +:+ "packageManager" +:+ dq +:+ ": " +:+ dq +:+ "pnpm" +:+ dq +:+ ", "
  +:+ dq +:+ "targetBranch" +:+ dq +:+ ": " +:+ dq +:+ "main" +:+ dq +:+ ", "
  +:+ dq +:+ "projectPackagePrefix" +:+ dq +:+ ": " +:+ dq +:+ "@acme" +:+ dq +:+ ", "
  +:+ dq +:+ "azure" +:+ dq +:+ ": " +:+ dq +:+ "acme/shop/web" +:+ dq +:+ "}".

Definition flat_azure_object : gmap string json :=
  {[ "prTitleRegex" := JStr "(.+)";
     "packageManager" := JStr "pnpm";
     "targetBranch" := JStr "main";
     "projectPackagePrefix" := JStr "@acme";
     "azure" := JStr "acme/shop/web" ]}.

(** A third document: no [targetBranch], and an [azure] object with an
    empty [project]. *)
Definition partial_text : string :=
  "{" +:+ dq +:+ "prTitleRegex" +:+ dq +:+ ": " +:+ dq +:+ "(.+)" +:+ dq +:+ ", "
  +:+ dq +:+ "packageManager" +:+ dq +:+ ": " +:+ dq +:+ "pnpm" +:+ dq +:+ ", "
  +:+ dq +:+ "projectPackagePrefix" +:+ dq +:+ ": " +:+ dq +:+ "@acme" +:+ dq +:+ ", "
  +:+ dq +:+ "azure" +:+ dq +:+ ": {"
  +:+ dq +:+ "organizationUrl" +:+ dq +:+ ": " +:+ dq
  +:+ "https://dev.azure.com/acme" +:+ dq +:+ ", "
  +:+ dq +:+ "project" +:+ dq +:+ ": " +:+ dq +:+ dq +:+ ", "
  +:+ dq +:+ "repository" +:+ dq +:+ ": " +:+ dq +:+ "web" +:+ dq +:+ "}}".

Definition partial_object : gmap string json :=
  {[ "prTitleRegex" := JStr "(.+)";
     "packageManager" := JStr "pnpm";
     "projectPackagePrefix" := JStr "@acme";
     "azure" := JObj {[ "organizationUrl" := JStr "https://dev.azure.com/acme";
                        "project" := JStr "";
                        "repository" := JStr "web" ]} ]}.

(** [json.load] on the documents above; any other text is rejected
    here. *)
Definition loads (text : string) : string + json :=
  if String.eqb text config_text then inr (JObj config_object)
  else if String.eqb text flat_azure_text then inr (JObj flat_azure_object)
  else if String.eqb text partial_text then inr (JObj partial_object)
  else inl "Expecting value: line 1 column 1 (char 0)".

(** [str()] of the scalar values. *)
Definition repr (v : json) : string :=
  match v with
  | JNull => "None"
  | JBool true => "True"
  | JBool false => "False"
  | JInt z => pretty.pretty z
  | JStr s => s
  | _ => "..."
  end.

(** [re.compile] through [MiniRe]; a pattern outside the fragment is
    rejected here. *)
Definition compile (pattern : string) : string + (string → option MatchObj) :=
  match MiniRe.compile pattern with
  | Some (inl msg) => inl msg
  | Some (inr p) => inr (MiniRe.search p)
  | None => inl "pattern outside the fragment"
  end.

(** The body an empty changeset is created with. *)
Definition scaffold : string := "---" +:+ nl +:+ "---" +:+ nl +:+ nl.

(** The child processes: [git] reports [branch] and [status];
    [<pm> changeset --empty] adds [brave-lions-dance.md] to the
    [.changeset] directory of its working directory; [install] and
    [run build:all] exit with the given statuses; every other command
    succeeds. *)
Definition processes (branch status : string) (install_rc build_rc : Z)
    (cwd : option string) (cmd : list string) (w : World)
    : (exn + Z * string) * World :=
  if bool_decide (cmd = ["git"; "rev-parse"; "--abbrev-ref"; "HEAD"]) then
    (inr (0%Z, branch +:+ nl), w)
  else if bool_decide (cmd = ["git"; "status"; "--porcelain"]) then
    (inr (0%Z, status), w)
  else if bool_decide (tail cmd = ["changeset"; "--empty"]) then
    let dir := default (w_cwd w) cwd +:+ "/.changeset" in
    let file := dir +:+ "/brave-lions-dance.md" in
    let entries :=
      match w_fs w !! dir with
      | Some (Dir entries) => entries
      | _ => []
      end in
    (inr (0%Z, ""),
     mkWorld (w_cwd w)
             (<[file := File scaffold (w_now w)]>
              (<[dir := Dir (entries ++ ["brave-lions-dance.md"])]> (w_fs w)))
             (w_stdin w) (w_now w + 1))
  else if bool_decide (tail cmd = ["install"]) then (inr (install_rc, ""), w)
  else if bool_decide (tail cmd = ["run"; "build:all"]) then
    (inr (build_rc, ""), w)
  else (inr (0%Z, ""), w).

Definition env (branch status : string) (install_rc build_rc : Z) : Env :=
  mkEnv loads repr compile (processes branch status install_rc build_rc).

(** A small monorepo checked out at [/repo]: the package [a/pkg1],
    the package [w], and a [.changeset] directory that holds its
    read-me. *)
Definition files (config : string) : gmap string node :=
  list_to_map
    [ ("/repo", Dir ["blacky.conf.json"; "package.json"; ".changeset"; "a"; "w"]);
      ("/repo/blacky.conf.json", File config 10);
      ("/repo/package.json", File "{}" 10);
      ("/repo/.changeset", Dir ["config.json"; "README.md"]);
      ("/repo/.changeset/config.json", File "{}" 10);
      ("/repo/.changeset/README.md", File "# Changesets" 10);
      ("/repo/a", Dir ["pkg1"]);
      ("/repo/a/pkg1", Dir ["package.json"; "src"]);
      ("/repo/a/pkg1/package.json", File "{}" 10);
      ("/repo/a/pkg1/src", Dir ["x.ts"; "y.ts"]);
      ("/repo/a/pkg1/src/x.ts", File "" 20);
      ("/repo/a/pkg1/src/y.ts", File "" 20);
      ("/repo/w", Dir ["package.json"; "x.ts"]);
      ("/repo/w/package.json", File "{}" 10);
      ("/repo/w/x.ts", File "" 20) ]%Z.

Definition world (config : string) (stdin : list string) : World :=
  mkWorld "/repo" (files config) stdin 100.

Definition start (config : string) (stdin : list string) : St :=
  mkSt (world config stdin) [].

End Sample.

(** ** The vocabulary of the properties *)

(** The lines a description is made of: those before the first line
    that is a single dot once trimmed. *)
Fixpoint until_dot (lines : list string) : list string :=
  match lines with
  | [] => []
  | line :: rest =>
      if String.eqb (strip line) "." then [] else line :: until_dot rest
  end.

(** The same, in the words of the specification: the lines before the
    first line that consists of a single dot and nothing else. *)
Fixpoint until_exact_dot (lines : list string) : list string :=
  match lines with
  | [] => []
  | line :: rest =>
      if String.eqb line "." then [] else line :: until_exact_dot rest
  end.

(** The description the specification derives from the input lines. *)
Definition spec_description (lines : list string) : string :=
  strip (join nl (until_exact_dot lines)).

(** The text [print_section] writes. *)
Definition section_text (title : string) : string :=
  (nl +:+ PyStr.repeat "-" (Nat.max 10 (String.length title + 4)) +:+ nl
   +:+ title +:+ nl
   +:+ PyStr.repeat "-" (Nat.max 10 (String.length title + 4))) +:+ nl.

(** What [ask_multiline_markdown] prints before it reads. *)
Definition description_header (prompt : string) : list event :=
  [ Stdout (section_text "PR Description");
    Stdout ((_prefix +:+ " " +:+ prompt) +:+ nl);
    Stdout ("Finish input with a single line '.' or EOF (Ctrl+D):" +:+ nl) ].

(** Two input lines, the first a dot behind a space. *)
Definition padded_dot_lines : list string := [" ."; "Line two"].

(** A line the change-type prompt accepts: trimmed and lower-cased it
    is one of the three change types. *)
Definition accepted (line : string) : bool :=
  bool_decide (lower (strip line) ∈ valid).

(** The lines before the first accepted one. *)
Fixpoint rejected_prefix (lines : list string) : list string :=
  match lines with
  | [] => []
  | line :: rest => if accepted line then [] else line :: rejected_prefix rest
  end.

Definition change_type_prompt : string :=
  "Change type for this changeset? [patch/minor/major]: ".

(** One rejected turn: the prompt, then the reminder. *)
Definition change_type_retry : list event :=
  [ Stdout change_type_prompt;
    Stdout ("Please enter 'patch', 'minor' or 'major'." +:+ nl) ].

(** The seven required fields: the key reported for each, and the path
    that leads to it in the document. *)
Definition required_fields : list (string * list string) :=
  [ ("prTitleRegex", ["prTitleRegex"]);
    ("targetBranch", ["targetBranch"]);
    ("projectPackagePrefix", ["projectPackagePrefix"]);
    ("packageManager", ["packageManager"]);
    ("azure.organizationUrl", ["azure"; "organizationUrl"]);
    ("azure.project", ["azure"; "project"]);
    ("azure.repository", ["azure"; "repository"]) ].

(** The value at a path of keys, if every step finds an object with
    the key. *)
Fixpoint json_at (v : json) (path : list string) : option json :=
  match path with
  | [] => Some v
  | key :: path' =>
      match v with
      | JObj m =>
          match m !! key with
          | Some v' => json_at v' path'
          | None => None
          end
      | _ => None
      end
  end.

(** A required field is missing when nothing is at its path, or
    something falsy: [null], [false], zero, or an empty string, array
    or object. *)
Definition absent_or_empty (raw : json) (path : list string) : bool :=
  match json_at raw path with
  | Some v => negb (truthy v)
  | None => true
  end.

(** The keys the specification wants reported, in the order of the
    list of required fields. *)
Definition spec_missing_keys (raw : json) : list string :=
  (List.filter (λ f, absent_or_empty raw f.2) required_fields).*1.

(** The value a configuration carries for a field. *)
Definition field (raw : json) (path : list string) : json :=
  default JNull (json_at raw path).

(** The shape the loader expects of [azure]: absent, falsy, or an
    object. *)
Definition azure_is_record (m : gmap string json) : Prop :=
  match m !! "azure" with
  | None | Some (JObj _) => True
  | Some v => truthy v = false
  end.

(** What the loader writes when validation fails. *)
Definition validation_report (keys : list string) : list event :=
  [Stderr ((_prefix +:+ ":error "
            +:+ "Your blacky.conf.json is missing some required fields:") +:+ nl)]
  ++ map (λ key, Stderr (("  - " +:+ key) +:+ nl)) keys
  ++ [Stderr (example_configuration +:+ nl)].

(** The environment of the examples, with every command succeeding. *)
Definition E_ok : Env := Sample.env "feature/add-login" "" 0 0.

(** The two warnings of the title deriver. *)
Definition invalid_pattern_warning (e : string) : event :=
  Stderr ((_prefix +:+ ":warn  "
           +:+ "Configured prTitleRegex is invalid (" +:+ e +:+ "). "
           +:+ "Falling back to using the branch name as the PR title.") +:+ nl).

Definition no_match_warning : event :=
  Stderr ((_prefix +:+ ":warn  "
           +:+ "Configured prTitleRegex did not match the branch name. "
           +:+ "Falling back to using the branch name as PR title.") +:+ nl).

(** No usable [title] capture: absent from the pattern, not taking
    part in the match, or empty. *)
Definition no_title (m : MatchObj) : Prop :=
  groupdict m !! "title" = None
  ∨ groupdict m !! "title" = Some None
  ∨ groupdict m !! "title" = Some (Some "").

(** The argument list of the submission: the fixed flags with their
    values, then the passthrough arguments. *)
Definition pr_command (org_url project repo source_branch target_branch title
    description : string) (extra : list string) : list string :=
  [ "az"; "repos"; "pr"; "create";
    "--organization"; org_url;
    "--project"; project;
    "--repository"; repo;
    "--source-branch"; source_branch;
    "--target-branch"; target_branch;
    "--title"; title;
    "--description"; description ] ++ extra.

(** The display form of one argument: between single quotes when it
    holds a space. *)
Definition shell_display (token : string) : string :=
  if contains " "%char token then "'" +:+ token +:+ "'" else token.

Definition dry_run_notice : string :=
  (_prefix +:+ " "
   +:+ "Dry-run is enabled: I will show you what I would do, but no PR will be created.")
  +:+ nl.

(** The file names of the status lines, as [get_changed_packages]
    reads them. *)
Definition changed_files (stdout : string) : list string :=
  slice_from 3 <$> filter (λ line, strip line ≠ "") (splitlines stdout).

(** [git status --porcelain] exits with status 0 and this output. *)
Definition status_ok (E : Env) (w : World) (stdout : string) (w' : World) : Prop :=
  spawn E None ["git"; "status"; "--porcelain"] w = (inr (0%Z, stdout), w').

(** The environment of the examples with a given status output. *)
Definition E_status (status : string) : Env := Sample.env "feature/add-login" status 0 0.

(** The content the specification gives the changeset file: the
    opening delimiter line, one line per directory, the closing
    delimiter line, a blank line, and the trimmed description with a
    newline when it is not empty. *)
Definition spec_changeset_content (prefix : string) (dirs : list string)
    (change_type description : string) : string :=
  ("---" +:+ nl)
  +:+ foldr (λ dir rest,
               (dq +:+ prefix +:+ "/" +:+ name (parse dir) +:+ dq +:+ ": "
                +:+ change_type +:+ nl) +:+ rest) "" dirs
  +:+ ("---" +:+ nl)
  +:+ nl
  +:+ (if String.eqb (strip description) "" then ""
       else strip description +:+ nl).

(** What [create_and_edit_changeset] hands to [f.write], in one piece. *)
Definition written_content (E : Env) (prefix : json) (dirs : list string)
    (change_type description : string) : string :=
  join nl (["---"]
           ++ map (λ dir, dq +:+ py_str E prefix +:+ "/" +:+ name (parse dir) +:+ dq
                          +:+ ": " +:+ change_type) dirs
           ++ ["---"] ++ [""])
  +:+ (if String.eqb description "" then "" else strip description +:+ nl).

(** The environment of the examples with two changed files in
    [a/pkg1]. *)
Definition E_changeset : Env :=
  E_status (" M a/pkg1/src/x.ts" +:+ nl +:+ " M a/pkg1/src/y.ts" +:+ nl).

(** The call of the example: one changed package, a description. *)
Definition changeset_run : res (option Path) * St :=
  create_and_edit_changeset E_changeset (JStr "pnpm") "Fix the login form"
                            "minor" (parse "/repo") (JStr "@acme")
                            (Sample.start Sample.config_text []).

(** An install or build command that exited with a status other than
    zero. *)
Definition install_or_build_failed (e : event) : Prop :=
  ∃ cwd pm rc,
    rc ≠ 0%Z
    ∧ (e = Spawn cwd [pm; "install"] (Exited rc)
       ∨ e = Spawn cwd [pm; "run"; "build:all"] (Exited rc)).

(** The marks of the submission in the trace: the header that
    [create_azure_pr] prints first, the line that announces the command
    in a dry run, and the PR command handed to the system. *)
Definition pr_submission (e : event) : Prop :=
  e = Stdout (section_text "Azure DevOps PR")
  ∨ e = Stdout ("Command would be:" +:+ nl)
  ∨ ∃ cwd rest o, e = Spawn cwd ("az" :: "repos" :: "pr" :: "create" :: rest) o.

(** Neither kind. *)
Definition quiet (e : event) : Prop :=
  ¬ pr_submission e ∧ ¬ install_or_build_failed e.

(** [emits P m]: whatever the state, [m] only appends to the trace, and
    every event it appends satisfies [P]. *)
Definition emits {A} (P : event → Prop) (m : M A) : Prop :=
  ∀ st, ∃ evs, st_log (m st).2 = st_log st ++ evs ∧ Forall P evs.

(** The pattern shared by the three build-tool calls: run the command,
    and turn a failure status into a message and [False]. *)
Definition attempt (E : Env) (cmd : list json) (cwd : Path) (failure : string)
    : M bool :=
  try_except
    (run_command E cmd (Some cwd) true;; mret true)
    (λ e, match e with
          | CalledProcessError _ => Some (error failure;; mret false)
          | _ => None
          end).

Definition running (items : list string) : event :=
  Stdout ((_prefix +:+ " " +:+ "Running command:" +:+ nl +:+ "  "
           +:+ join " " items) +:+ nl).

Definition failure_message (failure : string) : event :=
  Stderr ((_prefix +:+ ":error " +:+ failure) +:+ nl).

(** What a call of [attempt] leaves in the trace, by result. *)
Definition attempt_contract (cmd : list json) (cwd : Path) (failure : string)
    (r : res bool) (evs : list event) : Prop :=
  match r with
  | Ret true =>
      ∃ items, str_items cmd = Ret items
               ∧ evs = [running items; Spawn (Some (as_posix cwd)) items (Exited 0)]
  | Ret false =>
      ∃ items o, str_items cmd = Ret items
                 ∧ evs = [running items; Spawn (Some (as_posix cwd)) items o;
                          failure_message failure]
  | Raise e =>
      evs = []
      ∨ ∃ items e', str_items cmd = Ret items
                    ∧ evs = [running items;
                             Spawn (Some (as_posix cwd)) items (Raised e')]
  end.

(** What [run_local_build] leaves in the trace: nothing of the
    submission; a failed step only with the result [False]; both steps
    with status 0 when the result is [True]. *)
Definition build_stage_contract (cwd : Path) (pm : json) (r : res bool)
    (evs : list event) : Prop :=
  Forall (λ e, ¬ pr_submission e) evs
  ∧ (Exists install_or_build_failed evs → r = Ret false)
  ∧ (r = Ret true →
     ∃ pm_s, pm = JStr pm_s
             ∧ Spawn (Some (as_posix cwd)) [pm_s; "install"] (Exited 0) ∈ evs
             ∧ Spawn (Some (as_posix cwd)) [pm_s; "run"; "build:all"] (Exited 0) ∈ evs).

(** [guarded m]: a failed install or build in the trace of [m] means
    exit status 1 and no trace of a submission. *)
Definition guarded (m : M Z) : Prop :=
  ∀ st, ∃ evs,
    st_log (m st).2 = st_log st ++ evs
    ∧ (Exists install_or_build_failed evs →
       (m st).1 = Ret 1%Z ∧ Forall (λ e, ¬ pr_submission e) evs).

(** A run of the examples: [build_rc] is the exit status of the build. *)
Definition E_run (build_rc : Z) : Env :=
  Sample.env "feature/add-login"
             (" M a/pkg1/src/x.ts" +:+ nl +:+ " M a/pkg1/src/y.ts" +:+ nl)
             0 build_rc.

(** The command line of the examples. *)
Definition run_args (dry : bool) : Args := mkArgs dry ["--draft"].

(** The state in which the examples start. *)
Definition run_start : St :=
  Sample.start Sample.config_text ["Line one"; "Line two"; "."; "foo"; "minor"].

(** The live run whose build fails. *)
Definition failed_run : res Z * St := handle_create_pr (E_run 2) (run_args false) run_start.

Definition is_spawn (e : event) : bool :=
  match e with
  | Spawn _ _ _ => true
  | _ => false
  end.

(** A string with no white space in front. *)
Definition head_clean (s : string) : Prop :=
  match s with
  | "" => True
  | String c _ => isspace c = false
  end.

(** [keeps_world m]: [m] leaves the file system, the standard input
    and the clock as it found them. *)
Definition keeps_world {A} (m : M A) : Prop :=
  ∀ st, st_world (m st).2 = st_world st.

(** An event on the error stream. *)
Definition on_stderr (e : event) : Prop := ∃ s, e = Stderr s.

(** The warning of the loader for a path that leads nowhere. *)
Definition missing_file_warning (config_path : Path) : event :=
  Stderr ((_prefix +:+ ":warn  "
           +:+ "Configuration file not found at: " +:+ as_posix config_path +:+ nl
           +:+ "Blacky expects a blacky.conf.json in your project root.") +:+ nl).

(** The message of the loader for a document the parser rejects with
    the message [e]. *)
Definition invalid_json_error (config_path : Path) (e : string) : event :=
  Stderr ((_prefix +:+ ":error "
           +:+ "Could not parse " +:+ as_posix config_path +:+ " as JSON: "
           +:+ e +:+ nl
           +:+ "Please fix the JSON syntax (trailing commas, quotes, etc.).")
          +:+ nl).

(** The seven values of a configuration. *)
Definition config_values (config : BlackyConfig) : list json :=
  [ pr_title_regex config; target_branch config; project_pkg_prefix config;
    package_manager config; organization_url (azure config);
    project (azure config); repository (azure config) ].

(** An environment whose parser reads the document [[]] as well. *)
Definition E_array : Env :=
  mkEnv (λ text, if String.eqb text "[]" then inr (JArr []) else Sample.loads text)
        Sample.repr Sample.compile (Sample.processes "feature/add-login" "" 0 0).

(** The two commands of the git helpers. *)
Definition rev_parse_cmd : list string := ["git"; "rev-parse"; "--abbrev-ref"; "HEAD"].
Definition remote_url_cmd : list string := ["git"; "remote"; "get-url"; "origin"].

Definition no_branch_error : event :=
  Stderr ((_prefix +:+ ":error "
           +:+ "Could not determine current git branch. "
           +:+ "Are you inside a git repository?") +:+ nl).

Definition no_remote_warning : event :=
  Stderr ((_prefix +:+ ":warn  "
           +:+ "Could not determine remote URL for 'origin'. "
           +:+ "Proceeding without it.") +:+ nl).

(** The environment of the examples outside any repository: [git]
    exits with status 128 there. *)
Definition E_no_repository : Env :=
  mkEnv Sample.loads Sample.repr Sample.compile
        (λ cwd cmd w,
           match cmd with
           | "git" :: _ => (inr (128%Z, ""), w)
           | _ => Sample.processes "" "" 0 0 cwd cmd w
           end).

(** An environment without [git]: starting it fails. *)
Definition E_no_git : Env :=
  mkEnv Sample.loads Sample.repr Sample.compile
        (λ cwd cmd w,
           match cmd with
           | "git" :: _ => (inl (OSError "FileNotFoundError"), w)
           | _ => Sample.processes "" "" 0 0 cwd cmd w
           end).

(** Is the value a str? *)
Definition is_str (v : json) : bool :=
  match v with
  | JStr _ => true
  | _ => false
  end.

(** The candidates of [find_latest_changeset_file]: the regular files
    of the directory whose name ends in [.md], in enumeration order. *)
Definition candidates (w : World) (changesets_dir : Path) : list Path :=
  filter (λ p, is_file w p = true) (glob_md w changesets_dir).

(** The first item of a list among those with the greatest key. *)
Fixpoint first_max {A} (key : A → Z) (l : list A) : option A :=
  match l with
  | [] => None
  | x :: l' =>
      match first_max key l' with
      | Some y => if (key y <=? key x)%Z then Some x else Some y
      | None => Some x
      end
  end.

(** [parent] holds a manifest. *)
Definition has_manifest (w : World) (parent : Path) : bool :=
  path_exists w (joinpath parent "package.json").

Definition status_cmd : list string := ["git"; "status"; "--porcelain"].

Definition no_status_warning : event :=
  Stderr ((_prefix +:+ ":warn  "
           +:+ "Could not execute 'git status'. Assuming no changed packages.")
          +:+ nl).

(** One line of the front matter. *)
Definition front_matter_line (prefix dir change_type : string) : string :=
  dq +:+ prefix +:+ "/" +:+ name (parse dir) +:+ dq +:+ ": " +:+ change_type.

(** The text of a changeset file: the opening delimiter line, one line
    per directory, the closing delimiter line and, when a description
    was given, the trimmed description on a line of its own right
    after. *)
Definition changeset_text (prefix : string) (dirs : list string)
    (change_type description : string) : string :=
  ("---" +:+ nl)
  +:+ foldr (λ dir rest, (front_matter_line prefix dir change_type +:+ nl) +:+ rest)
            "" dirs
  +:+ ("---" +:+ nl)
  +:+ (if String.eqb description "" then "" else strip description +:+ nl).

(** An environment whose changeset tool exits with status 1, and one
    whose tool exits with status 0 without creating anything. *)
Definition E_tool_fails : Env :=
  mkEnv Sample.loads Sample.repr Sample.compile
        (λ cwd cmd w,
           if bool_decide (tail cmd = ["changeset"; "--empty"])
           then (inr (1%Z, ""), w)
           else Sample.processes "feature/add-login" "" 0 0 cwd cmd w).

Definition E_tool_idle : Env :=
  mkEnv Sample.loads Sample.repr Sample.compile
        (λ cwd cmd w,
           if bool_decide (tail cmd = ["changeset"; "--empty"])
           then (inr (0%Z, ""), w)
           else Sample.processes "feature/add-login" "" 0 0 cwd cmd w).

(** The two messages that end [create_azure_pr] in a live run. *)
Definition pr_created_notice : event :=
  Stdout ((_prefix +:+ " " +:+ "Pull request was created successfully via Azure CLI.")
          +:+ nl).

Definition pr_failed_error : event :=
  failure_message "Creating the PR with Azure CLI failed.".

(** The end of a run: the submission, and the exit status made of its
    answer. *)
Definition submit (E : Env) (args : Args) (org_url project repo : json)
    (source_branch : string) (target_branch : json) (title description : string)
    (cwd : Path) : M Z :=
  success ← create_azure_pr E org_url project repo source_branch target_branch
              title description (az_args args) cwd (dry_run args);
  mret (if success : bool then 0%Z else 1%Z).

(** A file was written: before the events [evs], when [written] says
    so, or among them. *)
Definition written_in (written : bool) (evs : list event) : Prop :=
  written = true ∨ ∃ file text, Wrote file text ∈ evs.

(** The install and the build ran in one directory with one package
    manager, and both exited with status 0. *)
Definition built_in (evs : list event) : Prop :=
  ∃ c p, Spawn c [p; "install"] (Exited 0) ∈ evs
         ∧ Spawn c [p; "run"; "build:all"] (Exited 0) ∈ evs.

(** The two ways a run, or the rest of one, can go from a trace
    [log]. It stops before the submission: it ends with exit status 1
    or an exception and shows no trace of a submission, and a failed
    install or build in it comes after the changeset file was
    written. Or it reaches the submission in a state [st_pr]: what
    came before is free of failures, the changeset file was written,
    the install and the build succeeded, the description is not empty,
    and the run ends as the submission does. *)
Definition staged_at (E : Env) (args : Args) (written : bool)
    (run : res Z * St) (log : list event) : Prop :=
  (∃ evs, st_log run.2 = log ++ evs
          ∧ Forall (λ e, ¬ pr_submission e) evs
          ∧ (run.1 = Ret 1%Z ∨ ∃ e, run.1 = Raise e)
          ∧ (Exists install_or_build_failed evs → written_in written evs))
  ∨ (∃ st_pr evs org_url project repo source_branch target_branch title
       description cwd,
       st_log st_pr = log ++ evs
       ∧ Forall quiet evs
       ∧ written_in written evs
       ∧ built_in evs
       ∧ description ≠ ""
       ∧ run = submit E args org_url project repo source_branch target_branch
                      title description cwd st_pr).

Definition staged (E : Env) (args : Args) (written : bool) (m : M Z) : Prop :=
  ∀ st, staged_at E args written (m st) (st_log st).


(** The environment of the examples in a repository whose [HEAD] is
    detached. *)
Definition E_detached : Env := Sample.env "HEAD" "" 0 0.

(** The message of a run that found no branch. *)
Definition no_current_branch_error : event :=
  Stderr ((_prefix +:+ ":error " +:+ "Without a current branch I cannot create a PR.")
          +:+ nl).

(** The state in which the loader is called, and the path it is given:
    [blacky.conf.json] in the working directory. *)
Definition at_configuration (st : St) : St :=
  mkSt (st_world st) (st_log st ++ [Stdout (section_text "Configuration")]).

Definition configuration_path (st : St) : Path :=
  joinpath (parse (w_cwd (st_world st))) DEFAULT_CONFIG_FILE.

(** The state in which the branch is asked for. *)
Definition at_git (st : St) : St :=
  mkSt (st_world st) (st_log st ++ [Stdout (section_text "Git")]).

(** [contained m]: no [CalledProcessError] leaves [m]. *)
Definition contained {A} (m : M A) : Prop :=
  ∀ st rc, (m st).1 ≠ Raise (CalledProcessError rc).

(** ** Properties *)

(** *** Running the primitives *)

Lemma bind_run {A B} (m : M A) (f : A → M B) st :
  (m ≫= f) st = match m st with
                | (Ret a, st') => f a st'
                | (Raise e, st') => (Raise e, st')
                end.
Proof. reflexivity. Qed.

Section Runs.
Context {A : Type}.

Lemma mret_run (a : A) st : mret (M := M) a st = (Ret a, st).
Proof. reflexivity. Qed.

Lemma raise_run e st : raise (A := A) e st = (Raise e, st).
Proof. reflexivity. Qed.

Lemma lift_run (r : res A) st : lift r st = (r, st).
Proof. reflexivity. Qed.

End Runs.

Lemma get_world_run st : get_world st = (Ret (st_world st), st).
Proof. reflexivity. Qed.

Lemma emit_run e st : emit e st = (Ret tt, mkSt (st_world st) (st_log st ++ [e])).
Proof. reflexivity. Qed.

Lemma print_run s st :
  print s st = (Ret tt, mkSt (st_world st) (st_log st ++ [Stdout (s +:+ nl)])).
Proof. reflexivity. Qed.

Lemma eprint_run s st :
  eprint s st = (Ret tt, mkSt (st_world st) (st_log st ++ [Stderr (s +:+ nl)])).
Proof. reflexivity. Qed.

Lemma info_run msg st :
  info msg st
  = (Ret tt, mkSt (st_world st)
                  (st_log st ++ [Stdout ((_prefix +:+ " " +:+ msg) +:+ nl)])).
Proof. reflexivity. Qed.

Lemma warn_run msg st :
  warn msg st
  = (Ret tt, mkSt (st_world st)
                  (st_log st ++ [Stderr ((_prefix +:+ ":warn  " +:+ msg) +:+ nl)])).
Proof. reflexivity. Qed.

Lemma error_run msg st :
  error msg st
  = (Ret tt, mkSt (st_world st)
                  (st_log st ++ [Stderr ((_prefix +:+ ":error " +:+ msg) +:+ nl)])).
Proof. reflexivity. Qed.

Lemma print_section_run title st :
  print_section title st
  = (Ret tt, mkSt (st_world st) (st_log st ++ [Stdout (section_text title)])).
Proof. reflexivity. Qed.

Lemma input_run prompt st :
  input prompt st
  = match w_stdin (st_world st) with
    | [] => (Raise EOFError, mkSt (st_world st) (st_log st ++ [Stdout prompt]))
    | line :: rest =>
        (Ret line, mkSt (with_stdin (st_world st) rest) (st_log st ++ [Stdout prompt]))
    end.
Proof. reflexivity. Qed.

Lemma try_except_run {A} (m : M A) handler st :
  try_except m handler st
  = match m st with
    | (Ret a, st') => (Ret a, st')
    | (Raise e, st') =>
        match handler e with
        | Some h => h st'
        | None => (Raise e, st')
        end
    end.
Proof. reflexivity. Qed.

Ltac mstep :=
  repeat (first [ rewrite bind_run | rewrite mret_run | rewrite raise_run
                | rewrite lift_run | rewrite get_world_run | rewrite emit_run
                | rewrite print_run | rewrite eprint_run | rewrite info_run
                | rewrite warn_run | rewrite error_run | rewrite print_section_run
                | rewrite try_except_run ];
          cbv beta iota; cbn [st_world st_log]).

(** *** The description prompt *)

Lemma collect_lines_run fuel acc w log :
  length (w_stdin w) < fuel →
  collect_lines fuel acc (mkSt w log) =
    (Ret (acc ++ until_dot (w_stdin w)),
     mkSt (with_stdin w (drop (S (length (until_dot (w_stdin w)))) (w_stdin w)))
          (log ++ replicate (S (length (until_dot (w_stdin w)))) (Stdout "> "))).
Proof.
  revert acc w log. induction fuel as [|fuel IH]; intros acc w log Hlt; [lia|].
  destruct w as [cwd fs stdin now]. simpl in Hlt.
  destruct stdin as [|line rest].
  - simpl. rewrite app_nil_r. reflexivity.
  - cbn [collect_lines]. rewrite bind_run. 
    unfold try_except. rewrite bind_run. cbn [input st_world w_stdin st_log].
    unfold mret, M_ret. cbn [until_dot].
    destruct (String.eqb (strip line) ".") eqn:Hdot.
    + cbn. rewrite app_nil_r. unfold with_stdin. cbn. rewrite drop_0. reflexivity.
    + unfold with_stdin at 1. cbn [w_cwd w_fs w_now].
      rewrite IH by (simpl in *; lia).
      cbn. unfold with_stdin. cbn. rewrite <- !app_assoc. reflexivity.
Qed.

(** C8, as amended. For every sequence of input lines, the description
    prompt collects the lines before the first line that equals a single
    dot once its surrounding white space is trimmed, or all lines when
    the input ends first; it returns them joined by newlines and
    trimmed. It has then read one line more than it collected, and has
    written its header and one prompt per read. The lines [Line one],
    [Line two], [.] give [Line one\nLine two], and so do the first two
    of them followed by the end of the input. *)
Theorem description_prompt_collects :
  (∀ prompt w log,
     let collected := until_dot (w_stdin w) in
     ask_multiline_markdown prompt (mkSt w log) =
       (Ret (strip (join nl collected)),
        mkSt (with_stdin w (drop (S (length collected)) (w_stdin w)))
             (log ++ description_header prompt
                  ++ replicate (S (length collected)) (Stdout "> "))))
  ∧ (∀ prompt cwd fs now log,
       fst (ask_multiline_markdown prompt
              (mkSt (mkWorld cwd fs ["Line one"; "Line two"; "."] now) log))
       = Ret ("Line one" +:+ nl +:+ "Line two"))
  ∧ (∀ prompt cwd fs now log,
       fst (ask_multiline_markdown prompt
              (mkSt (mkWorld cwd fs ["Line one"; "Line two"] now) log))
       = Ret ("Line one" +:+ nl +:+ "Line two")).
Proof.
  assert (H : ∀ prompt w log,
     ask_multiline_markdown prompt (mkSt w log) =
       (Ret (strip (join nl (until_dot (w_stdin w)))),
        mkSt (with_stdin w (drop (S (length (until_dot (w_stdin w)))) (w_stdin w)))
             (log ++ description_header prompt
                  ++ replicate (S (length (until_dot (w_stdin w)))) (Stdout "> ")))).
  { intros prompt w log. unfold ask_multiline_markdown.
    mstep. rewrite collect_lines_run by (cbn; lia). mstep.
    f_equal. f_equal. rewrite <- !app_assoc. reflexivity. }
  split; [exact H|]. split; intros; rewrite H; reflexivity.
Qed.

(** C8, as stated, fails: a line that trims to a dot ends the
    description, although it does not consist solely of the dot. On
    the lines [ .] and [Line two] the prompt returns the empty string,
    where the specification joins and trims both lines. *)
Lemma description_prompt_stops_at_padded_dot :
  fst (ask_multiline_markdown "Describe"
         (Sample.start Sample.config_text padded_dot_lines))
    = Ret ""
  ∧ spec_description padded_dot_lines = "." +:+ nl +:+ "Line two"
  ∧ fst (ask_multiline_markdown "Describe"
           (Sample.start Sample.config_text padded_dot_lines))
    ≠ Ret (spec_description padded_dot_lines).
Proof. split_and!; [vm_compute; reflexivity ..|]. vm_compute. discriminate. Qed.

(** *** The change-type prompt *)

Lemma ask_change_type_loop_run fuel w log :
  length (w_stdin w) < fuel →
  let pre := rejected_prefix (w_stdin w) in
  ask_change_type_loop fuel (mkSt w log) =
    match drop (length pre) (w_stdin w) with
    | line :: post =>
        (Ret (lower (strip line)),
         mkSt (with_stdin w post)
              (log ++ (pre ≫= λ _, change_type_retry) ++ [Stdout change_type_prompt]))
    | [] =>
        (Raise EOFError,
         mkSt (with_stdin w [])
              (log ++ (pre ≫= λ _, change_type_retry) ++ [Stdout change_type_prompt]))
    end.
Proof.
  revert w log. induction fuel as [|fuel IH]; intros w log Hlt; [lia|].
  destruct w as [cwd fs stdin now]. cbn [w_stdin] in *.
  destruct stdin as [|line rest]; cbn [ask_change_type_loop].
  - mstep. rewrite input_run. reflexivity.
  - mstep. rewrite input_run. cbn [st_world w_stdin st_log]. cbv beta iota.
    cbn [rejected_prefix]. fold (accepted line).
    destruct (accepted line) eqn:Hacc.
    + mstep. reflexivity.
    + mstep. unfold with_stdin at 1. cbn [w_cwd w_fs w_now].
      rewrite IH by (cbn in *; lia). cbn [w_stdin length drop].
      destruct (drop (length (rejected_prefix rest)) rest);
        cbn; rewrite <- !app_assoc; reflexivity.
Qed.

Lemma rejected_prefix_all lines :
  drop (length (rejected_prefix lines)) lines = [] ↔
  Forall (λ line, accepted line = false) lines.
Proof.
  induction lines as [|line rest IH]; cbn.
  - split; [constructor | reflexivity].
  - destruct (accepted line) eqn:Hacc; cbn.
    + split; [discriminate | intros H; inversion H; congruence].
    + rewrite IH. split; [by constructor | by inversion 1].
Qed.

Lemma rejected_prefix_first lines line post :
  drop (length (rejected_prefix lines)) lines = line :: post →
  accepted line = true.
Proof.
  induction lines as [|l rest IH]; cbn; [discriminate|].
  destruct (accepted l) eqn:Hacc; cbn; [congruence | exact IH].
Qed.

(** C9, as amended. For every sequence of input lines, the change-type
    prompt returns at the first line whose trimmed, lower-cased form is
    [patch], [minor] or [major], with that form as its value, having
    prompted and reminded once for every earlier line; there is no
    limit on the number of turns. It returns a value if and only if the
    input holds such a line; when the input ends first, it has prompted
    for every line and raises [EOFError]. The lines [foo], [minor] give
    [minor] after one reminder. *)
Theorem change_type_prompt_returns_first_valid :
  (∀ w log,
     let pre := rejected_prefix (w_stdin w) in
     let trace :=
       [Stdout (section_text "Change Type")]
       ++ (pre ≫= λ _, change_type_retry) ++ [Stdout change_type_prompt] in
     ask_change_type (mkSt w log) =
       match drop (length pre) (w_stdin w) with
       | line :: post =>
           (Ret (lower (strip line)), mkSt (with_stdin w post) (log ++ trace))
       | [] => (Raise EOFError, mkSt (with_stdin w []) (log ++ trace))
       end)
  ∧ (∀ w log,
       (∃ answer, fst (ask_change_type (mkSt w log)) = Ret answer)
       ↔ Exists (λ line, accepted line = true) (w_stdin w))
  ∧ (∀ cwd fs now log,
       ask_change_type (mkSt (mkWorld cwd fs ["foo"; "minor"] now) log)
       = (Ret "minor",
          mkSt (mkWorld cwd fs [] now)
               (log ++ [Stdout (section_text "Change Type")]
                    ++ change_type_retry ++ [Stdout change_type_prompt]))).
Proof.
  assert (H : ∀ w log,
     ask_change_type (mkSt w log) =
       match drop (length (rejected_prefix (w_stdin w))) (w_stdin w) with
       | line :: post =>
           (Ret (lower (strip line)),
            mkSt (with_stdin w post)
                 (log ++ [Stdout (section_text "Change Type")]
                      ++ (rejected_prefix (w_stdin w) ≫= λ _, change_type_retry)
                      ++ [Stdout change_type_prompt]))
       | [] =>
           (Raise EOFError,
            mkSt (with_stdin w [])
                 (log ++ [Stdout (section_text "Change Type")]
                      ++ (rejected_prefix (w_stdin w) ≫= λ _, change_type_retry)
                      ++ [Stdout change_type_prompt]))
       end).
  { intros w log. unfold ask_change_type. mstep.
    rewrite ask_change_type_loop_run by lia. cbv zeta.
    destruct (drop _ _); rewrite <- !app_assoc; reflexivity. }
  split; [exact H|]. split.
  - intros w log. rewrite H.
    destruct (drop _ _) as [|line post] eqn:Hd.
    + apply rejected_prefix_all in Hd. split.
      * intros [answer Hans]. discriminate.
      * intros Hex. apply Exists_exists in Hex as (line & Hin & Hacc).
        rewrite Forall_forall in Hd. specialize (Hd line Hin). congruence.
    + split; [|intros _; eexists; reflexivity].
      intros _. apply Exists_exists. exists line. split.
      * apply (subseteq_drop (length (rejected_prefix (w_stdin w)))).
        rewrite Hd. left.
      * eapply rejected_prefix_first; eauto.
  - intros. rewrite H. reflexivity.
Qed.

(** C9, as stated, fails: the prompt also ends on an input without an
    accepted line, by the [EOFError] of the read that finds the input
    exhausted; more fuel for the loop changes nothing. *)
Lemma change_type_prompt_ends_at_eof :
  ¬ Exists (λ line, accepted line = true) ["foo"]
  ∧ fst (ask_change_type (Sample.start Sample.config_text ["foo"]))
    = Raise EOFError
  ∧ fst (ask_change_type_loop 1000 (Sample.start Sample.config_text ["foo"]))
    = Raise EOFError.
Proof.
  split; [|split].
  - intros H. apply Exists_exists in H as (line & Hin & Hacc).
    apply list_elem_of_singleton in Hin. subst. vm_compute in Hacc. discriminate.
  - vm_compute. reflexivity.
  - unfold Sample.start. rewrite ask_change_type_loop_run by (cbn; lia).
    reflexivity.
Qed.

(** *** The configuration loader *)

Lemma for_each_eprint keys st :
  for_each keys (λ key, eprint ("  - " +:+ key)) st
  = (Ret tt, mkSt (st_world st)
                  (st_log st ++ map (λ key, Stderr (("  - " +:+ key) +:+ nl)) keys)).
Proof.
  revert st. induction keys as [|key keys IH]; intros st; cbn [for_each map].
  - mstep. rewrite app_nil_r. by destruct st.
  - mstep. rewrite IH. cbn [st_world st_log]. rewrite <- app_assoc. reflexivity.
Qed.

Lemma read_text_run p st :
  read_text p st
  = match w_fs (st_world st) !! fs_key (st_world st) p with
    | Some (File content _) => (Ret content, st)
    | Some (Dir _) => (Raise (OSError "IsADirectoryError"), st)
    | None => (Raise (OSError "FileNotFoundError"), st)
    end.
Proof.
  unfold read_text. mstep.
  destruct (w_fs (st_world st) !! fs_key (st_world st) p) as [[]|]; reflexivity.
Qed.

Lemma absent_or_empty_default (o : option json) :
  match o with
  | Some v => negb (truthy v)
  | None => true
  end = negb (truthy (default JNull o)).
Proof. by destruct o. Qed.

Lemma azure_record_lookup m :
  azure_is_record m →
  ∃ a, or_else (default JNull (m !! "azure")) (JObj ∅) = JObj a
       ∧ ∀ key, json_at (JObj m) ["azure"; key] = a !! key.
Proof.
  unfold azure_is_record, or_else. cbn [json_at].
  destruct (m !! "azure") as [v|] eqn:Hm; cbn [default].
  - destruct v as [| b | z | f | s | l | a ]; intros Hv.
    1-6: exists ∅; split; [unfold id; by rewrite Hv|];
         intros key; by rewrite lookup_empty.
    unfold id. cbn [truthy]. case_bool_decide as Hempty; cbn [negb].
    + subst. exists ∅. split; [reflexivity|]. intros key.
      by rewrite lookup_empty.
    + exists a. split; [reflexivity|]. intros key. by destruct (a !! key).
  - intros _. exists ∅. split; [reflexivity|]. intros key.
    by rewrite lookup_empty.
Qed.

Lemma json_at_top m key : json_at (JObj m) [key] = m !! key.
Proof. cbn. by destruct (m !! key). Qed.

Lemma note_missing_app v key acc :
  note_missing v key acc = acc ++ (if negb (truthy v) then [key] else []).
Proof. unfold note_missing. destruct (negb (truthy v)); by rewrite ?app_nil_r. Qed.

Lemma filter_fst_step (raw : json) (f : string * list string) fs :
  (List.filter (λ f, absent_or_empty raw f.2) (f :: fs)).*1
  = (if absent_or_empty raw f.2 then [f.1] else [])
    ++ (List.filter (λ f, absent_or_empty raw f.2) fs).*1.
Proof. cbn. by destruct (absent_or_empty raw f.2). Qed.

(** C1, as amended. For every JSON configuration object whose [azure]
    entry is absent, falsy or itself an object, the loader fails
    validation if and only if at least one of the seven required fields
    is absent or falsy; it then reports exactly the missing keys, each
    once and in the order of the list, followed by the example
    configuration, and returns nothing. When all seven fields are
    present and truthy it returns a configuration that carries their
    values and writes nothing. *)
Theorem loader_reports_missing_keys E config_path st text t m :
  w_fs (st_world st) !! fs_key (st_world st) config_path = Some (File text t) →
  json_loads E text = inr (JObj m) →
  azure_is_record m →
  let raw := JObj m in
  load_config_file E config_path st =
    match spec_missing_keys raw with
    | [] =>
        (Ret (Some (mkBlackyConfig
                      (field raw ["prTitleRegex"])
                      (field raw ["packageManager"])
                      (field raw ["targetBranch"])
                      (field raw ["projectPackagePrefix"])
                      (mkAzureConfig (field raw ["azure"; "organizationUrl"])
                                     (field raw ["azure"; "project"])
                                     (field raw ["azure"; "repository"])))),
         st)
    | keys =>
        (Ret None, mkSt (st_world st) (st_log st ++ validation_report keys))
    end.
Proof.
  intros Hfile Hparse Hazure raw. unfold load_config_file.
  mstep. unfold path_exists. rewrite Hfile.
  rewrite bool_decide_eq_true_2 by eauto. cbn [negb]. mstep.
  rewrite read_text_run, Hfile. cbv beta iota. rewrite Hparse. mstep.
  cbn [get]. mstep.
  destruct (azure_record_lookup m Hazure) as (a & -> & Ha).
  cbn [get]. mstep.
  assert (Hkeys :
    note_missing (default JNull (a !! "repository")) "azure.repository"
      (note_missing (default JNull (a !! "project")) "azure.project"
        (note_missing (default JNull (a !! "organizationUrl")) "azure.organizationUrl"
          (note_missing (default JNull (m !! "packageManager")) "packageManager"
            (note_missing (default JNull (m !! "projectPackagePrefix"))
                          "projectPackagePrefix"
              (note_missing (default JNull (m !! "targetBranch")) "targetBranch"
                (note_missing (default JNull (m !! "prTitleRegex"))
                              "prTitleRegex" []))))))
    = spec_missing_keys raw).
  { unfold spec_missing_keys, required_fields.
    rewrite !filter_fst_step, !note_missing_app. cbn [List.filter fmap list_fmap].
    unfold absent_or_empty, raw. cbn [fst snd].
    rewrite !Ha, !json_at_top, !absent_or_empty_default.
    rewrite app_nil_r, <- !app_assoc. reflexivity. }
  rewrite Hkeys. clear Hkeys.
  unfold field, raw. rewrite !Ha, !json_at_top. fold raw.
  destruct (spec_missing_keys raw) as [|key keys].
  - by destruct st.
  - mstep. rewrite for_each_eprint. mstep.
    unfold validation_report. rewrite <- !app_assoc. reflexivity.
Qed.

(** The theorem at a document without [targetBranch] and with an empty
    [azure.project]. *)
Lemma loader_reports_missing_keys_witness :
  w_fs (st_world (Sample.start Sample.partial_text []))
    !! fs_key (st_world (Sample.start Sample.partial_text []))
              (parse "/repo/blacky.conf.json")
    = Some (File Sample.partial_text 10)
  ∧ json_loads E_ok Sample.partial_text = inr (JObj Sample.partial_object)
  ∧ azure_is_record Sample.partial_object
  ∧ load_config_file E_ok (parse "/repo/blacky.conf.json")
                     (Sample.start Sample.partial_text [])
    = (Ret None,
       mkSt (st_world (Sample.start Sample.partial_text []))
            (st_log (Sample.start Sample.partial_text [])
             ++ validation_report ["targetBranch"; "azure.project"])).
Proof.
  assert (Hfile : w_fs (st_world (Sample.start Sample.partial_text []))
                    !! fs_key (st_world (Sample.start Sample.partial_text []))
                              (parse "/repo/blacky.conf.json")
                  = Some (File Sample.partial_text 10)) by (vm_compute; reflexivity).
  assert (Hparse : json_loads E_ok Sample.partial_text
                   = inr (JObj Sample.partial_object)) by (vm_compute; reflexivity).
  assert (Hazure : azure_is_record Sample.partial_object) by (vm_compute; exact I).
  split; [exact Hfile|]. split; [exact Hparse|]. split; [exact Hazure|].
  exact (loader_reports_missing_keys E_ok (parse "/repo/blacky.conf.json")
           (Sample.start Sample.partial_text []) Sample.partial_text 10
           Sample.partial_object Hfile Hparse Hazure).
Defined.

(** C1, as stated, fails: on a configuration object whose [azure] is a
    non-empty string the three [azure] fields are absent, yet the
    loader neither reports them nor returns a configuration; the
    [AttributeError] of [azure_raw.get] leaves it. *)
Lemma loader_raises_on_flat_azure :
  json_loads E_ok Sample.flat_azure_text = inr (JObj Sample.flat_azure_object)
  ∧ spec_missing_keys (JObj Sample.flat_azure_object)
    = ["azure.organizationUrl"; "azure.project"; "azure.repository"]
  ∧ load_config_file E_ok (parse "/repo/blacky.conf.json")
                     (Sample.start Sample.flat_azure_text [])
    = (Raise AttributeError, Sample.start Sample.flat_azure_text [])
  ∧ (load_config_file E_ok (parse "/repo/blacky.conf.json")
                      (Sample.start Sample.flat_azure_text [])).1
    ≠ Ret None.
Proof. split_and!; [vm_compute; reflexivity ..|]. vm_compute. discriminate. Qed.

(** *** The title deriver *)

Section Title.
Variable E : Env.

Lemma title_falls_back_on_invalid_pattern branch regex_pattern e st :
  re_compile E regex_pattern = inl e →
  build_pr_title_from_branch E branch regex_pattern st
  = (Ret branch, mkSt (st_world st) (st_log st ++ [invalid_pattern_warning e])).
Proof.
  intros Hc. unfold build_pr_title_from_branch. rewrite Hc. mstep. reflexivity.
Qed.

Lemma title_falls_back_without_match branch regex_pattern pattern st :
  re_compile E regex_pattern = inr pattern →
  pattern branch = None →
  build_pr_title_from_branch E branch regex_pattern st
  = (Ret branch, mkSt (st_world st) (st_log st ++ [no_match_warning])).
Proof.
  intros Hc Hm. unfold build_pr_title_from_branch. rewrite Hc, Hm. mstep.
  reflexivity.
Qed.

Lemma title_from_named_group branch regex_pattern pattern m text st :
  re_compile E regex_pattern = inr pattern →
  pattern branch = Some m →
  groupdict m !! "title" = Some (Some text) →
  text ≠ "" →
  build_pr_title_from_branch E branch regex_pattern st = (Ret (strip text), st).
Proof.
  intros Hc Hm Ht Hne. unfold build_pr_title_from_branch. rewrite Hc, Hm, Ht.
  destruct text; [done|]. reflexivity.
Qed.

Lemma title_from_first_group branch regex_pattern pattern m text rest st :
  re_compile E regex_pattern = inr pattern →
  pattern branch = Some m →
  no_title m →
  groups m = Some text :: rest →
  build_pr_title_from_branch E branch regex_pattern st = (Ret (strip text), st).
Proof.
  intros Hc Hm Ht Hg. unfold build_pr_title_from_branch. rewrite Hc, Hm, Hg.
  destruct Ht as [-> | [-> | ->]]; reflexivity.
Qed.

Lemma title_without_groups branch regex_pattern pattern m st :
  re_compile E regex_pattern = inr pattern →
  pattern branch = Some m →
  no_title m →
  groups m = [] →
  build_pr_title_from_branch E branch regex_pattern st = (Ret branch, st).
Proof.
  intros Hc Hm Ht Hg. unfold build_pr_title_from_branch. rewrite Hc, Hm, Hg.
  destruct Ht as [-> | [-> | ->]]; reflexivity.
Qed.

Lemma title_raises_on_unset_first_group branch regex_pattern pattern m rest st :
  re_compile E regex_pattern = inr pattern →
  pattern branch = Some m →
  no_title m →
  groups m = None :: rest →
  build_pr_title_from_branch E branch regex_pattern st = (Raise AttributeError, st).
Proof.
  intros Hc Hm Ht Hg. unfold build_pr_title_from_branch. rewrite Hc, Hm, Hg.
  destruct Ht as [-> | [-> | ->]]; reflexivity.
Qed.

End Title.

(** The examples of the specification, run on [MiniRe]: a named
    group, a positional group, a pattern that does not match and a
    pattern that does not compile. *)
Lemma title_examples st :
  build_pr_title_from_branch E_ok "feature/add-login" "^feature/(?P<title>.+)$" st
  = (Ret "add-login", st)
  ∧ build_pr_title_from_branch E_ok "bugfix/123-fix" "^bugfix/(\d+-.+)$" st
    = (Ret "123-fix", st)
  ∧ build_pr_title_from_branch E_ok "hotfix/1" "^feature/(?P<title>.+)$" st
    = (Ret "hotfix/1", mkSt (st_world st) (st_log st ++ [no_match_warning]))
  ∧ build_pr_title_from_branch E_ok "feature/x" "^feature/(.+$" st
    = (Ret "feature/x",
       mkSt (st_world st)
            (st_log st ++ [invalid_pattern_warning
                             "missing ), unterminated subpattern at position 9"])).
Proof.
  split; [|split; [|split]].
  - eapply (title_from_named_group _ _ _ _ _ "add-login");
      [vm_compute; reflexivity ..|]. discriminate.
  - eapply (title_from_first_group _ _ _ _ _ "123-fix");
      [vm_compute; reflexivity | vm_compute; reflexivity | | vm_compute; reflexivity].
    left. vm_compute. reflexivity.
  - eapply title_falls_back_without_match; vm_compute; reflexivity.
  - eapply title_falls_back_on_invalid_pattern. vm_compute. reflexivity.
Qed.

(** C2: the code departs from the claim. The pattern [(a)|b] compiles
    and matches the branch [b] through its second alternative; its one
    group took no part in the match, so [m.group(1)] is [None] and
    [None.strip()] raises [AttributeError] where the claim derives a
    title. *)
Theorem title_raises_on_skipped_alternative :
  ∀ st,
    (∃ p m, MiniRe.compile "(a)|b" = Some (inr p)
            ∧ MiniRe.search p "b" = Some m
            ∧ groups m = [None] ∧ groupdict m = ∅)
    ∧ build_pr_title_from_branch E_ok "b" "(a)|b" st = (Raise AttributeError, st).
Proof.
  intros st. split.
  - eexists _, _. split; [vm_compute; reflexivity|].
    split; [vm_compute; reflexivity|]. split; reflexivity.
  - eapply title_raises_on_unset_first_group; [vm_compute; reflexivity ..| |reflexivity].
    left. reflexivity.
Qed.

(** C3: the code departs from the claim. The title deriver is not
    total: the pattern [(?P<title>x)?release] matches the branch
    [release] with its [title] group left out, and the call raises
    [AttributeError] instead of returning a string. *)
Theorem title_raises_on_skipped_optional_title :
  ∀ st,
    (∃ p m, MiniRe.compile "(?P<title>x)?release" = Some (inr p)
            ∧ MiniRe.search p "release" = Some m
            ∧ groups m = [None] ∧ groupdict m !! "title" = Some None)
    ∧ build_pr_title_from_branch E_ok "release" "(?P<title>x)?release" st
      = (Raise AttributeError, st).
Proof.
  intros st. split.
  - eexists _, _. split; [vm_compute; reflexivity|].
    split; [vm_compute; reflexivity|]. split; vm_compute; reflexivity.
  - eapply title_raises_on_unset_first_group; [vm_compute; reflexivity ..| |reflexivity].
    right. left. vm_compute. reflexivity.
Qed.

(** *** The submission in a dry run *)

Lemma str_items_strings (l : list string) : str_items (JStr <$> l) = Ret l.
Proof. induction l as [|s l IH]; cbn; [done|]. cbn in IH. by rewrite IH. Qed.

Lemma display_tokens_strings E (l : list string) :
  res_map (display_token E) (JStr <$> l) = Ret (JStr <$> (shell_display <$> l)).
Proof.
  induction l as [|s l IH]; cbn; [done|]. cbn in IH. rewrite IH.
  unfold shell_display. by destruct (contains " " s).
Qed.

(** C6. For every organization URL, project, repository, source and
    target branch, title, description and list of passthrough
    arguments, the submitter in dry-run mode reports success and leaves
    the world as it found it; all it adds to the trace is its header,
    the dry-run notice, [Command would be:] and the argument list in
    display form, the fixed flags first and the passthrough arguments
    after them, one token each. No child process appears in the trace:
    the command is not executed. *)
Theorem dry_run_prints_command E org_url project repo source_branch target_branch
    title description extra cwd st :
  create_azure_pr E (JStr org_url) (JStr project) (JStr repo) source_branch
                  (JStr target_branch) title description extra cwd true st
  = (Ret true,
     mkSt (st_world st)
          (st_log st
           ++ [ Stdout (section_text "Azure DevOps PR");
                Stdout dry_run_notice;
                Stdout ("Command would be:" +:+ nl);
                Stdout (("  " +:+ join " "
                           (shell_display
                              <$> pr_command org_url project repo source_branch
                                    target_branch title description extra))
                        +:+ nl) ])).
Proof.
  unfold create_azure_pr. mstep.
  change ([JStr "az"; JStr "repos"; JStr "pr"; JStr "create";
           JStr "--organization"; JStr org_url; JStr "--project"; JStr project;
           JStr "--repository"; JStr repo; JStr "--source-branch";
           JStr source_branch; JStr "--target-branch"; JStr target_branch;
           JStr "--title"; JStr title; JStr "--description"; JStr description]
          ++ (JStr <$> extra))
    with (JStr <$> pr_command org_url project repo source_branch target_branch
                     title description extra).
  rewrite display_tokens_strings. mstep. rewrite str_items_strings. mstep.
  rewrite <- !app_assoc. reflexivity.
Qed.

(** *** Changed packages *)

Lemma get_changed_packages_run E st stdout w' :
  status_ok E (st_world st) stdout w' →
  get_changed_packages E st
  = (Ret (py_sorted (filter (λ pkg, 1 < String.length pkg)
                            (elements (collect_packages w' (changed_files stdout))))),
     mkSt w' (st_log st ++ [Spawn None ["git"; "status"; "--porcelain"] (Exited 0)])).
Proof.
  intros Hs. unfold get_changed_packages. mstep.
  unfold subprocess_run. rewrite Hs. cbn [andb negb Z.eqb]. mstep. reflexivity.
Qed.

(** The directories the loops of [get_changed_packages] find. *)
Lemma elem_of_collect_packages w files pkg :
  pkg ∈ collect_packages w files ↔
  ∃ file parent, file ∈ files
                 ∧ first_with_manifest w (parse file) = Some parent
                 ∧ as_posix parent = pkg.
Proof.
  unfold collect_packages.
  assert (H : ∀ (acc : gset string),
    pkg ∈ foldl (λ (packages : gset string) file,
                   match first_with_manifest w (parse file) with
                   | Some parent => packages ∪ {[ as_posix parent ]}
                   | None => packages
                   end) acc files
    ↔ pkg ∈ acc ∨ ∃ file parent, file ∈ files
                 ∧ first_with_manifest w (parse file) = Some parent
                 ∧ as_posix parent = pkg).
  { induction files as [|file files IH]; intros acc; cbn [foldl].
    - split; [by left|]. intros [?|(? & ? & Hin & _)]; [done|]. by inversion Hin.
    - rewrite IH. destruct (first_with_manifest w (parse file)) as [parent|] eqn:Hf.
      + rewrite elem_of_union, elem_of_singleton. split.
        * intros [[? | ->] | (f & p & ? & ? & ?)]; [by left| |].
          -- right. exists file, parent. split; [left|done].
          -- right. exists f, p. split; [by right|done].
        * intros [?|(f & p & Hin & Hp & Hpkg)]; [by left; left|].
          apply elem_of_cons in Hin as [-> | Hin].
          -- left. right. congruence.
          -- right. eauto.
      + split.
        * intros [?|(f & p & ? & ? & ?)]; [by left|].
          right. exists f, p. split; [by right|done].
        * intros [?|(f & p & Hin & Hp & Hpkg)]; [by left|].
          apply elem_of_cons in Hin as [-> | Hin]; [congruence|]. right. eauto. }
  rewrite H. split; [intros [?|?]; [set_solver|done] | by right].
Qed.

(** What the function guarantees: a sorted list without repetition of
    the directories found, those with a one-character path left out. *)
Lemma changed_packages_properties E st stdout w' :
  status_ok E (st_world st) stdout w' →
  ∃ pkgs,
    fst (get_changed_packages E st) = Ret pkgs
    ∧ StronglySorted String.le pkgs
    ∧ NoDup pkgs
    ∧ ∀ pkg, pkg ∈ pkgs ↔
        1 < String.length pkg
        ∧ ∃ file parent, file ∈ changed_files stdout
                         ∧ first_with_manifest w' (parse file) = Some parent
                         ∧ as_posix parent = pkg.
Proof.
  intros Hs. rewrite (get_changed_packages_run _ _ _ _ Hs). cbn [fst].
  eexists. split; [reflexivity|]. unfold py_sorted. split; [|split].
  - apply StronglySorted_merge_sort; apply _.
  - rewrite merge_sort_Permutation. apply NoDup_filter, NoDup_elements.
  - intros pkg. rewrite merge_sort_Permutation, list_elem_of_filter, elem_of_elements.
    by rewrite elem_of_collect_packages.
Qed.

(** The example of the specification. *)
Lemma changed_packages_example :
  fst (get_changed_packages
         (E_status (" M a/pkg1/src/x.ts" +:+ nl +:+ " M a/pkg1/src/y.ts" +:+ nl))
         (Sample.start Sample.config_text []))
  = Ret ["a/pkg1"].
Proof. vm_compute. reflexivity. Qed.

(** C4: the code departs from the claim. The changed file [w/x.ts]
    lies in the directory [w], which holds a [package.json]; the walk
    upward finds [w], but the filter [len(pkg) > 1], meant for the root
    path, drops every path of one character, and the result is empty. *)
Theorem changed_packages_drops_short_directory :
  changed_files (" M w/x.ts" +:+ nl) = ["w/x.ts"]
  ∧ as_posix <$> first_with_manifest (Sample.world Sample.config_text [])
                                     (parse "w/x.ts")
    = Some "w"
  ∧ fst (get_changed_packages (E_status (" M w/x.ts" +:+ nl))
                              (Sample.start Sample.config_text []))
    = Ret [].
Proof. split_and!; vm_compute; reflexivity. Qed.

(** *** The changeset file *)

(** Destruct the monadic call that a hypothesis is waiting for. *)
Ltac mcase H :=
  match type of H with
  | context [match ?m ?st with (_, _) => _ end] =>
      match m with
      | _ => 
        let r := fresh "r" in
        let st' := fresh "st" in
        let Hm := fresh "Hrun" in
        destruct (m st) as [r st'] eqn:Hm; destruct r; cbv beta iota in H;
        try discriminate H
      end
  end.

Ltac mstep_in H :=
  repeat (first [ rewrite bind_run in H | rewrite mret_run in H
                | rewrite raise_run in H
                | rewrite lift_run in H | rewrite get_world_run in H
                | rewrite emit_run in H
                | rewrite print_run in H | rewrite eprint_run in H
                | rewrite info_run in H
                | rewrite warn_run in H | rewrite error_run in H
                | rewrite print_section_run in H
                | rewrite try_except_run in H ];
          cbv beta iota in H; cbn [st_world st_log] in H).

Lemma open_w_inv p st f st' :
  open_w p st = (Ret f, st') →
  f = fs_key (st_world st) p
  ∧ w_fs (st_world st') !! f = Some (File "" (w_now (st_world st)))
  ∧ w_cwd (st_world st') = w_cwd (st_world st)
  ∧ w_now (st_world st') = w_now (st_world st)
  ∧ st_log st' = st_log st.
Proof.
  unfold open_w. cbv zeta. intros H.
  destruct (w_fs (st_world st) !! fs_key (st_world st) p) as [[]|] eqn:Hk;
    cbv beta iota in H.
  - simplify_eq. unfold with_fs. cbn [st_world st_log w_fs w_cwd w_now].
    split_and!; try done. apply lookup_insert_eq.
  - discriminate.
  - match type of H with
    | match ?x with _ => _ end = _ => destruct x as [[]|]
    end; cbv beta iota in H; try discriminate.
    simplify_eq. unfold with_fs. cbn [st_world st_log w_fs w_cwd w_now].
    split_and!; try done. apply lookup_insert_eq.
Qed.

Lemma f_write_run f text st content t :
  w_fs (st_world st) !! f = Some (File content t) →
  f_write f text st
  = (Ret tt,
     mkSt (with_fs (st_world st)
                   (<[f := File (content +:+ text) (w_now (st_world st))]>
                    (w_fs (st_world st))))
          (st_log st ++ [Wrote f text])).
Proof. intros H. unfold f_write. by rewrite H. Qed.

Lemma string_app_assoc (a b c : string) : (a +:+ b) +:+ c = a +:+ (b +:+ c).
Proof.
  induction a as [|ch a IH]; [reflexivity|].
  change (String ch ((a +:+ b) +:+ c) = String ch (a +:+ (b +:+ c))).
  by f_equal.
Qed.

Lemma string_app_nil_r (a : string) : a +:+ "" = a.
Proof.
  induction a as [|ch a IH]; [reflexivity|].
  change (String ch (a +:+ "") = String ch a). by f_equal.
Qed.

(** On success the located file holds exactly what was written: the
    earlier content is gone. *)
Lemma changeset_file_content E pm description change_type cwd prefix st latest st' :
  create_and_edit_changeset E pm description change_type cwd prefix st
  = (Ret (Some latest), st') →
  ∃ st1 st2 dirs,
    get_changed_packages E st1 = (Ret dirs, st2)
    ∧ w_fs (st_world st') !! fs_key (st_world st') latest
      = Some (File (written_content E prefix dirs change_type description)
                   (w_now (st_world st'))).
Proof.
  unfold create_and_edit_changeset. intros H. mstep_in H.
  mcase H; mstep_in H.
  2: { destruct e; mstep_in H; discriminate. }
  cbn [negb] in H. mstep_in H. unfold find_latest_changeset_file in H. mstep_in H.
  match type of H with
  | context [if ?b then _ else _] => destruct b; mstep_in H; [discriminate|]
  end.
  match type of H with
  | context [match ?l with [] => _ | _ => _ end] =>
      destruct l as [|found ?]; mstep_in H; [discriminate|]
  end.
  mcase H. rename a0 into dirs.
  match goal with
  | Hrun : get_changed_packages E ?s1 = (Ret dirs, ?s2) |- _ =>
      exists s1, s2, dirs; split; [exact Hrun|]
  end.
  mstep_in H.
  assert (Hwarn : ∃ log,
    (match dirs with
     | [] => warn ("I could not find any changed packages with a package.json. "
                   +:+ "The changeset will be created without explicit package entries.")
     | _ :: _ => mret tt
     end) st1 = (Ret tt, mkSt (st_world st1) log)).
  { destruct dirs; [eexists; mstep; reflexivity|].
    exists (st_log st1). mstep. by destruct st1. }
  destruct Hwarn as [log Hwarn]. rewrite Hwarn in H. mstep_in H.
  mcase H. apply open_w_inv in Hrun1 as (-> & Hf & Hcwd & Hnow & Hlog).
  cbn [st_world st_log] in *. mstep_in H.
  erewrite f_write_run in H by exact Hf. mstep_in H.
  assert (Hkey : fs_key (st_world st') latest = fs_key (st_world st1) latest
                 ∧ w_now (st_world st') = w_now (st_world st1)
                 ∧ w_fs (st_world st') !! fs_key (st_world st1) latest
                   = Some (File (written_content E prefix dirs change_type description)
                                (w_now (st_world st1)))).
  { unfold written_content.
    destruct (String.eqb description "") eqn:Hd; cbn [negb] in H; mstep_in H.
    - simplify_eq. unfold fs_key, with_fs. cbn [st_world w_cwd w_now w_fs].
      rewrite Hcwd, Hnow. split_and!; try done.
      rewrite string_app_nil_r. apply lookup_insert_eq.
    - erewrite f_write_run in H
        by (unfold with_fs; cbn [st_world w_fs]; apply lookup_insert_eq).
      mstep_in H. unfold with_fs in H. cbn [st_world w_fs w_now w_cwd w_stdin] in H.
      erewrite f_write_run in H
        by (unfold with_fs; cbn [st_world w_fs]; apply lookup_insert_eq).
      mstep_in H. simplify_eq. unfold fs_key, with_fs. cbn [st_world w_cwd w_now w_fs].
      rewrite Hcwd, Hnow. split_and!; try done.
      rewrite !string_app_assoc. apply lookup_insert_eq. }
  destruct Hkey as (-> & -> & ->). reflexivity.
Qed.

(** C5: the code departs from the claim. The writer succeeds and
    replaces the content of the located file, but no blank line
    separates the closing delimiter from the description: joining the
    lines with newlines makes of the last, empty one the end of the
    delimiter line. The specification, and the comment [# empty line]
    in the source, put a blank line there. *)
Theorem changeset_has_no_blank_line :
  fst changeset_run = Ret (Some (parse "/repo/.changeset/brave-lions-dance.md"))
  ∧ w_fs (st_world (snd changeset_run)) !! "/repo/.changeset/brave-lions-dance.md"
    = Some (File ("---" +:+ nl
                  +:+ dq +:+ "@acme/pkg1" +:+ dq +:+ ": minor" +:+ nl
                  +:+ "---" +:+ nl
                  +:+ "Fix the login form" +:+ nl) 101)
  ∧ spec_changeset_content "@acme" ["a/pkg1"] "minor" "Fix the login form"
    = "---" +:+ nl
      +:+ dq +:+ "@acme/pkg1" +:+ dq +:+ ": minor" +:+ nl
      +:+ "---" +:+ nl
      +:+ nl
      +:+ "Fix the login form" +:+ nl
  ∧ w_fs (st_world (snd changeset_run)) !! "/repo/.changeset/brave-lions-dance.md"
    ≠ Some (File (spec_changeset_content "@acme" ["a/pkg1"] "minor"
                                         "Fix the login form") 101).
Proof. split_and!; [vm_compute; reflexivity ..|]. vm_compute. discriminate. Qed.

(** *** Traces *)

Section Emits.
Context (P : event → Prop).

Lemma emits_ret {A} (a : A) : emits P (mret a).
Proof. intros st. exists []. by rewrite app_nil_r. Qed.

Lemma emits_raise {A} e : emits P (raise (A := A) e).
Proof. intros st. exists []. by rewrite app_nil_r. Qed.

Lemma emits_lift {A} (r : res A) : emits P (lift r).
Proof. intros st. exists []. by rewrite app_nil_r. Qed.

Lemma emits_get_world : emits P get_world.
Proof. intros st. exists []. by rewrite app_nil_r. Qed.

Lemma emits_emit e : P e → emits P (emit e).
Proof. intros He st. exists [e]. split; [done|]. by constructor. Qed.

Lemma emits_bind {A B} (m : M A) (f : A → M B) :
  emits P m → (∀ a, emits P (f a)) → emits P (m ≫= f).
Proof.
  intros Hm Hf st. rewrite bind_run. destruct (Hm st) as (evs1 & Hlog1 & Hall1).
  destruct (m st) as [[a|e] st1]; cbn [fst snd] in *.
  - destruct (Hf a st1) as (evs2 & Hlog2 & Hall2).
    exists (evs1 ++ evs2). rewrite Hlog2, Hlog1, app_assoc. split; [done|].
    by apply Forall_app.
  - by exists evs1.
Qed.

Lemma emits_try_except {A} (m : M A) handler :
  emits P m → (∀ e h, handler e = Some h → emits P h) →
  emits P (try_except m handler).
Proof.
  intros Hm Hh st. rewrite try_except_run.
  destruct (Hm st) as (evs1 & Hlog1 & Hall1).
  destruct (m st) as [[a|e] st1]; cbn [fst snd] in *.
  - by exists evs1.
  - destruct (handler e) as [h|] eqn:He; [|by exists evs1].
    destruct (Hh e h He st1) as (evs2 & Hlog2 & Hall2).
    exists (evs1 ++ evs2). rewrite Hlog2, Hlog1, app_assoc. split; [done|].
    by apply Forall_app.
Qed.

Lemma emits_print s : P (Stdout (s +:+ nl)) → emits P (print s).
Proof. apply emits_emit. Qed.

Lemma emits_eprint s : P (Stderr (s +:+ nl)) → emits P (eprint s).
Proof. apply emits_emit. Qed.

Lemma emits_info msg : P (Stdout ((_prefix +:+ " " +:+ msg) +:+ nl)) → emits P (info msg).
Proof. apply emits_emit. Qed.

Lemma emits_warn msg : (∀ s, P (Stderr s)) → emits P (warn msg).
Proof. intros H. apply emits_emit, H. Qed.

Lemma emits_error msg : (∀ s, P (Stderr s)) → emits P (error msg).
Proof. intros H. apply emits_emit, H. Qed.

Lemma emits_print_section title :
  P (Stdout (section_text title)) → emits P (print_section title).
Proof. apply emits_emit. Qed.

Lemma emits_input prompt : P (Stdout prompt) → emits P (input prompt).
Proof.
  intros Hp st. exists [Stdout prompt]. rewrite input_run.
  split; [by destruct (w_stdin (st_world st))|]. by constructor.
Qed.

Lemma emits_for_each {A} (l : list A) body :
  (∀ x, emits P (body x)) → emits P (for_each l body).
Proof.
  intros Hb. induction l as [|x l IH]; cbn [for_each].
  - apply emits_ret.
  - apply emits_bind; [apply Hb|]. intros _. apply IH.
Qed.

Lemma emits_read_text p : emits P (read_text p).
Proof.
  intros st. exists []. rewrite read_text_run, app_nil_r.
  split; [|done]. by destruct (w_fs _ !! _) as [[]|].
Qed.

Lemma emits_open_w p : emits P (open_w p).
Proof.
  intros st. exists []. rewrite app_nil_r. split; [|done].
  unfold open_w. cbv zeta. repeat (destruct (w_fs _ !! _) as [[]|]; try done).
Qed.

Lemma emits_f_write f text : P (Wrote f text) → emits P (f_write f text).
Proof. intros H st. exists [Wrote f text]. split; [done|]. by constructor. Qed.

Lemma emits_subprocess_run E cmd cwd check :
  (∀ o, P (Spawn cwd cmd o)) → emits P (subprocess_run E cmd cwd check).
Proof.
  intros H st. unfold subprocess_run.
  destruct (spawn E cwd cmd (st_world st)) as [[e|[rc out]] w'].
  - eexists [_]. split; [reflexivity|]. constructor; [apply H|done].
  - eexists [_]. split; [by destruct (_ && _)|]. constructor; [apply H|done].
Qed.

Lemma emits_lift_bind {A B} (r : res A) (f : A → M B) :
  (∀ a, r = Ret a → emits P (f a)) → emits P (lift r ≫= f).
Proof.
  intros H st. rewrite bind_run, lift_run. destruct r as [a|e].
  - apply (H a eq_refl).
  - exists []. by rewrite app_nil_r.
Qed.

Lemma emits_run_command E cmd cwd check :
  (∀ items, str_items cmd = Ret items →
     P (Stdout ((_prefix +:+ " " +:+ "Running command:" +:+ nl +:+ "  "
                 +:+ join " " items) +:+ nl))
     ∧ ∀ o, P (Spawn (as_posix <$> cwd) items o)) →
  emits P (run_command E cmd cwd check).
Proof.
  intros H. unfold run_command. apply emits_lift_bind. intros items Hi.
  destruct (H items Hi) as [Hinfo Hspawn].
  apply emits_bind; [by apply emits_info|]. intros _.
  by apply emits_subprocess_run.
Qed.

Lemma emits_mono {A} (Q : event → Prop) (m : M A) :
  (∀ e, Q e → P e) → emits Q m → emits P m.
Proof.
  intros HQ Hm st. destruct (Hm st) as (evs & Hlog & Hall).
  exists evs. split; [done|]. eapply Forall_impl; eauto.
Qed.

End Emits.

Ltac emits_step :=
  first [ apply emits_ret | apply emits_raise | apply emits_get_world
        | apply emits_lift
        | apply emits_read_text | apply emits_open_w
        | apply emits_bind; [|intros ?]
        | apply emits_lift_bind; intros ? ?
        | apply emits_try_except; [|intros ? ? ?] ].

(** *** Events that are neither of the build stage nor of the submission *)

Lemma quiet_stderr s : quiet (Stderr s).
Proof.
  split.
  - intros [?|[?|(? & ? & ? & ?)]]; discriminate.
  - intros (? & ? & ? & _ & [?|?]); discriminate.
Qed.

Lemma quiet_wrote f text : quiet (Wrote f text).
Proof.
  split.
  - intros [?|[?|(? & ? & ? & ?)]]; discriminate.
  - intros (? & ? & ? & _ & [?|?]); discriminate.
Qed.

Lemma quiet_stdout s :
  String.eqb s (section_text "Azure DevOps PR") = false →
  String.eqb s ("Command would be:" +:+ nl) = false →
  quiet (Stdout s).
Proof.
  intros H1 H2. apply String.eqb_neq in H1, H2. split.
  - intros [?|[?|(? & ? & ? & ?)]]; congruence.
  - intros (? & ? & ? & _ & [?|?]); discriminate.
Qed.

Lemma quiet_prefixed s : quiet (Stdout ((_prefix +:+ s) +:+ nl)).
Proof. apply quiet_stdout; reflexivity. Qed.

Lemma quiet_rev_parse o :
  quiet (Spawn None ["git"; "rev-parse"; "--abbrev-ref"; "HEAD"] o).
Proof.
  split.
  - intros [?|[?|(? & ? & ? & ?)]]; discriminate.
  - intros (? & ? & ? & _ & [?|?]); discriminate.
Qed.

Lemma quiet_status o : quiet (Spawn None ["git"; "status"; "--porcelain"] o).
Proof.
  split.
  - intros [?|[?|(? & ? & ? & ?)]]; discriminate.
  - intros (? & ? & ? & _ & [?|?]); discriminate.
Qed.

Lemma quiet_changeset cwd pm o : quiet (Spawn cwd [pm; "changeset"; "--empty"] o).
Proof.
  split.
  - intros [?|[?|(? & ? & ? & ?)]]; discriminate.
  - intros (? & ? & ? & _ & [?|?]); discriminate.
Qed.

Ltac quiet_leaf :=
  first [ apply emits_warn, quiet_stderr
        | apply emits_error, quiet_stderr
        | apply emits_eprint, quiet_stderr
        | apply emits_info, quiet_prefixed
        | apply emits_print_section, quiet_stdout; reflexivity
        | apply emits_print, quiet_stdout; reflexivity
        | apply emits_input, quiet_stdout; reflexivity
        | apply emits_f_write, quiet_wrote ].

Ltac quiet_go := repeat first [ quiet_leaf | emits_step ].

Lemma str_items_cons_inv v l items :
  str_items (v :: l) = Ret items →
  ∃ s rest, v = JStr s ∧ str_items l = Ret rest ∧ items = s :: rest.
Proof.
  destruct v; cbn; try discriminate.
  destruct (str_items l) as [rest|]; intros H; simplify_eq. eauto.
Qed.

(** Split a bind, closing the first half when it is straight-line. *)
Ltac ebind := apply emits_bind; [ try solve [quiet_go] | intros ? ].
Tactic Notation "ebind" "as" simple_intropattern(x) :=
  apply emits_bind; [ try solve [quiet_go] | intros x ].

Section Stages.
Variable E : Env.

Lemma load_config_file_quiet p : emits quiet (load_config_file E p).
Proof.
  unfold load_config_file. ebind.
  destruct (negb _); [quiet_go|].
  ebind. destruct (json_loads E _); [quiet_go|].
  do 8 ebind.
  match goal with |- emits _ (match ?l with _ => _ end) => destruct l end.
  - quiet_go.
  - ebind. ebind; [|quiet_go]. apply emits_for_each. intros key. quiet_go.
Qed.

Lemma get_current_branch_quiet : emits quiet (get_current_branch E).
Proof.
  unfold get_current_branch. apply emits_try_except.
  - ebind as [rc out]; [apply emits_subprocess_run, quiet_rev_parse|].
    destruct (String.eqb _ _); quiet_go.
  - intros e h He. destruct e; simplify_eq. quiet_go.
Qed.

Lemma build_pr_title_quiet branch pattern :
  emits quiet (build_pr_title_from_branch E branch pattern).
Proof.
  unfold build_pr_title_from_branch.
  destruct (re_compile E pattern) as [e|p]; [quiet_go|].
  destruct (p branch) as [m|]; [|quiet_go].
  destruct (groupdict m !! "title") as [[[|c t]|]|];
    try (destruct (groups m) as [|[g|] ?]); quiet_go.
Qed.

Lemma collect_lines_quiet fuel acc : emits quiet (collect_lines fuel acc).
Proof.
  revert acc. induction fuel as [|fuel IH]; intros acc; cbn [collect_lines].
  - quiet_go.
  - ebind as line.
    + apply emits_try_except; [quiet_go|].
      intros e h He. destruct e; simplify_eq. quiet_go.
    + destruct line as [line|]; [|quiet_go].
      destruct (String.eqb _ _); [quiet_go|apply IH].
Qed.

Lemma ask_multiline_markdown_quiet prompt :
  emits quiet (ask_multiline_markdown prompt).
Proof.
  unfold ask_multiline_markdown. do 4 ebind.
  ebind; [apply collect_lines_quiet|]. quiet_go.
Qed.

Lemma ask_change_type_loop_quiet fuel : emits quiet (ask_change_type_loop fuel).
Proof.
  induction fuel as [|fuel IH]; cbn [ask_change_type_loop]; [quiet_go|].
  ebind. destruct (bool_decide _); [quiet_go|].
  ebind. apply IH.
Qed.

Lemma ask_change_type_quiet : emits quiet ask_change_type.
Proof.
  unfold ask_change_type. do 2 ebind. apply ask_change_type_loop_quiet.
Qed.

Lemma find_latest_quiet dir : emits quiet (find_latest_changeset_file dir).
Proof.
  unfold find_latest_changeset_file. ebind.
  destruct (negb _); [quiet_go|]. destruct (sorted_desc _ _); quiet_go.
Qed.

Lemma get_changed_packages_quiet : emits quiet (get_changed_packages E).
Proof.
  unfold get_changed_packages. ebind as r.
  - apply emits_try_except.
    + ebind; [apply emits_subprocess_run, quiet_status|]. quiet_go.
    + intros e h He. destruct e; simplify_eq. quiet_go.
  - destruct r as [[rc out]|]; quiet_go.
Qed.

Lemma create_and_edit_changeset_quiet pm description change_type cwd prefix :
  emits quiet (create_and_edit_changeset E pm description change_type cwd prefix).
Proof.
  unfold create_and_edit_changeset. ebind. ebind as created.
  - apply emits_try_except.
    + ebind; [|quiet_go]. apply emits_run_command. intros items Hi.
      apply str_items_cons_inv in Hi as (s & rest & -> & Hi & ->).
      cbn in Hi. simplify_eq. split; [apply quiet_prefixed|].
      intros o. apply quiet_changeset.
    + intros e h He. destruct e; simplify_eq. quiet_go.
  - destruct (negb created); [quiet_go|].
    ebind as latest; [apply find_latest_quiet|].
    destruct latest as [latest|]; [|quiet_go].
    ebind. ebind as dirs; [apply get_changed_packages_quiet|].
    ebind; [destruct dirs; quiet_go|].
    ebind. ebind. ebind; [destruct (negb _); quiet_go|]. quiet_go.
Qed.

End Stages.

(** *** The build stage *)

Lemma not_pr_stderr s : ¬ pr_submission (Stderr s).
Proof. apply quiet_stderr. Qed.

Lemma not_pr_prefixed s : ¬ pr_submission (Stdout ((_prefix +:+ s) +:+ nl)).
Proof. apply quiet_prefixed. Qed.

Lemma not_pr_build_section : ¬ pr_submission (Stdout (section_text "Local Build")).
Proof. apply quiet_stdout; reflexivity. Qed.

Lemma not_pr_install cwd pm o : ¬ pr_submission (Spawn cwd [pm; "install"] o).
Proof. intros [?|[?|(? & ? & ? & ?)]]; discriminate. Qed.

Lemma not_pr_build cwd pm o : ¬ pr_submission (Spawn cwd [pm; "run"; "build:all"] o).
Proof. intros [?|[?|(? & ? & ? & ?)]]; discriminate. Qed.

Lemma not_failed_stdout s : ¬ install_or_build_failed (Stdout s).
Proof. intros (? & ? & ? & _ & [?|?]); discriminate. Qed.

Lemma not_failed_stderr s : ¬ install_or_build_failed (Stderr s).
Proof. intros (? & ? & ? & _ & [?|?]); discriminate. Qed.

Lemma not_failed_raised cwd cmd e :
  ¬ install_or_build_failed (Spawn cwd cmd (Raised e)).
Proof. intros (? & ? & ? & _ & [?|?]); discriminate. Qed.

Lemma not_failed_exit_0 cwd cmd : ¬ install_or_build_failed (Spawn cwd cmd (Exited 0)).
Proof. intros (? & ? & ? & Hrc & [?|?]); simplify_eq. Qed.

Ltac not_pr :=
  first [ apply not_pr_stderr | apply not_pr_prefixed | apply not_pr_build_section
        | apply not_pr_install | apply not_pr_build ].

Ltac not_failed :=
  first [ apply not_failed_stdout | apply not_failed_stderr
        | apply not_failed_raised | apply not_failed_exit_0 ].

Ltac all_events tac :=
  repeat first [ apply Forall_nil_2 | apply Forall_cons_2; [tac|] ].

Lemma str_items_raises l e : str_items l = Raise e → e = TypeError.
Proof.
  induction l as [|v l IH]; cbn; [discriminate|].
  destruct v; try (intros; by simplify_eq).
  destruct (str_items l); intros; simplify_eq. by apply IH.
Qed.

Lemma attempt_run E cmd cwd failure st :
  ∃ evs, st_log (attempt E cmd cwd failure st).2 = st_log st ++ evs
         ∧ attempt_contract cmd cwd failure (attempt E cmd cwd failure st).1 evs.
Proof.
  unfold attempt, run_command. mstep.
  destruct (str_items cmd) as [items|e] eqn:Hitems; cbv beta iota.
  2: { apply str_items_raises in Hitems as ->. mstep.
       exists []. rewrite app_nil_r. split; [done|]. by left. }
  mstep. unfold subprocess_run. cbn [fmap option_fmap option_map st_world st_log].
  destruct (spawn E (Some (as_posix cwd)) items (st_world st)) as [[e|[rc out]] w'].
  - destruct e; mstep;
      try (eexists [_; _]; rewrite <- app_assoc; split; [reflexivity|];
           right; eauto).
    eexists [_; _; _]. rewrite <- !app_assoc. split; [reflexivity|]. cbn. eauto.
  - cbn [andb]. destruct (Z.eqb_spec rc 0) as [->|Hrc]; cbn [negb]; mstep.
    + eexists [_; _]. rewrite <- app_assoc. split; [reflexivity|]. cbn. eauto.
    + eexists [_; _; _]. rewrite <- !app_assoc. split; [reflexivity|]. cbn. eauto.
Qed.

Lemma run_local_build_unfold E pm cwd :
  run_local_build E pm cwd
  = (print_section "Local Build";;
     installed ← attempt E [pm; JStr "install"] cwd
                   ("Installation step (install) failed. "
                    +:+ "Blacky will abort before creating a PR.");
     if negb installed then mret false
     else
       built ← attempt E [pm; JStr "run"; JStr "build:all"] cwd
                 ("Build step failed. "
                  +:+ "I will not create a PR while the project does not build locally.");
       if negb built then mret false
       else info "Local build completed successfully.";; mret true).
Proof. reflexivity. Qed.

Lemma Exists_failed_inv (evs : list event) :
  Forall (λ e, ¬ install_or_build_failed e) evs →
  Exists install_or_build_failed evs → False.
Proof.
  intros Hall Hex. apply Exists_exists in Hex as (e & Hin & He).
  rewrite Forall_forall in Hall. by apply (Hall e).
Qed.

Lemma run_local_build_contract E pm cwd st :
  ∃ evs, st_log (run_local_build E pm cwd st).2 = st_log st ++ evs
         ∧ build_stage_contract cwd pm (run_local_build E pm cwd st).1 evs.
Proof.
  rewrite run_local_build_unfold. mstep.
  match goal with
  | |- context [attempt E ?cmd cwd ?msg ?s] =>
      destruct (attempt_run E cmd cwd msg s) as (evs1 & Hlog1 & Hc1);
      destruct (attempt E cmd cwd msg s) as [[[|]|e1] st1]
  end; cbn [fst snd st_log negb] in *; cbv beta iota.
  - (* installed *)
    destruct Hc1 as (items1 & Hi1 & ->).
    apply str_items_cons_inv in Hi1 as (pm_s & rest & -> & Hi1 & ->).
    cbn in Hi1. simplify_eq. mstep.
    match goal with
    | |- context [attempt E ?cmd cwd ?msg ?s] =>
        destruct (attempt_run E cmd cwd msg s) as (evs2 & Hlog2 & Hc2);
        destruct (attempt E cmd cwd msg s) as [[[|]|e2] st2]
    end; cbn [fst snd st_log negb] in *; cbv beta iota.
    + destruct Hc2 as (items2 & Hi2 & ->). cbn in Hi2. simplify_eq. mstep.
      cbn [fst snd st_log st_world]. eexists. rewrite Hlog2, Hlog1, <- !app_assoc. split; [reflexivity|].
      split; [|split].
      * all_events not_pr.
      * intros H. exfalso. revert H. apply Exists_failed_inv.
        all_events not_failed.
      * intros _. exists pm_s. split; [done|]. split; set_solver.
    + destruct Hc2 as (items2 & o & Hi2 & ->). cbn in Hi2. simplify_eq. mstep.
      cbn [fst snd st_log st_world]. eexists. rewrite Hlog2, Hlog1, <- !app_assoc. split; [reflexivity|].
      split; [|split]; [all_events not_pr|done|discriminate].
    + cbn [fst snd st_log st_world]. eexists. rewrite Hlog2, Hlog1, <- !app_assoc. split; [reflexivity|].
      destruct Hc2 as [->|(items2 & e' & Hi2 & ->)]; [|cbn in Hi2; simplify_eq];
        (split; [|split]; [all_events not_pr| |discriminate]);
        intros H; exfalso; revert H; apply Exists_failed_inv;
        all_events not_failed.
  - (* install failed *)
    destruct Hc1 as (items1 & o & Hi1 & ->).
    apply str_items_cons_inv in Hi1 as (pm_s & rest & -> & Hi1 & ->).
    cbn in Hi1. simplify_eq. mstep.
    cbn [fst snd st_log st_world]. eexists. rewrite Hlog1, <- !app_assoc. split; [reflexivity|].
    split; [|split]; [all_events not_pr|done|discriminate].
  - (* an exception leaves the function *)
    cbn [fst snd st_log st_world]. eexists. rewrite Hlog1, <- !app_assoc. split; [reflexivity|].
    destruct Hc1 as [->|(items1 & e' & Hi1 & ->)].
    + split; [|split]; [all_events not_pr| |discriminate].
      intros H; exfalso; revert H; apply Exists_failed_inv; all_events not_failed.
    + apply str_items_cons_inv in Hi1 as (pm_s & rest & -> & Hi1 & ->).
      cbn in Hi1. simplify_eq.
      split; [|split]; [all_events not_pr| |discriminate].
      intros H; exfalso; revert H; apply Exists_failed_inv; all_events not_failed.
Qed.

(** *** The submission stage *)

Lemma not_failed_az cwd rest o :
  ¬ install_or_build_failed (Spawn cwd ("az" :: "repos" :: rest) o).
Proof. intros (? & ? & ? & _ & [?|?]); discriminate. Qed.

Lemma create_azure_pr_not_failed E org_url project repo source_branch target_branch
    title description extra cwd dry_run :
  emits (λ e, ¬ install_or_build_failed e)
        (create_azure_pr E org_url project repo source_branch target_branch
                         title description extra cwd dry_run).
Proof.
  unfold create_azure_pr.
  apply emits_bind; [apply emits_print_section, not_failed_stdout|]. intros _.
  destruct dry_run.
  - apply emits_bind; [apply emits_info, not_failed_stdout|]. intros _.
    apply emits_bind; [apply emits_print, not_failed_stdout|]. intros _.
    apply emits_lift_bind. intros tokens _.
    apply emits_lift_bind. intros shown _.
    apply emits_bind; [apply emits_print, not_failed_stdout|]. intros _.
    apply emits_ret.
  - apply emits_try_except.
    + apply emits_bind.
      * apply emits_run_command. intros items Hi.
        apply str_items_cons_inv in Hi as (s1 & rest1 & ? & Hi & ->).
        apply str_items_cons_inv in Hi as (s2 & rest2 & ? & Hi & ->).
        simplify_eq. split; [apply not_failed_stdout|].
        intros o. apply not_failed_az.
      * intros _. apply emits_bind; [apply emits_info, not_failed_stdout|].
        intros _. apply emits_ret.
    + intros e h He. destruct e; simplify_eq.
      apply emits_bind; [apply emits_error; intros; apply not_failed_stderr|].
      intros _. apply emits_ret.
Qed.

(** In a dry run the submission touches nothing but the trace. *)
Lemma dry_run_keeps_world E org_url project repo source_branch target_branch
    title description extra cwd st :
  st_world (create_azure_pr E org_url project repo source_branch target_branch
                            title description extra cwd true st).2
  = st_world st.
Proof.
  unfold create_azure_pr. mstep.
  destruct (res_map _ _) as [tokens|e]; cbv beta iota; [|done]. mstep.
  destruct (str_items tokens) as [shown|e]; cbv beta iota; [|done]. mstep. done.
Qed.

(** *** The whole run *)

Lemma quiet_no_failure evs :
  Forall quiet evs → ¬ Exists install_or_build_failed evs.
Proof.
  intros Hall Hex. revert Hex. apply Exists_failed_inv.
  eapply Forall_impl; [exact Hall|]. by intros e [_ ?].
Qed.

Lemma quiet_no_submission evs :
  Forall quiet evs → Forall (λ e, ¬ pr_submission e) evs.
Proof. intros Hall. eapply Forall_impl; [exact Hall|]. by intros e [? _]. Qed.

Lemma guarded_quiet (m : M Z) : emits quiet m → guarded m.
Proof.
  intros Hm st. destruct (Hm st) as (evs & Hlog & Hall). exists evs.
  split; [done|]. intros Hex. by apply quiet_no_failure in Hex.
Qed.

Lemma guarded_bind {A} (m : M A) (f : A → M Z) :
  emits quiet m → (∀ a, guarded (f a)) → guarded (m ≫= f).
Proof.
  intros Hm Hf st. rewrite bind_run. destruct (Hm st) as (evs1 & Hlog1 & Hall1).
  destruct (m st) as [[a|e] st1]; cbn [fst snd] in *.
  - destruct (Hf a st1) as (evs2 & Hlog2 & Hg). exists (evs1 ++ evs2).
    rewrite Hlog2, Hlog1, app_assoc. split; [done|].
    rewrite Exists_app. intros [Hex|Hex]; [by apply quiet_no_failure in Hex|].
    destruct (Hg Hex) as [-> Hall2]. split; [done|].
    apply Forall_app. split; [by apply quiet_no_submission|done].
  - exists evs1. split; [done|]. intros Hex. by apply quiet_no_failure in Hex.
Qed.

Lemma guarded_build_then_submit E pm cwd (submit : M bool) :
  emits (λ e, ¬ install_or_build_failed e) submit →
  guarded (ok ← run_local_build E pm cwd;
           if negb ok then mret 1%Z
           else success ← submit; mret (if success : bool then 0%Z else 1%Z)).
Proof.
  intros Hsubmit st. rewrite bind_run.
  destruct (run_local_build_contract E pm cwd st) as (evs1 & Hlog1 & Hno & Hfail & _).
  destruct (run_local_build E pm cwd st) as [[[|]|e] st1]; cbn [fst snd negb] in *.
  - rewrite bind_run. destruct (Hsubmit st1) as (evs2 & Hlog2 & Hall2).
    exists (evs1 ++ evs2). split.
    + destruct (submit st1) as [[success|e] st2]; cbv beta iota;
        rewrite ?mret_run; cbn [fst snd] in *;
        by rewrite Hlog2, Hlog1, app_assoc.
    + rewrite Exists_app. intros [Hex|Hex]; [by specialize (Hfail Hex)|].
      by apply Exists_failed_inv in Hex.
  - exists evs1. rewrite mret_run. split; [done|]. done.
  - exists evs1. split; [done|]. intros Hex. by specialize (Hfail Hex).
Qed.

Lemma handle_create_pr_guarded E args : guarded (handle_create_pr E args).
Proof.
  unfold handle_create_pr.
  apply guarded_bind; [quiet_go|]. intros w.
  apply guarded_bind; [quiet_go|]. intros _.
  apply guarded_bind; [apply load_config_file_quiet|]. intros [config|].
  2: { apply guarded_quiet. quiet_go. }
  apply guarded_bind; [quiet_go|]. intros _.
  apply guarded_bind; [apply get_current_branch_quiet|]. intros [[|c branch]|].
  1, 3: apply guarded_quiet; quiet_go.
  apply guarded_bind.
  { destruct (pr_title_regex config); try quiet_go. apply build_pr_title_quiet. }
  intros title.
  apply guarded_bind; [quiet_go|]. intros _.
  apply guarded_bind; [apply ask_multiline_markdown_quiet|]. intros description.
  apply guarded_bind; [destruct (String.eqb _ _); quiet_go|]. intros _.
  apply guarded_bind; [apply ask_change_type_quiet|]. intros change_type.
  apply guarded_bind; [apply create_and_edit_changeset_quiet|]. intros [path|].
  2: { apply guarded_quiet. quiet_go. }
  apply guarded_build_then_submit, create_azure_pr_not_failed.
Qed.

(** C7. If the install command or the build command exits with a
    status other than zero during a run, the run ends with exit status
    1 and the submission was never invoked: its header, the dry-run
    announcement and the PR command are all absent from the trace of
    the run. *)
Theorem failed_build_prevents_submission E args st r st' evs :
  handle_create_pr E args st = (r, st') →
  st_log st' = st_log st ++ evs →
  Exists install_or_build_failed evs →
  r = Ret 1%Z ∧ Forall (λ e, ¬ pr_submission e) evs.
Proof.
  intros Hrun Hlog Hex.
  destruct (handle_create_pr_guarded E args st) as (evs' & Hlog' & Hg).
  rewrite Hrun in Hlog', Hg. cbn [fst snd] in *.
  assert (evs' = evs) as -> by (apply (app_inv_head (st_log st)); congruence).
  by apply Hg.
Qed.

(** *** The flag [--dry-run] *)

Lemma emits_log {A} (P : event → Prop) (m : M A) st r st' :
  emits P m → m st = (r, st') → ∃ evs, st_log st' = st_log st ++ evs.
Proof.
  intros Hm Hrun. destruct (Hm st) as (evs & Hlog & _). rewrite Hrun in Hlog.
  by exists evs.
Qed.

Ltac find_event :=
  repeat first [ apply list_elem_of_here
               | apply list_elem_of_further
               | apply elem_of_app; right ].

Lemma create_and_edit_changeset_unfold E pm description change_type cwd prefix :
  create_and_edit_changeset E pm description change_type cwd prefix
  = (print_section "Changeset";;
     created ← attempt E [pm; JStr "changeset"; JStr "--empty"] cwd
                 (py_str E pm +:+ " changeset --empty failed. "
                  +:+ "Is the changeset CLI installed and available in PATH?");
     if negb created then mret None
     else
       latest ← find_latest_changeset_file (joinpath cwd ".changeset");
       match latest with
       | None =>
           error ("I could not find a newly created changeset file in .changeset. "
                  +:+ "Did the command actually create one?");;
           mret None
       | Some latest =>
           info ("Editing changeset file: " +:+ as_posix latest);;
           changed_packages ← get_changed_packages E;
           match changed_packages with
           | [] =>
               warn ("I could not find any changed packages with a package.json. "
                     +:+ "The changeset will be created without explicit package entries.")
           | _ :: _ => mret tt
           end;;
           f ← open_w latest;
           f_write f (join nl
                        (["---"]
                         ++ map (λ pkg_path,
                                   dq +:+ py_str E prefix +:+ "/"
                                   +:+ name (parse pkg_path) +:+ dq
                                   +:+ ": " +:+ change_type) changed_packages
                         ++ ["---"] ++ [""]));;
           (if negb (String.eqb description "") then
              f_write f (strip description);; f_write f nl
            else mret tt);;
           info "Changeset has been updated.";;
           mret (Some latest)
       end).
Proof. reflexivity. Qed.

(** What a successful call has done: the scaffolding command ran and
    exited with status 0, and the located file was written. *)
Lemma create_and_edit_changeset_effects E pm description change_type cwd prefix
    st latest st' :
  create_and_edit_changeset E pm description change_type cwd prefix st
  = (Ret (Some latest), st') →
  ∃ pm_s evs,
    pm = JStr pm_s
    ∧ st_log st' = st_log st ++ evs
    ∧ Spawn (Some (as_posix cwd)) [pm_s; "changeset"; "--empty"] (Exited 0) ∈ evs
    ∧ ∃ text, Wrote (fs_key (st_world st') latest) text ∈ evs.
Proof.
  rewrite create_and_edit_changeset_unfold. intros H. mstep_in H.
  match type of H with
  | context [attempt E ?cmd cwd ?msg ?s] =>
      destruct (attempt_run E cmd cwd msg s) as (evs1 & Hlog1 & Hc1);
      destruct (attempt E cmd cwd msg s) as [[[|]|e1] st1]
  end; cbn [fst snd st_log negb] in *; mstep_in H; try discriminate.
  destruct Hc1 as (items1 & Hi1 & ->).
  apply str_items_cons_inv in Hi1 as (pm_s & rest & -> & Hi1 & ->).
  cbn in Hi1. simplify_eq.
  unfold find_latest_changeset_file in H. mstep_in H.
  match type of H with
  | context [if ?b then _ else _] => destruct b; mstep_in H; [discriminate|]
  end.
  match type of H with
  | context [match ?l with [] => _ | _ => _ end] =>
      destruct l as [|found ?]; mstep_in H; [discriminate|]
  end.
  mcase H. rename a into dirs.
  destruct (emits_log _ _ _ _ _ (get_changed_packages_quiet E) Hrun) as [evs2 Hlog2].
  cbn [st_log] in Hlog2. mstep_in H.
  assert (Hwarn : ∃ evs3,
    (match dirs with
     | [] => warn ("I could not find any changed packages with a package.json. "
                   +:+ "The changeset will be created without explicit package entries.")
     | _ :: _ => mret tt
     end) st0 = (Ret tt, mkSt (st_world st0) (st_log st0 ++ evs3))).
  { destruct dirs; [eexists [_]; mstep; reflexivity|].
    exists []. mstep. rewrite app_nil_r. by destruct st0. }
  destruct Hwarn as [evs3 Hwarn]. rewrite Hwarn in H. mstep_in H.
  mcase H. apply open_w_inv in Hrun0 as (-> & Hf & Hcwd & Hnow & Hlog4).
  cbn [st_world st_log] in *. mstep_in H.
  erewrite f_write_run in H by exact Hf. mstep_in H.
  exists pm_s.
  destruct (String.eqb description "") eqn:Hd; cbn [negb] in H; mstep_in H.
  - simplify_eq. cbn [st_log st_world]. eexists. split; [done|].
    rewrite Hlog4, Hlog2, Hlog1, <- !app_assoc. split; [reflexivity|].
    split; [set_solver|]. eexists.
    unfold fs_key, with_fs. cbn [w_cwd]. rewrite Hcwd. find_event.
  - erewrite f_write_run in H
      by (unfold with_fs; cbn [st_world w_fs]; apply lookup_insert_eq).
    mstep_in H. unfold with_fs in H. cbn [st_world w_fs w_now w_cwd w_stdin] in H.
    erewrite f_write_run in H
      by (unfold with_fs; cbn [st_world w_fs]; apply lookup_insert_eq).
    mstep_in H. simplify_eq. cbn [st_log st_world]. eexists. split; [done|].
    rewrite Hlog4, Hlog2, Hlog1, <- !app_assoc. split; [reflexivity|].
    split; [set_solver|]. eexists.
    unfold fs_key, with_fs. cbn [w_cwd]. rewrite Hcwd. find_event.
Qed.

(** C10. The flag [--dry-run] has no influence before the submission.
    For the same environment, state and passthrough arguments, the run
    with the flag and the run without it either end alike, with the
    same result, world and trace, or both reach the submission in one
    and the same state and with the same arguments, and differ only in
    the mode they pass to it. In the second case the changeset was
    scaffolded and written and the install and the build ran, each
    with status 0, before the submission, and the dry run leaves the
    world as the earlier stages made it. *)
Theorem dry_run_only_changes_submission E extra st :
  let live := handle_create_pr E (mkArgs false extra) st in
  let dry := handle_create_pr E (mkArgs true extra) st in
  live = dry
  ∨ ∃ st_pr evs pm cwd org_url project repo source_branch target_branch title
      description,
      st_log st_pr = st_log st ++ evs
      ∧ Spawn (Some (as_posix cwd)) [pm; "changeset"; "--empty"] (Exited 0) ∈ evs
      ∧ (∃ file text, Wrote file text ∈ evs)
      ∧ Spawn (Some (as_posix cwd)) [pm; "install"] (Exited 0) ∈ evs
      ∧ Spawn (Some (as_posix cwd)) [pm; "run"; "build:all"] (Exited 0) ∈ evs
      ∧ live = (success ← create_azure_pr E org_url project repo source_branch
                            target_branch title description extra cwd false;
                mret (if success : bool then 0%Z else 1%Z)) st_pr
      ∧ dry = (success ← create_azure_pr E org_url project repo source_branch
                           target_branch title description extra cwd true;
               mret (if success : bool then 0%Z else 1%Z)) st_pr
      ∧ st_world dry.2 = st_world st_pr.
Proof.
  cbv zeta. unfold handle_create_pr. cbn [dry_run az_args]. mstep.
  destruct (load_config_file E _ _) as [[[config|]|e] st1] eqn:Hload;
    cbv beta iota; [|by left..].
  mstep.
  destruct (get_current_branch E _) as [[[[|c branch]|]|e] st2] eqn:Hbranch;
    cbv beta iota; [by left| |by left..].
  rewrite !bind_run.
  match goal with
  | |- context [match ?m st2 with (_, _) => _ end] =>
      destruct (m st2) as [[title|e] st3] eqn:Htitle
  end; cbv beta iota; [|by left].
  mstep.
  destruct (ask_multiline_markdown _ _) as [[description|e] st4] eqn:Hdesc;
    cbv beta iota; [|by left].
  rewrite !bind_run.
  match goal with
  | |- context [match ?m st4 with (_, _) => _ end] =>
      destruct (m st4) as [[[]|e] st5] eqn:Hwarn
  end; cbv beta iota; [|by left].
  rewrite !bind_run.
  destruct (ask_change_type st5) as [[change_type|e] st6] eqn:Htype;
    cbv beta iota; [|by left].
  rewrite !bind_run.
  destruct (create_and_edit_changeset E _ _ _ _ _ st6) as [[[path|]|e] st7] eqn:Hcs;
    cbv beta iota; [|by left..].
  rewrite !bind_run.
  destruct (run_local_build_contract E (package_manager config)
              (parse (w_cwd (st_world st))) st7) as (evs_b & Hlog_b & _ & _ & Hb).
  destruct (run_local_build E _ _ st7) as [[[|]|e] st8] eqn:Hbuild;
    cbn [fst snd negb] in *; cbv beta iota; [|by left..].
  right.
  destruct (Hb eq_refl) as (pm_s & Hpm & Hinstall & Hbuilt).
  apply create_and_edit_changeset_effects in Hcs
    as (pm_s' & evs_c & Hpm' & Hlog_c & Hscaffold & file_text & Hwrote).
  assert (pm_s' = pm_s) as -> by congruence.
  destruct (emits_log _ _ _ _ _ (load_config_file_quiet E _) Hload) as [evs1 Hlog1].
  destruct (emits_log _ _ _ _ _ (get_current_branch_quiet E) Hbranch) as [evs2 Hlog2].
  assert (∃ evs3, st_log st3 = st_log st2 ++ evs3) as [evs3 Hlog3].
  { eapply (emits_log quiet); [|exact Htitle].
    destruct (pr_title_regex config); try quiet_go. apply build_pr_title_quiet. }
  destruct (emits_log _ _ _ _ _ (ask_multiline_markdown_quiet _) Hdesc)
    as [evs4 Hlog4].
  assert (∃ evs5, st_log st5 = st_log st4 ++ evs5) as [evs5 Hlog5].
  { eapply (emits_log quiet); [|exact Hwarn]. destruct (String.eqb _ _); quiet_go. }
  destruct (emits_log _ _ _ _ _ ask_change_type_quiet Htype) as [evs6 Hlog6].
  cbn [st_log] in *.
  eexists st8, _, pm_s, (parse (w_cwd (st_world st))), _, _, _, _, _, _, _.
  split.
  { rewrite Hlog_b, Hlog_c, Hlog6, Hlog5, Hlog4, Hlog3, Hlog2, Hlog1.
    rewrite <- !app_assoc. reflexivity. }
  split; [rewrite !elem_of_app; eauto 20|].
  split; [eexists _, _; rewrite !elem_of_app; eauto 20|].
  split; [rewrite !elem_of_app; eauto 20|].
  split; [rewrite !elem_of_app; eauto 20|].
  assert (Hextra : match extra with _ :: _ => extra | [] => [] end = extra)
    by (by destruct extra).
  rewrite Hextra. split; [reflexivity|]. split; [reflexivity|].
  rewrite bind_run.
  pose proof (dry_run_keeps_world E (organization_url (azure config))
                (project (azure config)) (repository (azure config))
                (String c branch) (target_branch config) title
                (if String.eqb description "" then
                   "Automatically created by blacky for branch " +:+ String c branch
                 else description)
                extra (parse (w_cwd (st_world st))) st8) as Hw.
  destruct (create_azure_pr _ _ _ _ _ _ _ _ _ _ _ _) as [[success|e] st9];
    cbv beta iota; rewrite ?mret_run; exact Hw.
Qed.

(** *** Two runs *)

(** The theorem at a run whose build exits with status 2. *)
Lemma failed_build_prevents_submission_witness :
  handle_create_pr (E_run 2) (run_args false) run_start = (failed_run.1, failed_run.2)
  ∧ st_log failed_run.2 = st_log run_start ++ st_log failed_run.2
  ∧ Exists install_or_build_failed (st_log failed_run.2)
  ∧ failed_run.1 = Ret 1%Z
  ∧ Forall (λ e, ¬ pr_submission e) (st_log failed_run.2).
Proof.
  assert (H1 : handle_create_pr (E_run 2) (run_args false) run_start
               = (failed_run.1, failed_run.2)) by (vm_compute; reflexivity).
  assert (H2 : st_log failed_run.2 = st_log run_start ++ st_log failed_run.2)
    by reflexivity.
  assert (H3 : Exists install_or_build_failed (st_log failed_run.2)).
  { apply Exists_exists.
    exists (Spawn (Some "/repo") ["pnpm"; "run"; "build:all"] (Exited 2)). split.
    - vm_compute. find_event.
    - exists (Some "/repo"), "pnpm", 2%Z. split; [discriminate|]. by right. }
  split; [exact H1|]. split; [exact H2|]. split; [exact H3|].
  exact (failed_build_prevents_submission (E_run 2) (run_args false) run_start
           failed_run.1 failed_run.2 (st_log failed_run.2) H1 H2 H3).
Defined.

(** The two runs of the example differ in the submission alone: the
    live run hands the command to the system, the dry run prints it. *)
Lemma dry_run_example :
  (handle_create_pr (E_run 0) (run_args true) run_start).1 = Ret 0%Z
  ∧ (handle_create_pr (E_run 0) (run_args false) run_start).1 = Ret 0%Z
  ∧ st_world (handle_create_pr (E_run 0) (run_args true) run_start).2
    = st_world (handle_create_pr (E_run 0) (run_args false) run_start).2
  ∧ List.filter is_spawn
                 (st_log (handle_create_pr (E_run 0) (run_args false) run_start).2)
    = List.filter is_spawn
                  (st_log (handle_create_pr (E_run 0) (run_args true) run_start).2)
      ++ [Spawn (Some "/repo")
            (pr_command "https://dev.azure.com/acme" "shop" "web"
                        "feature/add-login" "main" "add-login"
                        ("Line one" +:+ nl +:+ "Line two") ["--draft"])
            (Exited 0)].
Proof. split_and!; vm_compute; reflexivity. Qed.

(** *** Trimming *)

Lemma string_app_cons c (a b : string) : String c a +:+ b = String c (a +:+ b).
Proof. reflexivity. Qed.

Lemma rev_app_rev (s t : string) : String.rev_app s t = String.rev s +:+ t.
Proof.
  revert t. induction s as [|c s IH]; intros t; [reflexivity|].
  unfold String.rev. cbn [String.rev_app]. rewrite (IH (String c "")), IH.
  rewrite string_app_assoc. reflexivity.
Qed.

Lemma rev_cons c (s : string) : String.rev (String c s) = String.rev s +:+ String c "".
Proof. unfold String.rev at 1. cbn [String.rev_app]. apply rev_app_rev. Qed.

Lemma rev_snoc (s : string) c : String.rev (s +:+ String c "") = String c (String.rev s).
Proof.
  induction s as [|d s IH]; [reflexivity|].
  rewrite string_app_cons, !rev_cons, IH. reflexivity.
Qed.

Lemma rev_involutive (s : string) : String.rev (String.rev s) = s.
Proof.
  induction s as [|c s IH]; [reflexivity|]. by rewrite rev_cons, rev_snoc, IH.
Qed.

Lemma lstrip_head_clean s : head_clean (lstrip s).
Proof.
  induction s as [|c s IH]; cbn [lstrip head_clean]; [done|].
  by destruct (isspace c) eqn:Hc.
Qed.

Lemma lstrip_id s : head_clean s → lstrip s = s.
Proof. destruct s as [|c s]; cbn [lstrip head_clean]; [done|]. by intros ->. Qed.

Lemma lstrip_snoc (u : string) c :
  isspace c = false → ∃ v, lstrip (u +:+ String c "") = v +:+ String c "".
Proof.
  intros Hc. induction u as [|d u IH].
  - exists "". change ("" +:+ String c "") with (String c ""). cbn [lstrip].
    by rewrite Hc.
  - rewrite string_app_cons. cbn [lstrip]. destruct (isspace d); [exact IH|].
    by exists (String d u).
Qed.

Lemma rstrip_head_clean s : head_clean s → head_clean (rstrip s).
Proof.
  destruct s as [|c s]; [done|]. cbn [head_clean]. intros Hc.
  unfold rstrip. rewrite rev_cons.
  destruct (lstrip_snoc (String.rev s) c Hc) as [v ->]. by rewrite rev_snoc.
Qed.

Lemma rstrip_id s : head_clean (String.rev s) → rstrip s = s.
Proof. intros H. unfold rstrip. by rewrite lstrip_id, rev_involutive. Qed.

Lemma strip_head_clean s : head_clean (strip s).
Proof. apply rstrip_head_clean, lstrip_head_clean. Qed.

Lemma strip_tail_clean s : head_clean (String.rev (strip s)).
Proof. unfold strip, rstrip. rewrite rev_involutive. apply lstrip_head_clean. Qed.

Lemma strip_idempotent s : strip (strip s) = strip s.
Proof.
  unfold strip at 1. rewrite (lstrip_id (strip s)) by apply strip_head_clean.
  apply rstrip_id, strip_tail_clean.
Qed.

(** *** Functions that leave the world alone *)

Lemma keeps_world_ret {A} (a : A) : keeps_world (mret a).
Proof. done. Qed.

Lemma keeps_world_raise {A} e : keeps_world (raise (A := A) e).
Proof. done. Qed.

Lemma keeps_world_lift {A} (r : res A) : keeps_world (lift r).
Proof. done. Qed.

Lemma keeps_world_get_world : keeps_world get_world.
Proof. done. Qed.

Lemma keeps_world_emit e : keeps_world (emit e).
Proof. done. Qed.

Lemma keeps_world_bind {A B} (m : M A) (f : A → M B) :
  keeps_world m → (∀ a, keeps_world (f a)) → keeps_world (m ≫= f).
Proof.
  intros Hm Hf st. rewrite bind_run. specialize (Hm st).
  destruct (m st) as [[a|e] st1]; cbn [fst snd] in *; [|done].
  by rewrite Hf.
Qed.

Lemma keeps_world_try_except {A} (m : M A) handler :
  keeps_world m → (∀ e h, handler e = Some h → keeps_world h) →
  keeps_world (try_except m handler).
Proof.
  intros Hm Hh st. rewrite try_except_run. specialize (Hm st).
  destruct (m st) as [[a|e] st1]; cbn [fst snd] in *; [done|].
  destruct (handler e) as [h|] eqn:He; [|done]. by rewrite (Hh e h He).
Qed.

Lemma keeps_world_for_each {A} (l : list A) body :
  (∀ x, keeps_world (body x)) → keeps_world (for_each l body).
Proof.
  intros Hb. induction l as [|x l IH]; cbn [for_each]; [done|].
  apply keeps_world_bind; [apply Hb|]. intros _. apply IH.
Qed.

Lemma keeps_world_read_text p : keeps_world (read_text p).
Proof.
  intros st. rewrite read_text_run. by destruct (w_fs _ !! _) as [[]|].
Qed.

Ltac keeps_step :=
  first [ apply keeps_world_ret | apply keeps_world_raise | apply keeps_world_lift
        | apply keeps_world_get_world | apply keeps_world_read_text
        | apply keeps_world_emit
        | apply keeps_world_for_each; intros ?
        | apply keeps_world_bind; [|intros ?]
        | apply keeps_world_try_except; [|intros ? ? ?] ].

Ltac keeps_go := repeat keeps_step.

(** *** The loader and a configuration it cannot use *)

(** X1. When nothing exists at the configuration path, the loader
    returns nothing after one warning on the error stream that names
    the path; the parser is not consulted and the world is left as it
    was. *)
Theorem loader_warns_on_missing_file E config_path st :
  w_fs (st_world st) !! fs_key (st_world st) config_path = None →
  load_config_file E config_path st
  = (Ret None,
     mkSt (st_world st) (st_log st ++ [missing_file_warning config_path])).
Proof.
  intros Hfile. unfold load_config_file. mstep. unfold path_exists.
  rewrite Hfile. rewrite bool_decide_eq_false_2 by (intros [? ?]; discriminate).
  cbn [negb]. mstep. reflexivity.
Qed.

Lemma loader_warns_on_missing_file_witness :
  w_fs (st_world (Sample.start Sample.config_text []))
    !! fs_key (st_world (Sample.start Sample.config_text []))
              (parse "/srv/blacky.conf.json") = None
  ∧ load_config_file E_ok (parse "/srv/blacky.conf.json")
                     (Sample.start Sample.config_text [])
    = (Ret None,
       mkSt (st_world (Sample.start Sample.config_text []))
            (st_log (Sample.start Sample.config_text [])
             ++ [missing_file_warning (parse "/srv/blacky.conf.json")])).
Proof.
  assert (H : w_fs (st_world (Sample.start Sample.config_text []))
                !! fs_key (st_world (Sample.start Sample.config_text []))
                          (parse "/srv/blacky.conf.json") = None)
    by (vm_compute; reflexivity).
  split; [exact H|].
  exact (loader_warns_on_missing_file E_ok (parse "/srv/blacky.conf.json")
           (Sample.start Sample.config_text []) H).
Defined.

(** X2. When the file holds text that the JSON parser rejects, the
    loader returns nothing after one error message that names the path
    and repeats the message of the parser; no exception leaves it. *)
Theorem loader_reports_invalid_json E config_path st text t e :
  w_fs (st_world st) !! fs_key (st_world st) config_path = Some (File text t) →
  json_loads E text = inl e →
  load_config_file E config_path st
  = (Ret None,
     mkSt (st_world st) (st_log st ++ [invalid_json_error config_path e])).
Proof.
  intros Hfile Hparse. unfold load_config_file. mstep. unfold path_exists.
  rewrite Hfile. rewrite bool_decide_eq_true_2 by eauto. cbn [negb]. mstep.
  rewrite read_text_run, Hfile. cbv beta iota. rewrite Hparse. mstep.
  reflexivity.
Qed.

Lemma loader_reports_invalid_json_witness :
  w_fs (st_world (Sample.start "oops" []))
    !! fs_key (st_world (Sample.start "oops" [])) (parse "/repo/blacky.conf.json")
    = Some (File "oops" 10)
  ∧ json_loads E_ok "oops" = inl "Expecting value: line 1 column 1 (char 0)"
  ∧ load_config_file E_ok (parse "/repo/blacky.conf.json") (Sample.start "oops" [])
    = (Ret None,
       mkSt (st_world (Sample.start "oops" []))
            (st_log (Sample.start "oops" [])
             ++ [invalid_json_error (parse "/repo/blacky.conf.json")
                   "Expecting value: line 1 column 1 (char 0)"])).
Proof.
  assert (H1 : w_fs (st_world (Sample.start "oops" []))
                 !! fs_key (st_world (Sample.start "oops" []))
                           (parse "/repo/blacky.conf.json")
               = Some (File "oops" 10)) by (vm_compute; reflexivity).
  assert (H2 : json_loads E_ok "oops"
               = inl "Expecting value: line 1 column 1 (char 0)")
    by (vm_compute; reflexivity).
  split; [exact H1|]. split; [exact H2|].
  exact (loader_reports_invalid_json E_ok (parse "/repo/blacky.conf.json")
           (Sample.start "oops" []) "oops" 10 _ H1 H2).
Defined.

(** X3. When the document parses to anything but an object (an array,
    a string, a number, [null]), the loader neither reports missing
    keys nor returns: the first [raw.get] raises [AttributeError],
    before anything is written. *)
Theorem loader_raises_on_non_object E config_path st text t raw :
  w_fs (st_world st) !! fs_key (st_world st) config_path = Some (File text t) →
  json_loads E text = inr raw →
  (∀ m, raw ≠ JObj m) →
  load_config_file E config_path st = (Raise AttributeError, st).
Proof.
  intros Hfile Hparse Hraw. unfold load_config_file. mstep. unfold path_exists.
  rewrite Hfile. rewrite bool_decide_eq_true_2 by eauto. cbn [negb]. mstep.
  rewrite read_text_run, Hfile. cbv beta iota. rewrite Hparse. mstep.
  destruct raw as [| | | | | |m]; cbn [get]; mstep; try reflexivity.
  by destruct (Hraw m).
Qed.

Lemma loader_raises_on_non_object_witness :
  w_fs (st_world (Sample.start "[]" []))
    !! fs_key (st_world (Sample.start "[]" [])) (parse "/repo/blacky.conf.json")
    = Some (File "[]" 10)
  ∧ json_loads E_array "[]" = inr (JArr [])
  ∧ (∀ m, JArr [] ≠ JObj m)
  ∧ load_config_file E_array (parse "/repo/blacky.conf.json") (Sample.start "[]" [])
    = (Raise AttributeError, Sample.start "[]" []).
Proof.
  assert (H1 : w_fs (st_world (Sample.start "[]" []))
                 !! fs_key (st_world (Sample.start "[]" []))
                           (parse "/repo/blacky.conf.json")
               = Some (File "[]" 10)) by (vm_compute; reflexivity).
  assert (H2 : json_loads E_array "[]" = inr (JArr [])) by (vm_compute; reflexivity).
  assert (H3 : ∀ m, JArr [] ≠ JObj m) by discriminate.
  split; [exact H1|]. split; [exact H2|]. split; [exact H3|].
  exact (loader_raises_on_non_object E_array (parse "/repo/blacky.conf.json")
           (Sample.start "[]" []) "[]" 10 (JArr []) H1 H2 H3).
Defined.

(** *** What the loader does and yields in general *)

Lemma load_config_file_keeps_world E p : keeps_world (load_config_file E p).
Proof.
  unfold load_config_file. apply keeps_world_bind; [keeps_go|]. intros w.
  destruct (negb _); [keeps_go|].
  apply keeps_world_bind; [keeps_go|]. intros text.
  destruct (json_loads E text); [keeps_go|].
  do 8 (apply keeps_world_bind; [keeps_go|]; intros ?).
  match goal with |- keeps_world (match ?l with _ => _ end) => destruct l end;
    keeps_go.
Qed.

Lemma load_config_file_on_stderr E p : emits on_stderr (load_config_file E p).
Proof.
  assert (Herr : ∀ s, on_stderr (Stderr s)) by (intros s; by exists s).
  unfold load_config_file. apply emits_bind; [apply emits_get_world|]. intros w.
  destruct (negb _).
  { apply emits_bind; [by apply emits_warn|]. intros _. apply emits_ret. }
  apply emits_bind; [apply emits_read_text|]. intros text.
  destruct (json_loads E text).
  { apply emits_bind; [by apply emits_error|]. intros _. apply emits_ret. }
  do 8 (apply emits_bind; [repeat emits_step|]; intros ?).
  match goal with |- emits _ (match ?l with _ => _ end) => destruct l end.
  - apply emits_ret.
  - apply emits_bind; [by apply emits_error|]. intros _.
    apply emits_bind.
    + apply emits_for_each. intros key. apply emits_eprint, Herr.
    + intros _. apply emits_bind; [apply emits_eprint, Herr|]. intros _.
      apply emits_ret.
Qed.

(** X4. The loader only reads and reports. Whatever the path, the
    state and the collaborators, it leaves the file system, the
    standard input and the clock as they were, starts no process,
    writes no file, and everything it adds to the trace goes to the
    error stream. *)
Theorem loader_only_reads E config_path st :
  st_world (load_config_file E config_path st).2 = st_world st
  ∧ ∃ evs, st_log (load_config_file E config_path st).2 = st_log st ++ evs
           ∧ Forall on_stderr evs.
Proof.
  split; [apply load_config_file_keeps_world|].
  apply load_config_file_on_stderr.
Qed.

Lemma note_missing_nil v key acc :
  note_missing v key acc = [] → truthy v = true ∧ acc = [].
Proof.
  unfold note_missing. destruct (truthy v); cbn [negb]; [done|].
  intros H. apply app_eq_nil in H as [_ ?]. discriminate.
Qed.

(** X5. A configuration that the loader returns is complete: each of
    its seven values is truthy (not [null], [false], zero or empty),
    whatever the shape of the document; and a successful load writes
    nothing at all. *)
Theorem loaded_configuration_is_complete E config_path st config st' :
  load_config_file E config_path st = (Ret (Some config), st') →
  st' = st ∧ Forall (λ v, truthy v = true) (config_values config).
Proof.
  unfold load_config_file. intros H. mstep_in H.
  destruct (negb _); mstep_in H; [discriminate|].
  rewrite read_text_run in H.
  destruct (w_fs _ !! _) as [[text t|entries]|]; cbv beta iota in H;
    try discriminate.
  destruct (json_loads E text) as [e|raw]; mstep_in H; [discriminate|].
  destruct raw as [| | | | | |m]; cbn [get] in H; mstep_in H; try discriminate.
  destruct (or_else _ _) as [| | | | | |a]; cbn [get] in H; mstep_in H;
    try discriminate.
  match type of H with
  | context [match ?l with [] => _ | _ :: _ => _ end] =>
      destruct l as [|key keys] eqn:Hkeys
  end.
  - cbv beta iota in H. rewrite mret_run in H. simplify_eq.
    split; [done|]. unfold config_values.
    cbn [pr_title_regex target_branch project_pkg_prefix package_manager
         azure organization_url project repository].
    repeat (apply note_missing_nil in Hkeys as [? Hkeys]).
    repeat (constructor; [done|]). constructor.
  - mstep_in H. rewrite for_each_eprint in H. mstep_in H. discriminate.
Qed.

Lemma loaded_configuration_is_complete_witness :
  load_config_file E_ok (parse "/repo/blacky.conf.json")
                   (Sample.start Sample.config_text [])
  = (Ret (Some (mkBlackyConfig (JStr "^feature/(?P<title>.+)$") (JStr "pnpm")
                               (JStr "main") (JStr "@acme")
                               (mkAzureConfig (JStr "https://dev.azure.com/acme")
                                              (JStr "shop") (JStr "web")))),
     Sample.start Sample.config_text [])
  ∧ Sample.start Sample.config_text [] = Sample.start Sample.config_text []
  ∧ Forall (λ v, truthy v = true)
           [ JStr "^feature/(?P<title>.+)$"; JStr "main"; JStr "@acme"; JStr "pnpm";
             JStr "https://dev.azure.com/acme"; JStr "shop"; JStr "web" ].
Proof.
  assert (H : load_config_file E_ok (parse "/repo/blacky.conf.json")
                               (Sample.start Sample.config_text [])
              = (Ret (Some (mkBlackyConfig (JStr "^feature/(?P<title>.+)$")
                              (JStr "pnpm") (JStr "main") (JStr "@acme")
                              (mkAzureConfig (JStr "https://dev.azure.com/acme")
                                             (JStr "shop") (JStr "web")))),
                 Sample.start Sample.config_text []))
    by (vm_compute; reflexivity).
  split; [exact H|].
  exact (loaded_configuration_is_complete _ _ _ _ _ H).
Defined.

(** *** The git helpers *)

(** X6. A branch name that [get_current_branch] returns comes from a
    [git rev-parse] that exited with status 0 and wrote nothing to the
    streams of the script; it carries no white space around it, and it
    is never [HEAD], the answer of git in a detached state. *)
Theorem current_branch_is_trimmed E st branch st' :
  get_current_branch E st = (Ret (Some branch), st') →
  branch ≠ "HEAD"
  ∧ strip branch = branch
  ∧ st_log st' = st_log st ++ [Spawn None rev_parse_cmd (Exited 0)].
Proof.
  unfold get_current_branch, subprocess_run. rewrite try_except_run, bind_run.
  fold rev_parse_cmd.
  destruct (spawn E None rev_parse_cmd (st_world st)) as [[e|[rc out]] w'].
  - destruct e; mstep; discriminate.
  - cbn [andb]. destruct (Z.eqb_spec rc 0) as [->|Hrc]; cbn [negb]; mstep.
    + destruct (String.eqb (strip out) "HEAD") eqn:Hhead; mstep; [discriminate|].
      intros H. simplify_eq. cbn [st_log]. apply String.eqb_neq in Hhead.
      split; [done|]. split; [apply strip_idempotent|done].
    + discriminate.
Qed.

Lemma current_branch_is_trimmed_witness :
  get_current_branch E_ok (Sample.start Sample.config_text [])
  = (Ret (Some "feature/add-login"),
     mkSt (Sample.world Sample.config_text [])
          [Spawn None rev_parse_cmd (Exited 0)])
  ∧ "feature/add-login" ≠ "HEAD"
  ∧ strip "feature/add-login" = "feature/add-login"
  ∧ [Spawn None rev_parse_cmd (Exited 0)]
    = [] ++ [Spawn None rev_parse_cmd (Exited 0)].
Proof.
  assert (H : get_current_branch E_ok (Sample.start Sample.config_text [])
              = (Ret (Some "feature/add-login"),
                 mkSt (Sample.world Sample.config_text [])
                      [Spawn None rev_parse_cmd (Exited 0)]))
    by (vm_compute; reflexivity).
  split; [exact H|].
  exact (current_branch_is_trimmed _ _ _ _ H).
Defined.

(** X7. [get_current_branch] handles the failure status of git and
    nothing else. When git exits with a status other than zero, the
    answer is no branch and one error message; when git cannot be
    started at all, the exception of [subprocess.run] leaves the
    function as it came. *)
Theorem current_branch_handles_exit_status_only E st w' :
  (∀ rc out,
     spawn E None rev_parse_cmd (st_world st) = (inr (rc, out), w') →
     rc ≠ 0%Z →
     get_current_branch E st
     = (Ret None,
        mkSt w' (st_log st ++ [Spawn None rev_parse_cmd (Exited rc);
                               no_branch_error])))
  ∧ (∀ e,
       spawn E None rev_parse_cmd (st_world st) = (inl e, w') →
       (∀ rc, e ≠ CalledProcessError rc) →
       get_current_branch E st
       = (Raise e, mkSt w' (st_log st ++ [Spawn None rev_parse_cmd (Raised e)]))).
Proof.
  split.
  - intros rc out Hs Hrc. unfold get_current_branch, subprocess_run.
    rewrite try_except_run, bind_run. fold rev_parse_cmd. rewrite Hs.
    cbn [andb]. destruct (Z.eqb_spec rc 0) as [->|_]; [done|]. cbn [negb].
    mstep. rewrite <- app_assoc. reflexivity.
  - intros e Hs He. unfold get_current_branch, subprocess_run.
    rewrite try_except_run, bind_run. fold rev_parse_cmd. rewrite Hs.
    destruct e; try reflexivity. by destruct (He returncode).
Qed.

Lemma current_branch_handles_exit_status_only_witness :
  (spawn E_no_repository None rev_parse_cmd
         (st_world (Sample.start Sample.config_text []))
   = (inr (128%Z, ""), Sample.world Sample.config_text [])
   ∧ 128%Z ≠ 0%Z
   ∧ get_current_branch E_no_repository (Sample.start Sample.config_text [])
     = (Ret None,
        mkSt (Sample.world Sample.config_text [])
             ([] ++ [Spawn None rev_parse_cmd (Exited 128); no_branch_error])))
  ∧ (spawn E_no_git None rev_parse_cmd
           (st_world (Sample.start Sample.config_text []))
     = (inl (OSError "FileNotFoundError"), Sample.world Sample.config_text [])
     ∧ (∀ rc, OSError "FileNotFoundError" ≠ CalledProcessError rc)
     ∧ get_current_branch E_no_git (Sample.start Sample.config_text [])
       = (Raise (OSError "FileNotFoundError"),
          mkSt (Sample.world Sample.config_text [])
               ([] ++ [Spawn None rev_parse_cmd
                         (Raised (OSError "FileNotFoundError"))]))).
Proof.
  assert (H1 : spawn E_no_repository None rev_parse_cmd
                     (st_world (Sample.start Sample.config_text []))
               = (inr (128%Z, ""), Sample.world Sample.config_text []))
    by (vm_compute; reflexivity).
  assert (H2 : 128%Z ≠ 0%Z) by lia.
  assert (H3 : spawn E_no_git None rev_parse_cmd
                     (st_world (Sample.start Sample.config_text []))
               = (inl (OSError "FileNotFoundError"),
                  Sample.world Sample.config_text []))
    by (vm_compute; reflexivity).
  assert (H4 : ∀ rc, OSError "FileNotFoundError" ≠ CalledProcessError rc)
    by discriminate.
  split.
  - split; [exact H1|]. split; [exact H2|].
    exact (proj1 (current_branch_handles_exit_status_only E_no_repository
                    (Sample.start Sample.config_text [])
                    (Sample.world Sample.config_text [])) 128%Z "" H1 H2).
  - split; [exact H3|]. split; [exact H4|].
    exact (proj2 (current_branch_handles_exit_status_only E_no_git
                    (Sample.start Sample.config_text [])
                    (Sample.world Sample.config_text []))
                 (OSError "FileNotFoundError") H3 H4).
Defined.

(** X8. [get_git_remote_url] returns the output of
    [git remote get-url origin] without the white space around it when
    git exits with status 0, also when nothing is left of it, and
    nothing after one warning when git exits with any other status. *)
Theorem remote_url_outcomes E st rc out w' :
  spawn E None remote_url_cmd (st_world st) = (inr (rc, out), w') →
  get_git_remote_url E st
  = if (rc =? 0)%Z then
      (Ret (Some (strip out)),
       mkSt w' (st_log st ++ [Spawn None remote_url_cmd (Exited 0)]))
    else
      (Ret None,
       mkSt w' (st_log st ++ [Spawn None remote_url_cmd (Exited rc);
                              no_remote_warning])).
Proof.
  intros Hs. unfold get_git_remote_url, subprocess_run.
  rewrite try_except_run, bind_run. fold remote_url_cmd. rewrite Hs.
  cbn [andb]. destruct (Z.eqb_spec rc 0) as [->|_]; cbn [negb]; mstep.
  - reflexivity.
  - rewrite <- app_assoc. reflexivity.
Qed.

Lemma remote_url_outcomes_witness :
  spawn E_no_repository None remote_url_cmd
        (st_world (Sample.start Sample.config_text []))
  = (inr (128%Z, ""), Sample.world Sample.config_text [])
  ∧ get_git_remote_url E_no_repository (Sample.start Sample.config_text [])
    = (Ret None,
       mkSt (Sample.world Sample.config_text [])
            ([] ++ [Spawn None remote_url_cmd (Exited 128); no_remote_warning])).
Proof.
  assert (H : spawn E_no_repository None remote_url_cmd
                    (st_world (Sample.start Sample.config_text []))
              = (inr (128%Z, ""), Sample.world Sample.config_text []))
    by (vm_compute; reflexivity).
  split; [exact H|].
  exact (remote_url_outcomes E_no_repository (Sample.start Sample.config_text [])
           128%Z "" (Sample.world Sample.config_text []) H).
Defined.

(** *** The title deriver, whatever the pattern engine answers *)


(** *** The prompts *)

(** X10. The description prompt returns on every input, and what it
    returns has no white space in front or behind: applying the
    trimming again changes nothing. *)
Theorem description_is_trimmed prompt st :
  ∃ description,
    (ask_multiline_markdown prompt st).1 = Ret description
    ∧ strip description = description.
Proof.
  destruct st as [w log]. unfold ask_multiline_markdown. mstep.
  rewrite collect_lines_run by (cbn; lia). mstep. cbn [fst].
  eexists. split; [reflexivity|]. apply strip_idempotent.
Qed.

Lemma elem_of_valid (answer : string) :
  answer ∈ valid → answer = "patch" ∨ answer = "minor" ∨ answer = "major".
Proof.
  unfold valid. rewrite !elem_of_union, !elem_of_singleton. tauto.
Qed.

(** X11. A change type that the prompt returns is one of [patch],
    [minor] and [major], in lower case; and the one exception that can
    leave the prompt is the [EOFError] of an exhausted input. *)
Theorem change_type_is_valid st :
  match (ask_change_type st).1 with
  | Ret answer => answer = "patch" ∨ answer = "minor" ∨ answer = "major"
  | Raise e => e = EOFError
  end.
Proof.
  destruct st as [w log]. unfold ask_change_type. mstep.
  rewrite ask_change_type_loop_run by lia. cbv zeta.
  destruct (drop _ _) as [|line post] eqn:Hd; cbn [fst]; [done|].
  apply rejected_prefix_first in Hd. unfold accepted in Hd.
  apply bool_decide_eq_true_1 in Hd. by apply elem_of_valid.
Qed.

Lemma until_dot_app lines dot rest :
  Forall (λ line, strip line ≠ ".") lines →
  strip dot = "." →
  until_dot (lines ++ dot :: rest) = lines.
Proof.
  intros Hlines Hdot. induction Hlines as [|line lines Hline _ IH]; cbn.
  - by rewrite Hdot.
  - apply String.eqb_neq in Hline. by rewrite Hline, IH.
Qed.

(** X12. The two prompts share the standard input, one after the
    other. When the input holds the lines of a description, none of
    them a dot once trimmed, then a line that is a dot once trimmed,
    then more lines, the description prompt returns the description
    and takes the dot line away with it; the change-type prompt that
    follows reads from the first line after the dot and returns the
    first valid answer there, or raises [EOFError] when there is
    none. *)
Theorem prompts_share_the_input prompt w log lines dot rest :
  Forall (λ line, strip line ≠ ".") lines →
  strip dot = "." →
  w_stdin w = lines ++ dot :: rest →
  let run := (description ← ask_multiline_markdown prompt;
              change_type ← ask_change_type;
              mret (description, change_type)) (mkSt w log) in
  match drop (length (rejected_prefix rest)) rest with
  | answer :: post =>
      run.1 = Ret (strip (join nl lines), lower (strip answer))
      ∧ w_stdin (st_world run.2) = post
  | [] => run.1 = Raise EOFError ∧ w_stdin (st_world run.2) = []
  end.
Proof.
  intros Hlines Hdot Hin. cbv zeta. rewrite bind_run.
  unfold ask_multiline_markdown. mstep.
  rewrite collect_lines_run by (cbn; lia). mstep.
  rewrite Hin, (until_dot_app _ _ _ Hlines Hdot).
  replace (drop (S (length lines)) (lines ++ dot :: rest)) with rest.
  2: { rewrite cons_middle, app_assoc. symmetry. apply drop_app_length'.
       rewrite length_app. cbn. lia. }
  unfold ask_change_type. mstep.
  rewrite ask_change_type_loop_run by (cbn; lia). cbv zeta. cbn [w_stdin with_stdin].
  destruct (drop _ rest) as [|answer post]; mstep; done.
Qed.

Lemma prompts_share_the_input_witness :
  Forall (λ line, strip line ≠ ".") ["Line one"; "Line two"]
  ∧ strip " . " = "."
  ∧ w_stdin (Sample.world Sample.config_text
               ["Line one"; "Line two"; " . "; "foo"; "Minor "; "next"])
    = ["Line one"; "Line two"] ++ " . " :: ["foo"; "Minor "; "next"]
  ∧ ((description ← ask_multiline_markdown "Describe";
      change_type ← ask_change_type;
      mret (description, change_type))
       (mkSt (Sample.world Sample.config_text
                ["Line one"; "Line two"; " . "; "foo"; "Minor "; "next"]) [])).1
    = Ret (strip (join nl ["Line one"; "Line two"]), lower (strip "Minor "))
  ∧ w_stdin (st_world
       ((description ← ask_multiline_markdown "Describe";
         change_type ← ask_change_type;
         mret (description, change_type))
          (mkSt (Sample.world Sample.config_text
                   ["Line one"; "Line two"; " . "; "foo"; "Minor "; "next"]) [])).2)
    = ["next"].
Proof.
  assert (H1 : Forall (λ line, strip line ≠ ".") ["Line one"; "Line two"]).
  { repeat constructor; vm_compute; discriminate. }
  assert (H2 : strip " . " = ".") by (vm_compute; reflexivity).
  assert (H3 : w_stdin (Sample.world Sample.config_text
                          ["Line one"; "Line two"; " . "; "foo"; "Minor "; "next"])
               = ["Line one"; "Line two"] ++ " . " :: ["foo"; "Minor "; "next"])
    by reflexivity.
  split; [exact H1|]. split; [exact H2|]. split; [exact H3|].
  exact (prompts_share_the_input "Describe"
           (Sample.world Sample.config_text
              ["Line one"; "Line two"; " . "; "foo"; "Minor "; "next"])
           [] ["Line one"; "Line two"] " . " ["foo"; "Minor "; "next"] H1 H2 H3).
Defined.

(** *** Running a command *)

Lemma str_items_non_str cmd :
  Exists (λ v, is_str v = false) cmd → str_items cmd = Raise TypeError.
Proof.
  induction cmd as [|v cmd IH]; intros Hex; [by inversion Hex|].
  destruct v; try reflexivity.
  cbn [str_items]. rewrite IH; [done|].
  inversion Hex as [? ? Hv|]; [discriminate Hv|done].
Qed.

(** X13. [run_command] accepts a list of str only. When an item of the
    command is anything else, joining the items for the announcement
    raises [TypeError]: nothing is printed and no process is
    started. *)
Theorem run_command_requires_str E cmd cwd check st :
  Exists (λ v, is_str v = false) cmd →
  run_command E cmd cwd check st = (Raise TypeError, st).
Proof.
  intros Hex. unfold run_command. mstep. by rewrite (str_items_non_str _ Hex).
Qed.

Lemma run_command_requires_str_witness :
  Exists (λ v, is_str v = false) [JInt 5; JStr "changeset"; JStr "--empty"]
  ∧ run_command E_ok [JInt 5; JStr "changeset"; JStr "--empty"]
                (Some (parse "/repo")) true (Sample.start Sample.config_text [])
    = (Raise TypeError, Sample.start Sample.config_text []).
Proof.
  assert (H : Exists (λ v, is_str v = false)
                     [JInt 5; JStr "changeset"; JStr "--empty"])
    by (left; reflexivity).
  split; [exact H|].
  exact (run_command_requires_str E_ok _ (Some (parse "/repo")) true
           (Sample.start Sample.config_text []) H).
Defined.

(** X14. [run_command] on a list of str announces the command, the
    items joined by spaces, and then hands exactly these items to the
    system, in the working directory it was given. It returns the exit
    status of the child; when the status is checked, a status other
    than zero becomes a [CalledProcessError] that carries it, so that
    a checked call returns with status 0 only. An exception of
    [subprocess.run] itself is passed on. *)
Theorem run_command_outcomes E items cwd check st :
  let run := run_command E (JStr <$> items) cwd check st in
  ∃ o,
    st_log run.2
    = st_log st ++ [running items; Spawn (as_posix <$> cwd) items o]
    ∧ match run.1 with
      | Ret (rc, _) => o = Exited rc ∧ (check = true → rc = 0%Z)
      | Raise e =>
          o = Raised e
          ∨ ∃ rc, check = true ∧ rc ≠ 0%Z ∧ e = CalledProcessError rc
                  ∧ o = Exited rc
      end.
Proof.
  cbv zeta. unfold run_command. mstep. rewrite str_items_strings. mstep.
  unfold subprocess_run. cbn [st_world st_log].
  destruct (spawn E (as_posix <$> cwd) items (st_world st)) as [[e|[rc out]] w'].
  - eexists. cbn [fst snd st_log]. rewrite <- app_assoc.
    split; [reflexivity|]. by left.
  - destruct check; cbn [andb].
    + destruct (Z.eqb_spec rc 0) as [->|Hrc]; cbn [negb fst snd st_log];
        eexists; rewrite <- app_assoc; (split; [reflexivity|]).
      * done.
      * right. by exists rc.
    + eexists. cbn [fst snd st_log]. rewrite <- app_assoc.
      split; [reflexivity|]. split; [done|discriminate].
Qed.

(** *** The latest changeset file *)

Lemma head_insert_desc {A} (key : A → Z) x l :
  head (insert_desc key x l)
  = match head l with
    | Some y => if (key y <=? key x)%Z then Some x else Some y
    | None => Some x
    end.
Proof. destruct l as [|y l]; cbn; [done|]. by destruct (key y <=? key x)%Z. Qed.

Lemma head_sorted_desc {A} (key : A → Z) l :
  head (sorted_desc key l) = first_max key l.
Proof.
  induction l as [|x l IH]; [done|].
  cbn [sorted_desc foldr first_max]. fold (sorted_desc key l).
  by rewrite head_insert_desc, IH.
Qed.

Lemma first_max_None {A} (key : A → Z) l : first_max key l = None → l = [].
Proof.
  destruct l as [|x l]; [done|]. cbn.
  destruct (first_max key l); [destruct (_ <=? _)%Z|]; discriminate.
Qed.

Lemma first_max_Some {A} (key : A → Z) l x :
  first_max key l = Some x →
  ∃ before after,
    l = before ++ x :: after
    ∧ Forall (λ y, (key y < key x)%Z) before
    ∧ Forall (λ y, (key y ≤ key x)%Z) after.
Proof.
  revert x. induction l as [|a l IH]; intros x; [discriminate|]. cbn.
  destruct (first_max key l) as [y|] eqn:Hl.
  - destruct (IH y eq_refl) as (before & after & -> & Hb & Ha).
    destruct (Z.leb_spec (key y) (key a)) as [Hle|Hlt]; intros [= <-].
    + exists [], (before ++ y :: after). split; [done|]. split; [constructor|].
      apply Forall_app. split; [|constructor].
      * eapply Forall_impl; [exact Hb|]. intros z Hz. cbn in Hz. lia.
      * exact Hle.
      * eapply Forall_impl; [exact Ha|]. intros z Hz. cbn in Hz. lia.
    + exists (a :: before), after. split; [done|]. split; [|done].
      by constructor.
  - apply first_max_None in Hl as ->. intros [= <-].
    exists [], []. by repeat split.
Qed.

(** X15. [find_latest_changeset_file] only looks: it changes neither
    the world nor the trace and never raises. It answers with the
    regular file of the directory, among those whose name ends in
    [.md], that was modified last, and with the first of them in the
    order of enumeration when several share the latest time; it
    answers with nothing exactly when there is no such file, which
    includes a directory that does not exist. *)
Theorem latest_is_first_newest changesets_dir st :
  let w := st_world st in
  (find_latest_changeset_file changesets_dir st).2 = st
  ∧ match (find_latest_changeset_file changesets_dir st).1 with
    | Ret (Some latest) =>
        ∃ before after,
          candidates w changesets_dir = before ++ latest :: after
          ∧ Forall (λ p, (st_mtime w p < st_mtime w latest)%Z) before
          ∧ Forall (λ p, (st_mtime w p ≤ st_mtime w latest)%Z) after
    | Ret None => candidates w changesets_dir = []
    | Raise _ => False
    end.
Proof.
  cbv zeta. unfold find_latest_changeset_file. mstep.
  destruct (negb _) eqn:Hex; mstep.
  - split; [done|]. cbn [fst]. unfold candidates, glob_md.
    apply negb_true_iff, bool_decide_eq_false_1 in Hex.
    destruct (w_fs _ !! _) as [n|]; [|done]. destruct Hex. by exists n.
  - fold (candidates (st_world st) changesets_dir).
    pose proof (head_sorted_desc (st_mtime (st_world st))
                  (candidates (st_world st) changesets_dir)) as Hhead.
    destruct (sorted_desc _ _) as [|latest rest]; mstep; cbn [fst snd head] in *.
    + split; [done|]. by apply (first_max_None (st_mtime (st_world st))).
    + split; [done|]. by apply first_max_Some.
Qed.

(** *** Changed packages *)

Lemma find_nearest {A} (f : A → bool) l x :
  List.find f l = Some x ↔
  ∃ before after, l = before ++ x :: after
                  ∧ f x = true ∧ Forall (λ y, f y = false) before.
Proof.
  induction l as [|a l IH]; cbn.
  - split; [discriminate|]. intros (before & after & H & _). by destruct before.
  - destruct (f a) eqn:Ha.
    + split.
      * intros [= <-]. exists [], l. by repeat split.
      * intros (before & after & Hl & Hx & Hb).
        destruct before as [|b before]; cbn in Hl; simplify_eq; [done|].
        inversion Hb; congruence.
    + rewrite IH. split.
      * intros (before & after & -> & Hx & Hb). exists (a :: before), after.
        split; [done|]. split; [done|]. by constructor.
      * intros (before & after & Hl & Hx & Hb).
        destruct before as [|b before]; cbn in Hl; simplify_eq; [congruence|].
        inversion Hb. eauto.
Qed.

(** X16. When [git status --porcelain] exits with status 0,
    [get_changed_packages] returns a list in ascending order and
    without repetition that holds exactly the directories found for
    the changed files whose path is longer than one character. The
    directory found for a file is the nearest to hold a
    [package.json], the path of the file itself first and then its
    parents from the innermost outward; a file with no such directory
    contributes nothing. *)
Theorem changed_packages_are_nearest_manifests E st stdout w' :
  status_ok E (st_world st) stdout w' →
  ∃ pkgs,
    (get_changed_packages E st).1 = Ret pkgs
    ∧ StronglySorted String.le pkgs
    ∧ NoDup pkgs
    ∧ ∀ pkg, pkg ∈ pkgs ↔
        1 < String.length pkg
        ∧ ∃ file nearer parent farther,
            file ∈ changed_files stdout
            ∧ parse file :: parents (parse file) = nearer ++ parent :: farther
            ∧ has_manifest w' parent = true
            ∧ Forall (λ p, has_manifest w' p = false) nearer
            ∧ as_posix parent = pkg.
Proof.
  intros Hs. destruct (changed_packages_properties E st stdout w' Hs)
    as (pkgs & Hrun & Hsorted & Hnodup & Hin).
  exists pkgs. split; [done|]. split; [done|]. split; [done|].
  intros pkg. rewrite Hin. unfold first_with_manifest.
  fold (has_manifest w'). split.
  - intros (Hlen & file & parent & Hfile & Hfind & Hpkg). split; [done|].
    apply find_nearest in Hfind as (nearer & farther & ? & ? & ?).
    exists file, nearer, parent, farther. done.
  - intros (Hlen & file & nearer & parent & farther & Hfile & Hl & Hp & Hn & Hpkg).
    split; [done|]. exists file, parent. split; [done|]. split; [|done].
    apply find_nearest. eauto.
Qed.

Lemma changed_packages_are_nearest_manifests_witness :
  status_ok (E_status (" M a/pkg1/src/x.ts" +:+ nl +:+ "?? w/" +:+ nl))
            (st_world (Sample.start Sample.config_text []))
            (" M a/pkg1/src/x.ts" +:+ nl +:+ "?? w/" +:+ nl)
            (Sample.world Sample.config_text [])
  ∧ ∃ pkgs,
      (get_changed_packages
         (E_status (" M a/pkg1/src/x.ts" +:+ nl +:+ "?? w/" +:+ nl))
         (Sample.start Sample.config_text [])).1 = Ret pkgs
      ∧ StronglySorted String.le pkgs
      ∧ NoDup pkgs
      ∧ ∀ pkg, pkg ∈ pkgs ↔
          1 < String.length pkg
          ∧ ∃ file nearer parent farther,
              file ∈ changed_files (" M a/pkg1/src/x.ts" +:+ nl +:+ "?? w/" +:+ nl)
              ∧ parse file :: parents (parse file) = nearer ++ parent :: farther
              ∧ has_manifest (Sample.world Sample.config_text []) parent = true
              ∧ Forall (λ p, has_manifest (Sample.world Sample.config_text []) p
                             = false) nearer
              ∧ as_posix parent = pkg.
Proof.
  assert (H : status_ok (E_status (" M a/pkg1/src/x.ts" +:+ nl +:+ "?? w/" +:+ nl))
                (st_world (Sample.start Sample.config_text []))
                (" M a/pkg1/src/x.ts" +:+ nl +:+ "?? w/" +:+ nl)
                (Sample.world Sample.config_text []))
    by (vm_compute; reflexivity).
  split; [exact H|].
  exact (changed_packages_are_nearest_manifests _ _ _ _ H).
Defined.

(** X17. When [git status --porcelain] exits with a status other than
    zero, [get_changed_packages] returns the empty list after one
    warning; it does not look at the file system. *)
Theorem changed_packages_without_status E st rc out w' :
  spawn E None status_cmd (st_world st) = (inr (rc, out), w') →
  rc ≠ 0%Z →
  get_changed_packages E st
  = (Ret [],
     mkSt w' (st_log st ++ [Spawn None status_cmd (Exited rc); no_status_warning])).
Proof.
  intros Hs Hrc. unfold get_changed_packages, subprocess_run. mstep.
  fold status_cmd. rewrite Hs. cbn [andb].
  destruct (Z.eqb_spec rc 0) as [->|_]; [done|]. cbn [negb]. mstep.
  rewrite <- app_assoc. reflexivity.
Qed.

Lemma changed_packages_without_status_witness :
  spawn E_no_repository None status_cmd
        (st_world (Sample.start Sample.config_text []))
  = (inr (128%Z, ""), Sample.world Sample.config_text [])
  ∧ 128%Z ≠ 0%Z
  ∧ get_changed_packages E_no_repository (Sample.start Sample.config_text [])
    = (Ret [],
       mkSt (Sample.world Sample.config_text [])
            ([] ++ [Spawn None status_cmd (Exited 128); no_status_warning])).
Proof.
  assert (H1 : spawn E_no_repository None status_cmd
                     (st_world (Sample.start Sample.config_text []))
               = (inr (128%Z, ""), Sample.world Sample.config_text []))
    by (vm_compute; reflexivity).
  assert (H2 : 128%Z ≠ 0%Z) by lia.
  split; [exact H1|]. split; [exact H2|].
  exact (changed_packages_without_status E_no_repository
           (Sample.start Sample.config_text []) 128%Z ""
           (Sample.world Sample.config_text []) H1 H2).
Defined.

Lemma find_latest_run changesets_dir st :
  find_latest_changeset_file changesets_dir st
  = (Ret (first_max (st_mtime (st_world st))
                    (candidates (st_world st) changesets_dir)), st).
Proof.
  unfold find_latest_changeset_file. mstep.
  destruct (negb _) eqn:Hex; mstep.
  - unfold candidates, glob_md.
    apply negb_true_iff, bool_decide_eq_false_1 in Hex.
    destruct (w_fs _ !! _) as [n|]; [|done]. destruct Hex. by exists n.
  - fold (candidates (st_world st) changesets_dir).
    rewrite <- head_sorted_desc.
    by destruct (sorted_desc _ _) as [|latest rest].
Qed.

Lemma first_max_is_file w changesets_dir p :
  first_max (st_mtime w) (candidates w changesets_dir) = Some p →
  ∃ content t, w_fs w !! fs_key w p = Some (File content t).
Proof.
  intros H. apply first_max_Some in H as (before & after & Hc & _).
  assert (Hin : p ∈ candidates w changesets_dir)
    by (rewrite Hc; apply elem_of_app; right; left).
  unfold candidates in Hin. apply list_elem_of_filter in Hin as [Hfile _].
  unfold is_file in Hfile. destruct (w_fs w !! fs_key w p) as [[content t|]|];
    try discriminate. eauto.
Qed.

(** *** The text of the changeset file *)

Lemma join_lines (lines : list string) (last : string) :
  join nl (lines ++ [last; ""])
  = foldr (λ line rest, (line +:+ nl) +:+ rest) "" lines +:+ (last +:+ nl).
Proof.
  induction lines as [|line lines IH].
  - cbn [app foldr join].
    change ("" +:+ (last +:+ nl)) with (last +:+ nl).
    by rewrite string_app_nil_r.
  - cbn [foldr]. rewrite !string_app_assoc, <- IH.
    change ((line :: lines) ++ [last; ""]) with (line :: (lines ++ [last; ""])).
    destruct lines; reflexivity.
Qed.

Lemma written_content_text E prefix dirs change_type description :
  written_content E prefix dirs change_type description
  = changeset_text (py_str E prefix) dirs change_type description.
Proof.
  unfold written_content, changeset_text.
  change (["---"] ++ ?l ++ ["---"] ++ [""]) with ("---" :: (l ++ ["---"; ""])).
  assert (Hjoin : ∀ l, join nl ("---" :: (l ++ ["---"; ""]))
                       = ("---" +:+ nl) +:+ join nl (l ++ ["---"; ""])).
  { intros l. rewrite string_app_assoc. by destruct l. }
  rewrite Hjoin, join_lines, !string_app_assoc. do 2 f_equal.
  induction dirs as [|dir dirs IH]; [reflexivity|].
  cbn [map foldr]. unfold front_matter_line at 1.
  rewrite !string_app_assoc. by rewrite IH.
Qed.



(** X19. When [create_and_edit_changeset] returns nothing, it has
    written no file and has not asked git for the changed files. What
    it added to the trace is its header, the announcement of the
    scaffolding command, the command itself and one error message:
    the command failed, or no changeset file was found after it. *)
Theorem changeset_failure_writes_nothing E pm description change_type cwd prefix
    st st' :
  create_and_edit_changeset E pm description change_type cwd prefix st
  = (Ret None, st') →
  ∃ items o message,
    str_items [pm; JStr "changeset"; JStr "--empty"] = Ret items
    ∧ st_log st'
      = st_log st ++ [ Stdout (section_text "Changeset"); running items;
                       Spawn (Some (as_posix cwd)) items o; Stderr message ].
Proof.
  rewrite create_and_edit_changeset_unfold. intros H. mstep_in H.
  match type of H with
  | context [attempt E ?cmd cwd ?msg ?s] =>
      destruct (attempt_run E cmd cwd msg s) as (evs1 & Hlog1 & Hc1);
      destruct (attempt E cmd cwd msg s) as [[[|]|e1] st1]
  end; cbn [fst snd st_log negb] in *; mstep_in H; try discriminate.
  - destruct Hc1 as (items & Hitems & ->).
    rewrite find_latest_run in H. cbv beta iota in H.
    destruct (first_max _ _) as [latest|]; mstep_in H.
    + exfalso. mcase H. mstep_in H.
      match type of H with
      | context [match ?l with [] => warn ?m | _ :: _ => _ end] =>
          assert (Hwarn : ∃ log,
            (match l with [] => warn m | _ :: _ => mret tt end) st0
            = (Ret tt, mkSt (st_world st0) log))
      end.
      { destruct a; [eexists; mstep; reflexivity|].
        exists (st_log st0). mstep. by destruct st0. }
      destruct Hwarn as [log Hwarn]. rewrite Hwarn in H. mstep_in H.
      mcase H. mstep_in H. unfold f_write in H. cbv beta iota zeta in H.
      mstep_in H. destruct (negb _); mstep_in H; discriminate.
    + simplify_eq. cbn [st_log]. rewrite Hlog1, <- !app_assoc. eauto.
  - destruct Hc1 as (items & o & Hitems & ->). simplify_eq.
    rewrite Hlog1, <- !app_assoc. unfold failure_message. eauto.
Qed.

Lemma changeset_failure_writes_nothing_witness :
  create_and_edit_changeset E_tool_fails (JStr "pnpm") "Fix the login form"
                            "minor" (parse "/repo") (JStr "@acme")
                            (Sample.start Sample.config_text [])
  = (Ret None,
     (create_and_edit_changeset E_tool_fails (JStr "pnpm") "Fix the login form"
                                "minor" (parse "/repo") (JStr "@acme")
                                (Sample.start Sample.config_text [])).2)
  ∧ ∃ items o message,
      str_items [JStr "pnpm"; JStr "changeset"; JStr "--empty"] = Ret items
      ∧ st_log (create_and_edit_changeset E_tool_fails (JStr "pnpm")
                  "Fix the login form" "minor" (parse "/repo") (JStr "@acme")
                  (Sample.start Sample.config_text [])).2
        = st_log (Sample.start Sample.config_text [])
          ++ [ Stdout (section_text "Changeset"); running items;
               Spawn (Some (as_posix (parse "/repo"))) items o; Stderr message ].
Proof.
  assert (H : create_and_edit_changeset E_tool_fails (JStr "pnpm")
                "Fix the login form" "minor" (parse "/repo") (JStr "@acme")
                (Sample.start Sample.config_text [])
              = (Ret None,
                 (create_and_edit_changeset E_tool_fails (JStr "pnpm")
                    "Fix the login form" "minor" (parse "/repo") (JStr "@acme")
                    (Sample.start Sample.config_text [])).2))
    by (vm_compute; reflexivity).
  split; [exact H|].
  exact (changeset_failure_writes_nothing _ _ _ _ _ _ _ _ H).
Defined.

Lemma open_w_run_file p st old t :
  w_fs (st_world st) !! fs_key (st_world st) p = Some (File old t) →
  open_w p st
  = (Ret (fs_key (st_world st) p),
     mkSt (with_fs (st_world st)
                   (<[fs_key (st_world st) p := File "" (w_now (st_world st))]>
                    (w_fs (st_world st))))
          (st_log st)).
Proof. intros H. unfold open_w. cbv zeta. by rewrite H. Qed.

(** X20. [create_and_edit_changeset] cannot tell a file that the tool
    created from one that was there before. When the scaffolding
    command exits with status 0 but leaves the world as it was, and
    the [.changeset] directory already holds a Markdown file, the
    newest of these files is taken for the new changeset: the call
    succeeds with its path, and its earlier content is replaced by the
    front matter and the description. *)
Theorem changeset_overwrites_existing_file E pm_s description change_type cwd
    prefix st out stdout p :
  spawn E (Some (as_posix cwd)) [pm_s; "changeset"; "--empty"] (st_world st)
  = (inr (0%Z, out), st_world st) →
  (find_latest_changeset_file (joinpath cwd ".changeset") st).1 = Ret (Some p) →
  status_ok E (st_world st) stdout (st_world st) →
  ∃ old t dirs st',
    w_fs (st_world st) !! fs_key (st_world st) p = Some (File old t)
    ∧ create_and_edit_changeset E (JStr pm_s) description change_type cwd prefix st
      = (Ret (Some p), st')
    ∧ w_fs (st_world st') !! fs_key (st_world st) p
      = Some (File (changeset_text (py_str E prefix) dirs change_type description)
                   (w_now (st_world st))).
Proof.
  intros Htool Hfound Hstatus. rewrite find_latest_run in Hfound.
  cbn [fst] in Hfound. injection Hfound as Hfound.
  destruct (first_max_is_file _ _ _ Hfound) as (old & t & Hold).
  exists old, t.
  assert (Hrun : ∃ st',
    create_and_edit_changeset E (JStr pm_s) description change_type cwd prefix st
    = (Ret (Some p), st')
    ∧ w_cwd (st_world st') = w_cwd (st_world st)
    ∧ w_now (st_world st') = w_now (st_world st)).
  { unfold create_and_edit_changeset, run_command. mstep. cbn [str_items]. mstep.
    unfold subprocess_run at 1. cbn [fmap option_fmap option_map st_world st_log].
    rewrite Htool. cbn [andb negb Z.eqb]. mstep. cbn [negb]. mstep.
    rewrite find_latest_run. cbn [st_world]. rewrite Hfound. mstep.
    erewrite get_changed_packages_run by exact Hstatus. mstep.
    match goal with
    | |- context [match ?l with [] => warn ?m | _ :: _ => _ end] =>
        assert (Hwarn : ∀ log, ∃ log',
          (match l with [] => warn m | _ :: _ => mret tt end)
            (mkSt (st_world st) log)
          = (Ret tt, mkSt (st_world st) log'))
    end.
    { intros log. destruct (py_sorted _); eexists; mstep; reflexivity. }
    match goal with
    | |- context [match ?m ?s with (_, _) => _ end] =>
        match s with
        | mkSt (st_world st) ?log => destruct (Hwarn log) as [log' ->]
        end
    end.
    mstep. erewrite open_w_run_file by exact Hold. mstep.
    unfold f_write. cbv beta zeta. cbn [st_world st_log]. mstep.
    destruct (negb _); mstep; cbv beta zeta; cbn [st_world st_log]; mstep;
      eexists; (split; [reflexivity|]); cbn [st_world with_fs w_cwd w_now]; done. }
  destruct Hrun as (st' & Hrun & Hcwd & Hnow).
  destruct (changeset_file_content _ _ _ _ _ _ _ _ _ Hrun)
    as (st1 & st2 & dirs & _ & Hfile).
  exists dirs, st'. split; [done|]. split; [done|].
  rewrite <- written_content_text, <- Hnow.
  unfold fs_key in *. rewrite Hcwd in Hfile. exact Hfile.
Qed.

Lemma changeset_overwrites_existing_file_witness :
  spawn E_tool_idle (Some (as_posix (parse "/repo"))) ["pnpm"; "changeset"; "--empty"]
        (st_world (Sample.start Sample.config_text []))
  = (inr (0%Z, ""), st_world (Sample.start Sample.config_text []))
  ∧ (find_latest_changeset_file (joinpath (parse "/repo") ".changeset")
       (Sample.start Sample.config_text [])).1
    = Ret (Some (parse "/repo/.changeset/README.md"))
  ∧ status_ok E_tool_idle (st_world (Sample.start Sample.config_text [])) ""
              (st_world (Sample.start Sample.config_text []))
  ∧ ∃ old t dirs st',
      w_fs (st_world (Sample.start Sample.config_text []))
        !! fs_key (st_world (Sample.start Sample.config_text []))
                  (parse "/repo/.changeset/README.md")
      = Some (File old t)
      ∧ create_and_edit_changeset E_tool_idle (JStr "pnpm") "Fix the login form"
                                  "minor" (parse "/repo") (JStr "@acme")
                                  (Sample.start Sample.config_text [])
        = (Ret (Some (parse "/repo/.changeset/README.md")), st')
      ∧ w_fs (st_world st')
          !! fs_key (st_world (Sample.start Sample.config_text []))
                    (parse "/repo/.changeset/README.md")
        = Some (File (changeset_text (py_str E_tool_idle (JStr "@acme")) dirs
                                     "minor" "Fix the login form")
                     (w_now (st_world (Sample.start Sample.config_text [])))).
Proof.
  assert (H1 : spawn E_tool_idle (Some (as_posix (parse "/repo")))
                     ["pnpm"; "changeset"; "--empty"]
                     (st_world (Sample.start Sample.config_text []))
               = (inr (0%Z, ""), st_world (Sample.start Sample.config_text [])))
    by (vm_compute; reflexivity).
  assert (H2 : (find_latest_changeset_file (joinpath (parse "/repo") ".changeset")
                  (Sample.start Sample.config_text [])).1
               = Ret (Some (parse "/repo/.changeset/README.md")))
    by (vm_compute; reflexivity).
  assert (H3 : status_ok E_tool_idle (st_world (Sample.start Sample.config_text []))
                 "" (st_world (Sample.start Sample.config_text [])))
    by (vm_compute; reflexivity).
  split; [exact H1|]. split; [exact H2|]. split; [exact H3|].
  exact (changeset_overwrites_existing_file E_tool_idle "pnpm" "Fix the login form"
           "minor" (parse "/repo") (JStr "@acme")
           (Sample.start Sample.config_text []) "" ""
           (parse "/repo/.changeset/README.md") H1 H2 H3).
Defined.

(** *** The build stage, step by step *)

(** The three ways a call of [attempt] can end, with the outcome of
    the child told apart. *)
Lemma attempt_cases E cmd cwd failure st :
  ∃ evs, st_log (attempt E cmd cwd failure st).2 = st_log st ++ evs
         ∧ match (attempt E cmd cwd failure st).1 with
           | Ret true =>
               ∃ items, str_items cmd = Ret items
                        ∧ evs = [running items;
                                 Spawn (Some (as_posix cwd)) items (Exited 0)]
           | Ret false =>
               ∃ items o, str_items cmd = Ret items
                          ∧ o ≠ Exited 0
                          ∧ evs = [running items;
                                   Spawn (Some (as_posix cwd)) items o;
                                   failure_message failure]
           | Raise e =>
               evs = []
               ∨ ∃ items, str_items cmd = Ret items
                          ∧ evs = [running items;
                                   Spawn (Some (as_posix cwd)) items (Raised e)]
           end.
Proof.
  unfold attempt, run_command. mstep.
  destruct (str_items cmd) as [items|e] eqn:Hitems; cbv beta iota.
  2: { apply str_items_raises in Hitems as ->. mstep.
       exists []. rewrite app_nil_r. split; [done|]. by left. }
  mstep. unfold subprocess_run. cbn [fmap option_fmap option_map st_world st_log].
  destruct (spawn E (Some (as_posix cwd)) items (st_world st)) as [[e|[rc out]] w'].
  - destruct e as [| | |rc|kind]; mstep;
      try (eexists [_; _]; rewrite <- app_assoc; split; [reflexivity|];
           right; eauto).
    eexists [_; _; _]. rewrite <- !app_assoc. split; [reflexivity|]. cbn.
    exists items, (Raised (CalledProcessError rc)). by repeat split.
  - cbn [andb]. destruct (Z.eqb_spec rc 0) as [->|Hrc]; cbn [negb]; mstep.
    + eexists [_; _]. rewrite <- app_assoc. split; [reflexivity|]. cbn. eauto.
    + eexists [_; _; _]. rewrite <- !app_assoc. split; [reflexivity|]. cbn.
      exists items, (Exited rc). split; [done|]. split; [congruence|done].
Qed.

(** Find the event named by [Hin] in a trace given item by item. *)
Ltac trace_cases Hin :=
  repeat (apply elem_of_cons in Hin as [Hin|Hin]);
  try discriminate; try (by apply elem_of_nil in Hin).

(** No build command in the trace, hence no result [True]. *)
Ltac no_build :=
  let Hin := fresh "Hin" in
  split;
  [ intros ? ? ? Hin; trace_cases Hin
  | split; [discriminate|]; intros [? [? Hin]]; trace_cases Hin;
    by simplify_eq ].

(** X21. [run_local_build] runs the build only after an install that
    exited with status 0, both with the configured package manager and
    in the directory given, and it answers [True] exactly when the
    build command exited with status 0. A failed install therefore
    ends the stage without a build. *)
Theorem build_runs_after_install E pm cwd st :
  ∃ evs,
    st_log (run_local_build E pm cwd st).2 = st_log st ++ evs
    ∧ (∀ c p o, Spawn c [p; "run"; "build:all"] o ∈ evs →
         pm = JStr p ∧ c = Some (as_posix cwd)
         ∧ Spawn c [p; "install"] (Exited 0) ∈ evs)
    ∧ ((run_local_build E pm cwd st).1 = Ret true
       ↔ ∃ c p, Spawn c [p; "run"; "build:all"] (Exited 0) ∈ evs).
Proof.
  rewrite run_local_build_unfold. mstep.
  match goal with
  | |- context [attempt E ?cmd cwd ?msg ?s] =>
      destruct (attempt_cases E cmd cwd msg s) as (evs1 & Hlog1 & Hc1);
      destruct (attempt E cmd cwd msg s) as [[[|]|e1] st1]
  end; cbn [fst snd st_log negb] in *; cbv beta iota.
  - (* installed *)
    destruct Hc1 as (items1 & Hi1 & ->).
    apply str_items_cons_inv in Hi1 as (pm_s & rest & -> & Hi1 & ->).
    cbn in Hi1. simplify_eq. mstep.
    match goal with
    | |- context [attempt E ?cmd cwd ?msg ?s] =>
        destruct (attempt_cases E cmd cwd msg s) as (evs2 & Hlog2 & Hc2);
        destruct (attempt E cmd cwd msg s) as [[[|]|e2] st2]
    end; cbn [fst snd st_log negb] in *; cbv beta iota;
      [ destruct Hc2 as (items2 & Hi2 & ->); cbn in Hi2; simplify_eq; mstep
      | destruct Hc2 as (items2 & o & Hi2 & Ho & ->); cbn in Hi2; simplify_eq; mstep
      | destruct Hc2 as [->|(items2 & Hi2 & ->)]; [|cbn in Hi2; simplify_eq] ];
      cbn [fst snd st_log]; eexists; rewrite Hlog2, Hlog1, <- !app_assoc;
      (split; [reflexivity|]); try solve [no_build].
    + split.
      * intros c p o Hin. trace_cases Hin. simplify_eq.
        split; [done|]. split; [done|]. find_event.
      * split; [|done]. intros _. eexists _, _. find_event.
    + split.
      * intros c p o' Hin. trace_cases Hin. simplify_eq.
        split; [done|]. split; [done|]. find_event.
      * split; [discriminate|]. intros (c & p & Hin). trace_cases Hin.
        by simplify_eq.
    + split.
      * intros c p o Hin. trace_cases Hin. simplify_eq.
        split; [done|]. split; [done|]. find_event.
      * split; [discriminate|]. intros (c & p & Hin). trace_cases Hin.
  - (* the install failed *)
    destruct Hc1 as (items1 & o & Hi1 & Ho & ->). mstep.
    cbn [fst snd st_log]. eexists. rewrite Hlog1, <- !app_assoc.
    split; [reflexivity|].
    apply str_items_cons_inv in Hi1 as (pm_s & rest & -> & Hi1 & ->).
    cbn in Hi1. simplify_eq. no_build.
  - (* an exception leaves the install *)
    cbn [fst snd st_log]. eexists. rewrite Hlog1, <- !app_assoc.
    split; [reflexivity|].
    destruct Hc1 as [->|(items1 & Hi1 & ->)]; [no_build|].
    apply str_items_cons_inv in Hi1 as (pm_s & rest & -> & Hi1 & ->).
    cbn in Hi1. simplify_eq. no_build.
Qed.

(** *** The submission in a live run *)

(** X22. In a live run, [create_azure_pr] announces and starts exactly
    one command, in the directory given: [az repos pr create] with the
    seven flags and their values in a fixed order, followed by the
    passthrough arguments as they came. It answers [True] after a
    notice when the command exits with status 0, and [False] after an
    error message when it exits with any other status. *)
Theorem live_submission_outcomes E org_url project repo source_branch target_branch
    title description extra cwd st rc out w' :
  let cmd := pr_command org_url project repo source_branch target_branch title
                        description extra in
  spawn E (Some (as_posix cwd)) cmd (st_world st) = (inr (rc, out), w') →
  create_azure_pr E (JStr org_url) (JStr project) (JStr repo) source_branch
                  (JStr target_branch) title description extra cwd false st
  = (Ret (rc =? 0)%Z,
     mkSt w' (st_log st
              ++ [ Stdout (section_text "Azure DevOps PR"); running cmd;
                   Spawn (Some (as_posix cwd)) cmd (Exited rc);
                   if (rc =? 0)%Z then pr_created_notice else pr_failed_error ])).
Proof.
  cbv zeta. intros Hs. unfold create_azure_pr, run_command. mstep.
  change ([JStr "az"; JStr "repos"; JStr "pr"; JStr "create";
           JStr "--organization"; JStr org_url; JStr "--project"; JStr project;
           JStr "--repository"; JStr repo; JStr "--source-branch";
           JStr source_branch; JStr "--target-branch"; JStr target_branch;
           JStr "--title"; JStr title; JStr "--description"; JStr description]
          ++ (JStr <$> extra))
    with (JStr <$> pr_command org_url project repo source_branch target_branch
                     title description extra).
  rewrite str_items_strings. mstep. unfold subprocess_run.
  cbn [fmap option_fmap option_map st_world st_log]. rewrite Hs. cbn [andb].
  destruct (Z.eqb_spec rc 0) as [->|Hrc]; cbn [negb]; mstep;
    rewrite <- !app_assoc; reflexivity.
Qed.

Lemma live_submission_outcomes_witness :
  spawn E_ok (Some (as_posix (parse "/repo")))
        (pr_command "https://dev.azure.com/acme" "shop" "web" "feature/add-login"
                    "main" "add-login" "Fix the login form" ["--draft"])
        (st_world (Sample.start Sample.config_text []))
  = (inr (0%Z, ""), Sample.world Sample.config_text [])
  ∧ create_azure_pr E_ok (JStr "https://dev.azure.com/acme") (JStr "shop")
                    (JStr "web") "feature/add-login" (JStr "main") "add-login"
                    "Fix the login form" ["--draft"] (parse "/repo") false
                    (Sample.start Sample.config_text [])
    = (Ret (0 =? 0)%Z,
       mkSt (Sample.world Sample.config_text [])
            (st_log (Sample.start Sample.config_text [])
             ++ [ Stdout (section_text "Azure DevOps PR");
                  running (pr_command "https://dev.azure.com/acme" "shop" "web"
                             "feature/add-login" "main" "add-login"
                             "Fix the login form" ["--draft"]);
                  Spawn (Some (as_posix (parse "/repo")))
                        (pr_command "https://dev.azure.com/acme" "shop" "web"
                           "feature/add-login" "main" "add-login"
                           "Fix the login form" ["--draft"])
                        (Exited 0);
                  if (0 =? 0)%Z then pr_created_notice else pr_failed_error ])).
Proof.
  assert (H : spawn E_ok (Some (as_posix (parse "/repo")))
                (pr_command "https://dev.azure.com/acme" "shop" "web"
                   "feature/add-login" "main" "add-login" "Fix the login form"
                   ["--draft"])
                (st_world (Sample.start Sample.config_text []))
              = (inr (0%Z, ""), Sample.world Sample.config_text []))
    by (vm_compute; reflexivity).
  split; [exact H|].
  exact (live_submission_outcomes E_ok "https://dev.azure.com/acme" "shop" "web"
           "feature/add-login" "main" "add-login" "Fix the login form" ["--draft"]
           (parse "/repo") (Sample.start Sample.config_text []) 0%Z ""
           (Sample.world Sample.config_text []) H).
Defined.

(** *** The stages of a run *)

Lemma written_in_app written written' evs1 evs2 :
  (written' = true → written_in written evs1) →
  written_in written' evs2 → written_in written (evs1 ++ evs2).
Proof.
  intros H1 [->|(file & text & Hin)].
  - destruct (H1 eq_refl) as [->|(file & text & Hin)]; [by left|].
    right. exists file, text. apply elem_of_app. by left.
  - right. exists file, text. apply elem_of_app. by right.
Qed.

Lemma staged_at_stop E args written r st log evs :
  st_log st = log ++ evs →
  Forall quiet evs →
  r = Ret 1%Z ∨ (∃ e, r = Raise e) →
  staged_at E args written (r, st) log.
Proof.
  intros Hlog Hq Hr. left. exists evs. split; [done|].
  split; [by apply quiet_no_submission|]. split; [done|].
  intros Hex. by apply quiet_no_failure in Hex.
Qed.

Lemma built_in_app evs1 evs2 : built_in evs2 → built_in (evs1 ++ evs2).
Proof.
  intros (c & p & Hi & Hb). exists c, p. split; apply elem_of_app; by right.
Qed.

Lemma staged_at_prefix E args written written' run log evs1 :
  Forall quiet evs1 →
  (written' = true → written_in written evs1) →
  staged_at E args written' run (log ++ evs1) →
  staged_at E args written run log.
Proof.
  intros Hq Hw [(evs2 & Hlog & Hno & Hr & Hf)
               |(st_pr & evs2 & org_url & project & repo & source_branch
                 & target_branch & title & description & cwd
                 & Hlog & Hq2 & Hw2 & Hb & Hd & Hrun)].
  - left. exists (evs1 ++ evs2). rewrite app_assoc. split; [done|].
    split; [apply Forall_app; split; [by apply quiet_no_submission|done]|].
    split; [done|]. intros Hex. apply Exists_app in Hex as [Hex|Hex].
    + by apply quiet_no_failure in Hex.
    + eapply written_in_app; eauto.
  - right. exists st_pr, (evs1 ++ evs2), org_url, project, repo, source_branch,
      target_branch, title, description, cwd. rewrite app_assoc.
    split; [done|]. split; [by apply Forall_app|].
    split; [eapply written_in_app; eauto|]. split; [by apply built_in_app|]. done.
Qed.

Lemma staged_bind E args written {A} (m : M A) (f : A → M Z) :
  emits quiet m → (∀ a, staged E args written (f a)) →
  staged E args written (m ≫= f).
Proof.
  intros Hm Hf st. rewrite bind_run. destruct (Hm st) as (evs1 & Hlog1 & Hq1).
  destruct (m st) as [[a|e] st1]; cbn [fst snd] in *.
  - apply (staged_at_prefix _ _ _ written _ _ evs1); [done|by left|].
    rewrite <- Hlog1. apply Hf.
  - eapply staged_at_stop; eauto.
Qed.

Lemma staged_ret_1 E args written : staged E args written (mret 1%Z).
Proof.
  intros st. rewrite mret_run. apply (staged_at_stop _ _ _ _ _ _ []);
    [by rewrite app_nil_r|done|by left].
Qed.

Lemma staged_raise E args written e : staged E args written (raise e).
Proof.
  intros st. rewrite raise_run. apply (staged_at_stop _ _ _ _ _ _ []);
    [by rewrite app_nil_r|done|right; eauto].
Qed.

Lemma staged_changeset E args pm description change_type cwd prefix
    (f : option Path → M Z) :
  staged E args false (f None) →
  (∀ path, staged E args true (f (Some path))) →
  staged E args false
         (create_and_edit_changeset E pm description change_type cwd prefix ≫= f).
Proof.
  intros Hnone Hsome st. rewrite bind_run.
  destruct (create_and_edit_changeset_quiet E pm description change_type cwd
              prefix st) as (evs1 & Hlog1 & Hq1).
  destruct (create_and_edit_changeset E pm description change_type cwd prefix st)
    as [[[path|]|e] st1] eqn:Hcs; cbn [fst snd] in *.
  - apply create_and_edit_changeset_effects in Hcs
      as (pm_s & evs & _ & Hlog & _ & text & Hwrote).
    assert (evs = evs1) as -> by (apply (app_inv_head (st_log st)); congruence).
    apply (staged_at_prefix _ _ _ true _ _ evs1); [done| |].
    + intros _. right. eauto.
    + rewrite <- Hlog1. apply Hsome.
  - apply (staged_at_prefix _ _ _ false _ _ evs1); [done|discriminate|].
    rewrite <- Hlog1. apply Hnone.
  - eapply staged_at_stop; eauto.
Qed.

Lemma staged_build_then_submit E args pm cwd (rest : M Z) org_url project repo
    source_branch target_branch title description cwd' :
  description ≠ "" →
  rest = submit E args org_url project repo source_branch target_branch title
                description cwd' →
  staged E args true
         (ok ← run_local_build E pm cwd; if negb ok then mret 1%Z else rest).
Proof.
  intros Hd -> st. rewrite bind_run.
  destruct (run_local_build_contract E pm cwd st)
    as (evs1 & Hlog1 & Hno & Hfail & Hok).
  destruct (run_local_build E pm cwd st) as [[[|]|e] st1]; cbn [fst snd negb] in *.
  - right. exists st1, evs1, org_url, project, repo, source_branch, target_branch,
      title, description, cwd'. split; [done|]. split.
    { apply Forall_and. split; [done|]. apply Forall_Exists_neg.
      intros Hex. by specialize (Hfail Hex). }
    split; [by left|]. split; [|done].
    destruct (Hok eq_refl) as (pm_s & _ & Hi & Hb). by exists (Some (as_posix cwd)), pm_s.
  - left. exists evs1. rewrite mret_run. cbn [fst snd]. split; [done|].
    split; [done|]. split; [by left|]. intros _. by left.
  - left. exists evs1. split; [done|]. split; [done|]. split; [right; eauto|].
    intros _. by left.
Qed.

Lemma handle_create_pr_staged E args : staged E args false (handle_create_pr E args).
Proof.
  unfold handle_create_pr.
  apply staged_bind; [quiet_go|]. intros w.
  apply staged_bind; [quiet_go|]. intros _.
  apply staged_bind; [apply load_config_file_quiet|]. intros [config|].
  2: apply staged_ret_1.
  apply staged_bind; [quiet_go|]. intros _.
  apply staged_bind; [apply get_current_branch_quiet|]. intros [[|c branch]|].
  1, 3: apply staged_bind; [quiet_go|]; intros _; apply staged_ret_1.
  apply staged_bind.
  { destruct (pr_title_regex config); try quiet_go. apply build_pr_title_quiet. }
  intros title.
  apply staged_bind; [quiet_go|]. intros _.
  apply staged_bind; [apply ask_multiline_markdown_quiet|]. intros description.
  apply staged_bind; [destruct (String.eqb _ _); quiet_go|]. intros _.
  apply staged_bind; [apply ask_change_type_quiet|]. intros change_type.
  apply staged_changeset.
  { apply staged_bind; [quiet_go|]. intros _. apply staged_ret_1. }
  intros path. eapply staged_build_then_submit.
  2: { unfold submit. by destruct (az_args args). }
  destruct (String.eqb description "") eqn:Hd; [discriminate|].
  by apply String.eqb_neq.
Qed.

(** X23. A run that ends without an exception ends with exit status 0
    or 1, whatever the configuration, the input and the child
    processes. *)
Theorem exit_status_is_0_or_1 E args st :
  match (handle_create_pr E args st).1 with
  | Ret status => status = 0%Z ∨ status = 1%Z
  | Raise _ => True
  end.
Proof.
  destruct (handle_create_pr_staged E args st)
    as [(evs & _ & _ & Hr & _)
       |(st_pr & evs & org_url & project & repo & source_branch & target_branch
         & title & description & cwd & _ & _ & _ & _ & _ & Hrun)].
  - destruct Hr as [->|[e ->]]; auto.
  - rewrite Hrun. unfold submit. rewrite bind_run.
    destruct (create_azure_pr _ _ _ _ _ _ _ _ _ _ _ _) as [[[|]|e] st1];
      cbn; auto.
Qed.

Lemma create_azure_pr_true E org_url project repo source_branch target_branch title
    description extra cwd dry st :
  (create_azure_pr E org_url project repo source_branch target_branch title
                   description extra cwd dry st).1 = Ret true →
  ∃ evs,
    st_log (create_azure_pr E org_url project repo source_branch target_branch
                            title description extra cwd dry st).2
    = st_log st ++ evs
    ∧ if dry then Stdout ("Command would be:" +:+ nl) ∈ evs
      else ∃ c rest,
             Spawn c ("az" :: "repos" :: "pr" :: "create" :: rest) (Exited 0) ∈ evs.
Proof.
  unfold create_azure_pr. mstep. destruct dry.
  - mstep. destruct (res_map _ _) as [tokens|e]; cbv beta iota; [|discriminate].
    mstep. destruct (str_items tokens) as [shown|e]; cbv beta iota; [|discriminate].
    mstep. cbn [fst snd st_log]. intros _. eexists. rewrite <- !app_assoc.
    split; [reflexivity|]. find_event.
  - unfold run_command. mstep.
    destruct (str_items _) as [items|e] eqn:Hitems; cbv beta iota.
    2: { apply str_items_raises in Hitems as ->. mstep. discriminate. }
    do 4 (apply str_items_cons_inv in Hitems as (? & ? & ? & Hitems & ->)).
    simplify_eq. mstep. unfold subprocess_run.
    cbn [fmap option_fmap option_map st_world st_log].
    destruct (spawn E _ _ _) as [[e|[rc out]] w'].
    + destruct e; mstep; discriminate.
    + cbn [andb]. destruct (Z.eqb_spec rc 0) as [->|Hrc]; cbn [negb]; mstep;
        [|discriminate].
      cbn [fst snd st_log]. intros _. eexists. rewrite <- !app_assoc.
      split; [reflexivity|]. eexists _, _. find_event.
Qed.

Lemma submit_log E args org_url project repo source_branch target_branch title
    description cwd st :
  st_log (submit E args org_url project repo source_branch target_branch title
                 description cwd st).2
  = st_log (create_azure_pr E org_url project repo source_branch target_branch
                            title description (az_args args) cwd (dry_run args)
                            st).2.
Proof.
  unfold submit. rewrite bind_run.
  by destruct (create_azure_pr _ _ _ _ _ _ _ _ _ _ _ _) as [[success|e] st1].
Qed.

(** X24. Exit status 0 is earned. When a run ends with it, the trace of
    the run shows that the changeset file was written, that the
    install and the build both exited with status 0, and that the
    submission took place: in a live run an [az repos pr create]
    command that exited with status 0, in a dry run the display of the
    command. *)
Theorem successful_run_has_submitted E args st evs :
  (handle_create_pr E args st).1 = Ret 0%Z →
  st_log (handle_create_pr E args st).2 = st_log st ++ evs →
  (∃ file text, Wrote file text ∈ evs)
  ∧ built_in evs
  ∧ if dry_run args then Stdout ("Command would be:" +:+ nl) ∈ evs
    else ∃ c rest,
           Spawn c ("az" :: "repos" :: "pr" :: "create" :: rest) (Exited 0) ∈ evs.
Proof.
  intros Hres Hlog.
  destruct (handle_create_pr_staged E args st)
    as [(evs' & _ & _ & Hr & _)
       |(st_pr & evs1 & org_url & project & repo & source_branch & target_branch
         & title & description & cwd & Hlog1 & _ & Hw & Hb & _ & Hrun)].
  { rewrite Hres in Hr. destruct Hr as [?|[? ?]]; discriminate. }
  rewrite Hrun in Hres, Hlog. rewrite submit_log in Hlog.
  assert (Htrue : (create_azure_pr E org_url project repo source_branch
                     target_branch title description (az_args args) cwd
                     (dry_run args) st_pr).1 = Ret true).
  { unfold submit in Hres. rewrite bind_run in Hres.
    destruct (create_azure_pr _ _ _ _ _ _ _ _ _ _ _ _) as [[[|]|e] st1];
      cbn in Hres; by simplify_eq. }
  apply create_azure_pr_true in Htrue as (evs2 & Hlog2 & Hsub).
  rewrite Hlog2, Hlog1, <- app_assoc in Hlog. apply app_inv_head in Hlog as <-.
  split.
  { destruct Hw as [?|(file & text & Hin)]; [discriminate|].
    exists file, text. apply elem_of_app. by left. }
  split.
  { destruct Hb as (c & p & Hi & Hbuild). exists c, p.
    split; apply elem_of_app; by left. }
  destruct (dry_run args).
  - apply elem_of_app. by right.
  - destruct Hsub as (c & rest & Hin). exists c, rest. apply elem_of_app. by right.
Qed.

Lemma successful_run_has_submitted_witness :
  (handle_create_pr (E_run 0) (run_args false) run_start).1 = Ret 0%Z
  ∧ st_log (handle_create_pr (E_run 0) (run_args false) run_start).2
    = st_log run_start
      ++ st_log (handle_create_pr (E_run 0) (run_args false) run_start).2
  ∧ (∃ file text,
       Wrote file text
       ∈ st_log (handle_create_pr (E_run 0) (run_args false) run_start).2)
  ∧ built_in (st_log (handle_create_pr (E_run 0) (run_args false) run_start).2)
  ∧ if dry_run (run_args false)
    then Stdout ("Command would be:" +:+ nl)
         ∈ st_log (handle_create_pr (E_run 0) (run_args false) run_start).2
    else ∃ c rest,
           Spawn c ("az" :: "repos" :: "pr" :: "create" :: rest) (Exited 0)
           ∈ st_log (handle_create_pr (E_run 0) (run_args false) run_start).2.
Proof.
  assert (H1 : (handle_create_pr (E_run 0) (run_args false) run_start).1
               = Ret 0%Z) by (vm_compute; reflexivity).
  assert (H2 : st_log (handle_create_pr (E_run 0) (run_args false) run_start).2
               = st_log run_start
                 ++ st_log (handle_create_pr (E_run 0) (run_args false)
                              run_start).2) by reflexivity.
  split; [exact H1|]. split; [exact H2|].
  exact (successful_run_has_submitted (E_run 0) (run_args false) run_start _ H1 H2).
Defined.

(** X25. A run does not undo the changeset when the build stage fails.
    If the install command or the build command exits with a status
    other than zero during a run, the changeset file was written
    before: the failure leaves it behind in the working tree. *)
Theorem failed_build_leaves_changeset E args st r st' evs :
  handle_create_pr E args st = (r, st') →
  st_log st' = st_log st ++ evs →
  Exists install_or_build_failed evs →
  ∃ file text, Wrote file text ∈ evs.
Proof.
  intros Hrun Hlog Hex.
  destruct (handle_create_pr_staged E args st)
    as [(evs' & Hlog' & _ & _ & Hf)
       |(st_pr & evs1 & org_url & project & repo & source_branch & target_branch
         & title & description & cwd & Hlog1 & _ & Hw & _ & _ & Hsub)];
    rewrite Hrun in *; cbn [fst snd] in *.
  - assert (evs' = evs) as -> by (apply (app_inv_head (st_log st)); congruence).
    destruct (Hf Hex) as [?|?]; [discriminate|done].
  - destruct Hw as [?|(file & text & Hin)]; [discriminate|].
    assert (Hlog2 : ∃ evs2, st_log st' = st_log st_pr ++ evs2).
    { pose proof (submit_log E args org_url project repo source_branch
                    target_branch title description cwd st_pr) as Hs.
      rewrite <- Hsub in Hs. cbn [snd] in Hs. rewrite Hs.
      destruct (create_azure_pr_not_failed E org_url project repo source_branch
                  target_branch title description (az_args args) cwd
                  (dry_run args) st_pr) as (evs2 & Hl & _). eauto. }
    destruct Hlog2 as [evs2 Hlog2].
    rewrite Hlog2, Hlog1, <- app_assoc in Hlog. apply app_inv_head in Hlog as <-.
    exists file, text. apply elem_of_app. by left.
Qed.

Lemma failed_build_leaves_changeset_witness :
  handle_create_pr (E_run 2) (run_args false) run_start = (failed_run.1, failed_run.2)
  ∧ st_log failed_run.2 = st_log run_start ++ st_log failed_run.2
  ∧ Exists install_or_build_failed (st_log failed_run.2)
  ∧ ∃ file text, Wrote file text ∈ st_log failed_run.2.
Proof.
  assert (H1 : handle_create_pr (E_run 2) (run_args false) run_start
               = (failed_run.1, failed_run.2)) by (vm_compute; reflexivity).
  assert (H2 : st_log failed_run.2 = st_log run_start ++ st_log failed_run.2)
    by reflexivity.
  assert (H3 : Exists install_or_build_failed (st_log failed_run.2)).
  { apply Exists_exists.
    exists (Spawn (Some "/repo") ["pnpm"; "run"; "build:all"] (Exited 2)). split.
    - vm_compute. find_event.
    - exists (Some "/repo"), "pnpm", 2%Z. split; [discriminate|]. by right. }
  split; [exact H1|]. split; [exact H2|]. split; [exact H3|].
  exact (failed_build_leaves_changeset (E_run 2) (run_args false) run_start
           failed_run.1 failed_run.2 (st_log failed_run.2) H1 H2 H3).
Defined.



(** X27. Without a configuration there is no run. When the loader
    returns nothing (the file is missing, is not JSON, or lacks a
    required key), the run ends there with exit status 1: the world is
    as it was, no process was started, nothing was read from the
    standard input, and beyond its first header the run has written to
    the error stream only. *)
Theorem run_stops_without_configuration E args st :
  let load := load_config_file E (configuration_path st) (at_configuration st) in
  load.1 = Ret None →
  handle_create_pr E args st = (Ret 1%Z, load.2)
  ∧ st_world load.2 = st_world st
  ∧ ∃ evs, st_log load.2
           = st_log st ++ Stdout (section_text "Configuration") :: evs
           ∧ Forall on_stderr evs.
Proof.
  cbv zeta. intros Hload. split; [|split].
  - unfold handle_create_pr. mstep.
    fold (at_configuration st). fold (configuration_path st).
    destruct (load_config_file E _ _) as [r st1]. cbn [fst snd] in *.
    subst. reflexivity.
  - apply (load_config_file_keeps_world E _ (at_configuration st)).
  - destruct (load_config_file_on_stderr E (configuration_path st)
                (at_configuration st)) as (evs & Hlog & Herr).
    exists evs. rewrite Hlog. cbn [at_configuration st_log].
    by rewrite <- app_assoc.
Qed.

Lemma run_stops_without_configuration_witness :
  (load_config_file E_ok (configuration_path (Sample.start Sample.partial_text []))
     (at_configuration (Sample.start Sample.partial_text []))).1 = Ret None
  ∧ handle_create_pr E_ok (run_args false) (Sample.start Sample.partial_text [])
    = (Ret 1%Z,
       (load_config_file E_ok
          (configuration_path (Sample.start Sample.partial_text []))
          (at_configuration (Sample.start Sample.partial_text []))).2)
  ∧ st_world (load_config_file E_ok
                (configuration_path (Sample.start Sample.partial_text []))
                (at_configuration (Sample.start Sample.partial_text []))).2
    = st_world (Sample.start Sample.partial_text [])
  ∧ ∃ evs, st_log (load_config_file E_ok
                     (configuration_path (Sample.start Sample.partial_text []))
                     (at_configuration (Sample.start Sample.partial_text []))).2
           = st_log (Sample.start Sample.partial_text [])
             ++ Stdout (section_text "Configuration") :: evs
           ∧ Forall on_stderr evs.
Proof.
  assert (H : (load_config_file E_ok
                 (configuration_path (Sample.start Sample.partial_text []))
                 (at_configuration (Sample.start Sample.partial_text []))).1
              = Ret None) by (vm_compute; reflexivity).
  split; [exact H|].
  exact (run_stops_without_configuration E_ok (run_args false)
           (Sample.start Sample.partial_text []) H).
Defined.

(** X28. Without a branch there is no run either. When
    [get_current_branch] answers with nothing (git failed, or [HEAD]
    is detached) or with the empty string, the run ends with exit
    status 1 after one more error message; neither prompt has been
    shown, and no changeset was created. *)
Theorem run_stops_without_branch E args st config st1 branch st2 :
  load_config_file E (configuration_path st) (at_configuration st)
  = (Ret (Some config), st1) →
  get_current_branch E (at_git st1) = (Ret branch, st2) →
  branch = None ∨ branch = Some "" →
  handle_create_pr E args st
  = (Ret 1%Z, mkSt (st_world st2) (st_log st2 ++ [no_current_branch_error])).
Proof.
  intros Hload Hbranch Hnone. unfold handle_create_pr. mstep.
  fold (at_configuration st). fold (configuration_path st). rewrite Hload.
  mstep. fold (at_git st1). rewrite Hbranch.
  destruct Hnone as [-> | ->]; mstep; reflexivity.
Qed.

Lemma run_stops_without_branch_witness :
  load_config_file E_detached
    (configuration_path (Sample.start Sample.config_text ["unread"]))
    (at_configuration (Sample.start Sample.config_text ["unread"]))
  = (Ret (Some (mkBlackyConfig (JStr "^feature/(?P<title>.+)$") (JStr "pnpm")
                               (JStr "main") (JStr "@acme")
                               (mkAzureConfig (JStr "https://dev.azure.com/acme")
                                              (JStr "shop") (JStr "web")))),
     at_configuration (Sample.start Sample.config_text ["unread"]))
  ∧ get_current_branch E_detached
      (at_git (at_configuration (Sample.start Sample.config_text ["unread"])))
    = (Ret None,
       mkSt (Sample.world Sample.config_text ["unread"])
            [ Stdout (section_text "Configuration"); Stdout (section_text "Git");
              Spawn None rev_parse_cmd (Exited 0) ])
  ∧ (@None string = None ∨ None = Some "")
  ∧ handle_create_pr E_detached (run_args false)
                     (Sample.start Sample.config_text ["unread"])
    = (Ret 1%Z,
       mkSt (Sample.world Sample.config_text ["unread"])
            ([ Stdout (section_text "Configuration"); Stdout (section_text "Git");
               Spawn None rev_parse_cmd (Exited 0) ]
             ++ [no_current_branch_error])).
Proof.
  assert (H1 : load_config_file E_detached
                 (configuration_path (Sample.start Sample.config_text ["unread"]))
                 (at_configuration (Sample.start Sample.config_text ["unread"]))
               = (Ret (Some (mkBlackyConfig (JStr "^feature/(?P<title>.+)$")
                               (JStr "pnpm") (JStr "main") (JStr "@acme")
                               (mkAzureConfig (JStr "https://dev.azure.com/acme")
                                              (JStr "shop") (JStr "web")))),
                  at_configuration (Sample.start Sample.config_text ["unread"])))
    by (vm_compute; reflexivity).
  assert (H2 : get_current_branch E_detached
                 (at_git (at_configuration
                            (Sample.start Sample.config_text ["unread"])))
               = (Ret None,
                  mkSt (Sample.world Sample.config_text ["unread"])
                       [ Stdout (section_text "Configuration");
                         Stdout (section_text "Git");
                         Spawn None rev_parse_cmd (Exited 0) ]))
    by (vm_compute; reflexivity).
  assert (H3 : @None string = None ∨ None = Some "") by (left; reflexivity).
  split; [exact H1|]. split; [exact H2|]. split; [exact H3|].
  exact (run_stops_without_branch E_detached (run_args false)
           (Sample.start Sample.config_text ["unread"]) _ _ None _ H1 H2 H3).
Defined.

(** *** Failure statuses never leave the run *)

Section Contained.
Context {A : Type}.

Lemma contained_ret (a : A) : contained (mret a).
Proof. intros st rc. discriminate. Qed.

Lemma contained_raise e :
  (∀ rc, e ≠ CalledProcessError rc) → contained (raise (A := A) e).
Proof. intros He st rc [= ->]. by apply (He rc). Qed.

Lemma contained_lift (r : res A) :
  (∀ rc, r ≠ Raise (CalledProcessError rc)) → contained (lift r).
Proof. intros Hr st rc. apply Hr. Qed.

Lemma contained_bind {B} (m : M B) (f : B → M A) :
  contained m → (∀ b, contained (f b)) → contained (m ≫= f).
Proof.
  intros Hm Hf st rc. rewrite bind_run. specialize (Hm st rc).
  destruct (m st) as [[b|e] st1]; cbn [fst snd] in *; [apply Hf|].
  intros [= ->]. by apply Hm.
Qed.

(** A handler for [CalledProcessError] contains the failure, whatever
    the body does. *)
Lemma contained_try_handled (m : M A) handler :
  (∀ rc, handler (CalledProcessError rc) ≠ None) →
  (∀ e h, handler e = Some h → contained h) →
  contained (try_except m handler).
Proof.
  intros Hcpe Hh st rc. rewrite try_except_run.
  destruct (m st) as [[a|e] st1]; cbn [fst snd]; [discriminate|].
  destruct (handler e) as [h|] eqn:He; [by apply (Hh e h)|].
  cbn [fst]. intros [= ->]. by apply (Hcpe rc).
Qed.

(** Any other handler leaves things as the body has them. *)
Lemma contained_try_except (m : M A) handler :
  contained m → (∀ e h, handler e = Some h → contained h) →
  contained (try_except m handler).
Proof.
  intros Hm Hh st rc. rewrite try_except_run. specialize (Hm st rc).
  destruct (m st) as [[a|e] st1]; cbn [fst snd] in *; [discriminate|].
  destruct (handler e) as [h|] eqn:He; [by apply (Hh e h)|done].
Qed.

End Contained.

Lemma contained_get_world : contained get_world.
Proof. intros st rc. discriminate. Qed.

Lemma contained_emit e : contained (emit e).
Proof. intros st rc. discriminate. Qed.

Lemma contained_input prompt : contained (input prompt).
Proof.
  intros st rc. rewrite input_run. by destruct (w_stdin (st_world st)).
Qed.

Lemma contained_read_text p : contained (read_text p).
Proof.
  intros st rc. rewrite read_text_run. by destruct (w_fs _ !! _) as [[]|].
Qed.

Lemma contained_open_w p : contained (open_w p).
Proof.
  intros st rc. unfold open_w. cbv zeta.
  repeat (destruct (w_fs _ !! _) as [[]|]; try done).
Qed.

Lemma contained_f_write f text : contained (f_write f text).
Proof. intros st rc. discriminate. Qed.

Lemma contained_for_each {A} (l : list A) body :
  (∀ x, contained (body x)) → contained (for_each l body).
Proof.
  intros Hb. induction l as [|x l IH]; cbn [for_each].
  - apply contained_ret.
  - apply contained_bind; [apply Hb|]. intros _. apply IH.
Qed.

Lemma contained_get v key : contained (lift (get v key)).
Proof. apply contained_lift. intros rc. destruct v; cbn; discriminate. Qed.

Lemma contained_str_items l : contained (lift (str_items l)).
Proof.
  apply contained_lift. intros rc H. by apply str_items_raises in H.
Qed.

Lemma display_tokens_raise E l e :
  res_map (display_token E) l = Raise e → e = TypeError.
Proof.
  induction l as [|v l IH]; cbn; [discriminate|].
  unfold display_token at 1.
  destruct (has_space v) as [[|]|e'] eqn:Hv.
  - destruct (res_map _ l); intros; simplify_eq. by apply IH.
  - destruct (res_map _ l); intros; simplify_eq. by apply IH.
  - intros; simplify_eq. destruct v; cbn in Hv; by simplify_eq.
Qed.

Lemma contained_display_tokens E l : contained (lift (res_map (display_token E) l)).
Proof.
  apply contained_lift. intros rc H. by apply display_tokens_raise in H.
Qed.

Ltac contained_step :=
  first [ apply contained_ret | apply contained_get_world | apply contained_emit
        | apply contained_input | apply contained_read_text
        | apply contained_open_w | apply contained_f_write
        | apply contained_get | apply contained_str_items
        | apply contained_display_tokens
        | apply contained_raise; discriminate
        | apply contained_for_each; intros ?
        | apply contained_bind; [|intros ?] ].

Ltac contained_go := repeat contained_step.

(** The handler of every call of a child process in the script. *)
Ltac contained_try :=
  apply contained_try_handled;
  [ discriminate
  | let He := fresh "He" in
    intros [] ? He; simplify_eq; contained_go ].

Section ContainedStages.
Variable E : Env.

Lemma load_config_file_contained p : contained (load_config_file E p).
Proof.
  unfold load_config_file. apply contained_bind; [contained_go|]. intros w.
  destruct (negb _); [contained_go|].
  apply contained_bind; [contained_go|]. intros text.
  destruct (json_loads E text); [contained_go|].
  do 8 (apply contained_bind; [contained_go|]; intros ?).
  match goal with |- contained (match ?l with _ => _ end) => destruct l end;
    contained_go.
Qed.

Lemma get_current_branch_contained : contained (get_current_branch E).
Proof. unfold get_current_branch. contained_try. Qed.

Lemma get_git_remote_url_contained : contained (get_git_remote_url E).
Proof. unfold get_git_remote_url. contained_try. Qed.

Lemma build_pr_title_contained branch pattern :
  contained (build_pr_title_from_branch E branch pattern).
Proof.
  unfold build_pr_title_from_branch.
  destruct (re_compile E pattern) as [e|p]; [contained_go|].
  destruct (p branch) as [m|]; [|contained_go].
  destruct (groupdict m !! "title") as [[[|c t]|]|];
    try (destruct (groups m) as [|[g|] ?]); contained_go.
Qed.

Lemma collect_lines_contained fuel acc : contained (collect_lines fuel acc).
Proof.
  revert acc. induction fuel as [|fuel IH]; intros acc; cbn [collect_lines].
  - contained_go.
  - apply contained_bind.
    + apply contained_try_except; [contained_go|].
      intros [] h He; simplify_eq. contained_go.
    + intros [line|]; [|contained_go].
      destruct (String.eqb _ _); [contained_go|apply IH].
Qed.

Lemma ask_multiline_markdown_contained prompt :
  contained (ask_multiline_markdown prompt).
Proof.
  unfold ask_multiline_markdown.
  do 4 (apply contained_bind; [contained_go|]; intros ?).
  apply contained_bind; [apply collect_lines_contained|]. intros ?. contained_go.
Qed.

Lemma ask_change_type_loop_contained fuel : contained (ask_change_type_loop fuel).
Proof.
  induction fuel as [|fuel IH]; cbn [ask_change_type_loop]; [contained_go|].
  apply contained_bind; [contained_go|]. intros line.
  destruct (bool_decide _); [contained_go|].
  apply contained_bind; [contained_go|]. intros _. apply IH.
Qed.

Lemma ask_change_type_contained : contained ask_change_type.
Proof.
  unfold ask_change_type.
  do 2 (apply contained_bind; [contained_go|]; intros ?).
  apply ask_change_type_loop_contained.
Qed.

Lemma find_latest_contained dir : contained (find_latest_changeset_file dir).
Proof. intros st rc. by rewrite find_latest_run. Qed.

Lemma get_changed_packages_contained : contained (get_changed_packages E).
Proof.
  unfold get_changed_packages. apply contained_bind; [contained_try|].
  intros [[rc out]|]; contained_go.
Qed.

Lemma create_and_edit_changeset_contained pm description change_type cwd prefix :
  contained (create_and_edit_changeset E pm description change_type cwd prefix).
Proof.
  unfold create_and_edit_changeset.
  apply contained_bind; [contained_go|]. intros _.
  apply contained_bind; [contained_try|]. intros created.
  destruct (negb created); [contained_go|].
  apply contained_bind; [apply find_latest_contained|].
  intros [latest|]; [|contained_go].
  apply contained_bind; [contained_go|]. intros _.
  apply contained_bind; [apply get_changed_packages_contained|]. intros dirs.
  apply contained_bind; [destruct dirs; contained_go|]. intros _.
  apply contained_bind; [contained_go|]. intros f.
  apply contained_bind; [contained_go|]. intros _.
  apply contained_bind; [destruct (negb _); contained_go|]. intros ?. contained_go.
Qed.

Lemma run_local_build_contained pm cwd : contained (run_local_build E pm cwd).
Proof.
  unfold run_local_build.
  apply contained_bind; [contained_go|]. intros _.
  apply contained_bind; [contained_try|]. intros installed.
  destruct (negb installed); [contained_go|].
  apply contained_bind; [contained_try|]. intros built.
  destruct (negb built); contained_go.
Qed.

Lemma create_azure_pr_contained org_url project repo source_branch target_branch
    title description extra cwd dry :
  contained (create_azure_pr E org_url project repo source_branch target_branch
                             title description extra cwd dry).
Proof.
  unfold create_azure_pr.
  apply contained_bind; [contained_go|]. intros _.
  destruct dry; [contained_go|contained_try].
Qed.

(** X29. No failure status of a child process escapes a run as an
    exception. Whatever the commands answer, [handle_create_pr]
    never raises [CalledProcessError]: every call of a child process
    sits in a handler that turns a failed command into a message and
    a result. *)
Theorem process_failures_never_escape args st rc :
  (handle_create_pr E args st).1 ≠ Raise (CalledProcessError rc).
Proof.
  revert st rc. change (contained (handle_create_pr E args)).
  unfold handle_create_pr.
  apply contained_bind; [contained_go|]. intros w.
  apply contained_bind; [contained_go|]. intros _.
  apply contained_bind; [apply load_config_file_contained|].
  intros [config|]; [|contained_go].
  apply contained_bind; [contained_go|]. intros _.
  apply contained_bind; [apply get_current_branch_contained|].
  intros [[|c branch]|]; [contained_go| |contained_go].
  apply contained_bind.
  { destruct (pr_title_regex config); try contained_go.
    apply build_pr_title_contained. }
  intros title.
  apply contained_bind; [contained_go|]. intros _.
  apply contained_bind; [apply ask_multiline_markdown_contained|].
  intros description.
  apply contained_bind; [destruct (String.eqb _ _); contained_go|]. intros _.
  apply contained_bind; [apply ask_change_type_contained|]. intros change_type.
  apply contained_bind; [apply create_and_edit_changeset_contained|].
  intros [path|]; [|contained_go].
  apply contained_bind; [apply run_local_build_contained|]. intros ok.
  destruct (negb ok); [contained_go|].
  apply contained_bind; [apply create_azure_pr_contained|]. intros ?. contained_go.
Qed.

End ContainedStages.
